(** * Schedule backend: week arithmetic, series dates, day replacement, bulk week operations

    Shallow embedding of
    - [services/week.service.js]       ([getWeekInfo], [formatLocalDate]),
    - [services/generator.service.js]  ([generateDates], [getWeekNumber]),
    - [services/audit.service.js]      ([logChange]),
    - the schedule-day controller      ([updateScheduleByDay]),
    - [controllers/admin.controller.js] ([copyWeek], [clearWeek], [replaceTeacher]),
    - the schedule-week controller     (the week of [getScheduleByWeek]),
    - [middleware/role.middleware.js]  ([adminOnly]) and the admin routes.

    Modelling conventions.
    - A JavaScript [Date] is its time value: milliseconds since the epoch, a
      mathematical integer ([Z]).  Numbers that the code handles are integers
      or NaN ([Number]); the limits of double precision are not part of the
      model.  [setDate], through which a caller's week offset reaches the
      calendar, ends with TimeClip as in ECMA-262: beyond 8.64e15 ms either
      side of the epoch the date becomes an Invalid Date ([NaN]) and stays
      one.  [Date.UTC], [setUTCDate], [setHours] and [new Date(y, m, d)] are
      applied to the clock's date, to a date of the semester or to a date the
      guard has read, and are modelled on time values without TimeClip.
    - The server's time zone is a fixed offset [tz] (milliseconds east of UTC),
      a parameter of every definition that reads local time; daylight saving
      time is not part of the model: every statement below is one about a
      server whose zone keeps one offset all year.
    - The calendar functions follow ECMA-262 (Day, DayFromYear, YearFromTime,
      MonthFromTime, DateFromTime, WeekDay, MakeDay, MakeDate, TimeClip).
    - [new Date()] is a parameter [now] of the function that calls it.
    - The database is a state threaded through the handlers.  A column has
      the type the schema gives it; a parameter arrives as text and is read
      as a value of the column's type before it is compared or stored.  How
      PostgreSQL reads a date and a time of day, and how the driver renders a
      result row, are parameters of the model ([Backend]).
    - An oracle [faults] decides which statements the server answers with an
      error, for whatever reason: a lost connection, a constraint, a
      parameter that is no value of the column's type.  Where [faults] lets a
      statement with such a parameter through, the model reads the parameter
      as NULL; no run of the program corresponds to it. *)

From Stdlib Require Import ZArith Lia Bool List String Ascii DecimalString.
Import ListNotations.
Open Scope Z_scope.

Ltac zlia := Z.div_mod_to_equations; lia.

(* ------------------------------------------------------------------ *)
(** ** ECMA-262 date arithmetic *)

Module JsDate.

Definition msPerDay : Z := 86400000.

(** A Number that is an integer or NaN; also the time value of a [Date],
    which is NaN for an Invalid Date. *)
Inductive Number :=
| Num (n : Z)
| NaN.

Definition mapNum (f : Z -> Z) (x : Number) : Number :=
  match x with
  | Num n => Num (f n)
  | NaN => NaN
  end.

(** A method applied to a [Date] that may be invalid: the getters of an
    Invalid Date give NaN, and a setter called with NaN leaves it invalid. *)
Definition bindNum (x : Number) (f : Z -> Number) : Number :=
  match x with
  | Num n => f n
  | NaN => NaN
  end.

Definition maxTime : Z := 8640000000000000.

Definition TimeClip (t : Z) : Number :=
  if Z.abs t <=? maxTime then Num t else NaN.

Definition Day (t : Z) : Z := t / msPerDay.
Definition TimeWithinDay (t : Z) : Z := t mod msPerDay.

Definition DayFromYear (y : Z) : Z :=
  365 * (y - 1970) + (y - 1969) / 4 - (y - 1901) / 100 + (y - 1601) / 400.

Definition DaysInYear (y : Z) : Z :=
  if negb (y mod 4 =? 0) then 365
  else if negb (y mod 100 =? 0) then 366
  else if negb (y mod 400 =? 0) then 365
  else 366.

Definition InLeapYearOf (y : Z) : Z := if DaysInYear y =? 366 then 1 else 0.

(** The largest year [y] with [DayFromYear y <= d]: an estimate from the mean
    year length, corrected by at most one year (see [YearFromDay_spec]). *)
Definition YearFromDay (d : Z) : Z :=
  let y := 1970 + d * 400 / 146097 in
  if DayFromYear (y + 1) <=? d then y + 1
  else if DayFromYear y <=? d then y
  else y - 1.

Definition YearFromTime (t : Z) : Z := YearFromDay (Day t).
Definition InLeapYear (t : Z) : Z := InLeapYearOf (YearFromTime t).
Definition DayWithinYear (t : Z) : Z := Day t - DayFromYear (YearFromTime t).

(** Number of days of the year that precede month [m] (0 = January). *)
Definition monthStart (m leap : Z) : Z :=
  if m =? 0 then 0
  else if m =? 1 then 31
  else if m =? 2 then 59 + leap
  else if m =? 3 then 90 + leap
  else if m =? 4 then 120 + leap
  else if m =? 5 then 151 + leap
  else if m =? 6 then 181 + leap
  else if m =? 7 then 212 + leap
  else if m =? 8 then 243 + leap
  else if m =? 9 then 273 + leap
  else if m =? 10 then 304 + leap
  else 334 + leap.

Definition monthOfDayWithinYear (dwy leap : Z) : Z :=
  if dwy <? 31 then 0
  else if dwy <? 59 + leap then 1
  else if dwy <? 90 + leap then 2
  else if dwy <? 120 + leap then 3
  else if dwy <? 151 + leap then 4
  else if dwy <? 181 + leap then 5
  else if dwy <? 212 + leap then 6
  else if dwy <? 243 + leap then 7
  else if dwy <? 273 + leap then 8
  else if dwy <? 304 + leap then 9
  else if dwy <? 334 + leap then 10
  else 11.

Definition MonthFromTime (t : Z) : Z :=
  monthOfDayWithinYear (DayWithinYear t) (InLeapYear t).

Definition DateFromTime (t : Z) : Z :=
  DayWithinYear t - monthStart (MonthFromTime t) (InLeapYear t) + 1.

Definition WeekDay (t : Z) : Z := (Day t + 4) mod 7.

Definition MakeDay (year month date : Z) : Z :=
  let ym := year + month / 12 in
  let mn := month mod 12 in
  DayFromYear ym + monthStart mn (InLeapYearOf ym) + date - 1.

Definition MakeDate (day time : Z) : Z := day * msPerDay + time.

(** The [Date] constructor and [Date.UTC] read a year from 0 to 99 as a year
    of the twentieth century. *)
Definition MakeFullYear (year : Z) : Z :=
  if (0 <=? year) && (year <=? 99) then 1900 + year else year.

Section LocalTime.

(** Offset of the server's local time from UTC, in milliseconds. *)
Variable tz : Z.

Definition LocalTime (t : Z) : Z := t + tz.
Definition UTC (t : Z) : Z := t - tz.

Definition getFullYear (d : Z) : Z := YearFromTime (LocalTime d).
Definition getMonth (d : Z) : Z := MonthFromTime (LocalTime d).
Definition getDate (d : Z) : Z := DateFromTime (LocalTime d).
Definition getDay (d : Z) : Z := WeekDay (LocalTime d).

(** [d.setDate(dt)] on a valid date [d]: the day of the month is replaced,
    the local time of day is kept; a [dt] outside the month carries into the
    neighbouring months; a result outside the range of [Date] is NaN. *)
Definition setDate (d dt : Z) : Number :=
  let t := LocalTime d in
  TimeClip
    (UTC (MakeDate (MakeDay (YearFromTime t) (MonthFromTime t) dt) (TimeWithinDay t))).

(** [d.setHours(0, 0, 0, 0)]: local midnight of the local day of [d]. *)
Definition setHours0 (d : Z) : Z :=
  UTC (MakeDate (Day (LocalTime d)) 0).

(** [new Date(year, month, date)]: local midnight of that civil date. *)
Definition newDateYMD (year month date : Z) : Z :=
  UTC (MakeDate (MakeDay (MakeFullYear year) month date) 0).

End LocalTime.

(** [Date.UTC(year, month, date)]. *)
Definition Date_UTC (year month date : Z) : Z :=
  MakeDate (MakeDay (MakeFullYear year) month date) 0.

Definition getUTCFullYear (d : Z) : Z := YearFromTime d.
Definition getUTCDate (d : Z) : Z := DateFromTime d.
Definition getUTCDay (d : Z) : Z := WeekDay d.
Definition setUTCDate (d dt : Z) : Z :=
  MakeDate (MakeDay (YearFromTime d) (MonthFromTime d) dt) (TimeWithinDay d).

End JsDate.

(* ------------------------------------------------------------------ *)
(** ** services/week.service.js *)

Module WeekService.
Import JsDate.

(** [String(n)] for an integer [n]. *)
Definition String_of_Z (n : Z) : string := NilZero.string_of_int (Z.to_int n).

(** [s.padStart(2, '0')]. *)
Definition padStart2 (s : string) : string :=
  match String.length s with
  | O => "00"%string
  | S O => ("0" ++ s)%string
  | _ => s
  end.

Record WeekInfo := mkWeekInfo {
  weekNumber : Number;
  isEven : bool;
  weekType : string;
  weekStart : string;
  weekEnd : string
}.

Section WithTimeZone.

Variable tz : Z.

(** The three getters of an Invalid Date give NaN, which prints as [NaN] and
    is not padded. *)
Definition formatLocalDate (date : Number) : string :=
  match date with
  | Num date =>
      let year := getFullYear tz date in
      let month := padStart2 (String_of_Z (getMonth tz date + 1)) in
      let day := padStart2 (String_of_Z (getDate tz date)) in
      (String_of_Z year ++ "-" ++ month ++ "-" ++ day)%string
  | NaN => "NaN-NaN-NaN"%string
  end.

(** The intermediate dates of [getWeekInfo], named as its local constants. *)
Definition academicYearStart (now : Z) : Z :=
  let year := if 8 <=? getMonth tz now then getFullYear tz now
              else getFullYear tz now - 1 in
  newDateYMD tz year 8 1.

Definition targetDate (now weekOffset : Z) : Number :=
  setDate tz now (getDate tz now + weekOffset * 7).

Definition diffToMonday (target : Z) : Z :=
  let dayOfWeek := getDay tz target in
  if dayOfWeek =? 0 then -6 else 1 - dayOfWeek.

Definition weekStartDate (now weekOffset : Z) : Number :=
  bindNum (targetDate now weekOffset) (fun target =>
    setDate tz target (getDate tz target + diffToMonday target)).

Definition weekEndDate (now weekOffset : Z) : Number :=
  bindNum (weekStartDate now weekOffset) (fun ws =>
    setDate tz ws (getDate tz ws + 6)).

(** [n % 2 === 0]: false for NaN. *)
Definition isEvenNumber (n : Number) : bool :=
  match n with
  | Num n => Z.rem n 2 =? 0
  | NaN => false
  end.

(** [getWeekInfo(weekOffset)], with the value of [new Date()] as [now].
    [Math.floor] of a quotient is [Z.div]; [%] is the truncating [Z.rem];
    arithmetic on NaN gives NaN. *)
Definition getWeekInfo (now weekOffset : Z) : WeekInfo :=
  let ws := weekStartDate now weekOffset in
  let we := weekEndDate now weekOffset in
  let diffDays :=
    mapNum (fun ws => (ws - academicYearStart now) / (1000 * 60 * 60 * 24)) ws in
  let weekNumber := mapNum (fun diffDays => diffDays / 7 + 1) diffDays in
  {| weekNumber := weekNumber;
     isEven := isEvenNumber weekNumber;
     weekType := if isEvenNumber weekNumber then "чётная"%string else "нечётная"%string;
     weekStart := formatLocalDate ws;
     weekEnd := formatLocalDate we |}.

End WithTimeZone.

End WeekService.

(* ------------------------------------------------------------------ *)
(** ** services/generator.service.js *)

Module Generator.
Import JsDate.

(** [new Date('2023-09-01')] and [new Date('2023-12-31')]: a date-only ISO
    string denotes midnight UTC of that day. *)
Definition SEMESTER_START : Z := Date_UTC 2023 8 1.
Definition SEMESTER_END : Z := Date_UTC 2023 11 31.

(** [Math.ceil(x / n)] for integers [x] and [n > 0]. *)
Definition ceil_div (x n : Z) : Z := - ((- x) / n).

Section WithTimeZone.

Variable tz : Z.

Definition getWeekNumber (d : Z) : Z :=
  let d := Date_UTC (getFullYear tz d) (getMonth tz d) (getDate tz d) in
  let utcDay := getUTCDay d in
  let d := setUTCDate d (getUTCDate d + 4 - (if utcDay =? 0 then 7 else utcDay)) in
  let yearStart := Date_UTC (getUTCFullYear d) 0 1 in
  let weekNo := ceil_div ((d - yearStart) / 86400000 + 1) 7 in
  weekNo.

(** [getWeekNumber(currentDate) % 2 === 0]. *)
Definition isEvenWeek (currentDate : Z) : bool :=
  Z.rem (getWeekNumber currentDate) 2 =? 0.

(** The test on [weekType] inside the loop of [generateDates]. *)
Definition weekTypeMatch (weekType : Z) (isEven : bool) : bool :=
  if weekType =? 0 then true
  else if (weekType =? 1) && isEven then true
  else if (weekType =? 2) && negb isEven then true
  else false.

(** The [while (currentDate <= SEMESTER_END)] loop.  [fuel] bounds the number
    of iterations; [None] means the bound was too small.  Were [setDate] to
    make the date invalid, the comparison would be false and the loop over. *)
Fixpoint generateDates_loop (fuel : nat) (targetJsDay weekType : Z)
    (currentDate : Z) (dates : list Z) : option (list Z) :=
  if currentDate <=? SEMESTER_END then
    match fuel with
    | O => None
    | S fuel' =>
        let dates' :=
          if getDay tz currentDate =? targetJsDay then
            let isEven := isEvenWeek currentDate in
            if weekTypeMatch weekType isEven
            then dates ++ [currentDate]
            else dates
          else dates in
        match setDate tz currentDate (getDate tz currentDate + 1) with
        | Num nextDate => generateDates_loop fuel' targetJsDay weekType nextDate dates'
        | NaN => Some dates'
        end
    end
  else Some dates.

(** One iteration per day of the semester window. *)
Definition semesterDays : nat :=
  Z.to_nat ((SEMESTER_END - SEMESTER_START) / msPerDay + 1).

Definition generateDates (dayOfWeek weekType : Z) : option (list Z) :=
  let targetJsDay := dayOfWeek + 1 in
  generateDates_loop semesterDays targetJsDay weekType SEMESTER_START [].

End WithTimeZone.

End Generator.

(* ------------------------------------------------------------------ *)
(** ** JavaScript values *)

Module Js.

(** Primitive values, as they arrive in a JSON request body or a token
    payload ([PUndefined] for an absent key). *)
Inductive Prim :=
| PUndefined
| PNull
| PBool (b : bool)
| PNum (n : Z)
| PStr (s : string).

(** Values with structure: what is handed to the audit sink. *)
#[local] Set Warnings "-register-all".
Inductive Json :=
| JPrim (p : Prim)
| JArr (items : list Json)
| JObj (fields : list (string * Json)).

(** [!!v]. *)
Definition truthy (v : Prim) : bool :=
  match v with
  | PUndefined | PNull => false
  | PBool b => b
  | PNum n => negb (n =? 0)
  | PStr s => negb (String.eqb s EmptyString)
  end.

Definition json_truthy (j : Json) : bool :=
  match j with
  | JPrim p => truthy p
  | JArr _ | JObj _ => true
  end.

(** [a === b] on primitives. *)
Definition Prim_eqb (a b : Prim) : bool :=
  match a, b with
  | PUndefined, PUndefined => true
  | PNull, PNull => true
  | PBool x, PBool y => Bool.eqb x y
  | PNum x, PNum y => x =? y
  | PStr x, PStr y => String.eqb x y
  | _, _ => false
  end.

(** [String(v)], as a template literal interpolates it. *)
Definition Prim_toString (v : Prim) : string :=
  match v with
  | PUndefined => "undefined"
  | PNull => "null"
  | PBool true => "true"
  | PBool false => "false"
  | PNum n => WeekService.String_of_Z n
  | PStr s => s
  end.

Fixpoint lookup (k : string) (fields : list (string * Json)) : Json :=
  match fields with
  | [] => JPrim PUndefined
  | (k', v) :: rest => if String.eqb k k' then v else lookup k rest
  end.

(** Reading one of the audit keys off a value that is not [null] or
    [undefined]: an object yields its field, a primitive or an array has no
    such property. *)
Definition getProp (o : Json) (k : string) : Json :=
  match o with
  | JObj fields => lookup k fields
  | _ => JPrim PUndefined
  end.

(** A destructuring default [k = dflt] replaces [undefined] only. *)
Definition withDefault (v dflt : Json) : Json :=
  match v with
  | JPrim PUndefined => dflt
  | _ => v
  end.

(** Strings are sequences of bytes, the UTF-8 form of the text.
    [String.prototype.trim] removes WhiteSpace and LineTerminator code
    points: U+0009 to U+000D, U+0020, U+00A0, U+1680, U+2000 to U+200A,
    U+2028, U+2029, U+202F, U+205F, U+3000 and U+FEFF. *)
Definition isWhite (c : ascii) : bool :=
  let n := nat_of_ascii c in
  ((9 <=? n) && (n <=? 13))%nat || (n =? 32)%nat.

(** The third byte of a white-space code point that starts with E2 80. *)
Definition isWhiteE280 (c : ascii) : bool :=
  let n := nat_of_ascii c in
  ((128 <=? n) && (n <=? 138))%nat || (n =? 168)%nat || (n =? 169)%nat
  || (n =? 175)%nat.

(** The bytes of one white-space code point of two or three bytes. *)
Definition isWhite2 (a b : ascii) : bool :=
  (nat_of_ascii a =? 194)%nat && (nat_of_ascii b =? 160)%nat.

Definition isWhite3 (a b c : ascii) : bool :=
  let x := nat_of_ascii a in
  let y := nat_of_ascii b in
  let z := nat_of_ascii c in
  ((x =? 225) && (y =? 154) && (z =? 128))%nat
  || ((x =? 226) && (y =? 128))%nat && isWhiteE280 c
  || ((x =? 226) && (y =? 129) && (z =? 159))%nat
  || ((x =? 227) && (y =? 128) && (z =? 128))%nat
  || ((x =? 239) && (y =? 187) && (z =? 191))%nat.

(** White space stripped from the front of a list of bytes. *)
Fixpoint stripFront (l : list ascii) : list ascii :=
  match l with
  | a :: rest =>
      if isWhite a then stripFront rest
      else
        match rest with
        | b :: rest2 =>
            if isWhite2 a b then stripFront rest2
            else
              match rest2 with
              | c :: rest3 => if isWhite3 a b c then stripFront rest3 else l
              | [] => l
              end
        | [] => l
        end
  | [] => []
  end.

(** The same from the back: the bytes of a code point come in reverse. *)
Fixpoint stripBack (l : list ascii) : list ascii :=
  match l with
  | a :: rest =>
      if isWhite a then stripBack rest
      else
        match rest with
        | b :: rest2 =>
            if isWhite2 b a then stripBack rest2
            else
              match rest2 with
              | c :: rest3 => if isWhite3 c b a then stripBack rest3 else l
              | [] => l
              end
        | [] => l
        end
  | [] => []
  end.

Definition trimStart (s : string) : string :=
  string_of_list_ascii (stripFront (list_ascii_of_string s)).

Definition trimEnd (s : string) : string :=
  string_of_list_ascii (rev (stripBack (rev (list_ascii_of_string s)))).

(** [s.trim()]. *)
Definition trim (s : string) : string := trimEnd (trimStart s).

End Js.

(* ------------------------------------------------------------------ *)
(** ** The PostgreSQL store behind [pool] *)

Module Pg.
Import Js.

(** Table [lessons], each column with the type the schema gives it
    ([None] is NULL).  The dated handlers write [lesson_date] and
    [teacher_id], the weekly-template handlers write [day], [week] and
    [teacher]; a column an INSERT does not name is NULL.  The column
    [lesson_date], which the schema file does not list, is a DATE: its values
    are whatever [date_in] below reads a date as, and likewise a time of day
    for the two TIME columns. *)
Record LessonRow := mkLesson {
  id : Z;
  group_id : option Z;
  lesson_date : option Z;
  day : option Z;
  start_time : option Z;
  end_time : option Z;
  subject : option string;
  teacher_id : option Z;
  teacher : option string;
  room : option string;
  type_ : option string;
  week : option Z
}.

(** Table [schedule_changes]. *)
Record ChangeRow := mkChange {
  admin_id : Json;
  action_type : Json;
  target_type : Json;
  target_id : Json;
  old_value : Json;
  new_value : Json
}.

(** The driver sends [undefined] as NULL. *)
Definition pgParam (v : Prim) : Prim :=
  match v with
  | PUndefined => PNull
  | _ => v
  end.

Definition pgJson (j : Json) : Json :=
  match j with
  | JPrim p => JPrim (pgParam p)
  | _ => j
  end.

(** The text the driver sends for a parameter: [null] and [undefined] go as
    NULL, every other primitive as its [toString()]. *)
Definition pgText (v : Prim) : option string :=
  match v with
  | PUndefined | PNull => None
  | _ => Some (Prim_toString v)
  end.

(** What the model takes as given: how PostgreSQL reads the text of a DATE
    and of a TIME parameter ([None] when the text is no such value), and the
    JavaScript object the driver makes of a result row. *)
Class Backend := {
  date_in : string -> option Z;
  time_in : string -> option Z;
  row_js : LessonRow -> Json
}.

(** PostgreSQL's reading of an INTEGER: white space, an optional sign, decimal
    digits, white space; the value must fit 32 bits.  (From version 16 on
    PostgreSQL also reads other bases and underscores, which this does not.) *)
Definition isspace (c : ascii) : bool :=
  let n := nat_of_ascii c in
  ((9 <=? n) && (n <=? 13))%nat || (n =? 32)%nat.

Definition digitOf (c : ascii) : option Z :=
  let n := nat_of_ascii c in
  if ((48 <=? n) && (n <=? 57))%nat then Some (Z.of_nat n - 48) else None.

Fixpoint skipSpace (l : list ascii) : list ascii :=
  match l with
  | c :: rest => if isspace c then skipSpace rest else l
  | [] => []
  end.

(** The digits at the front of [l] added to [acc], and what follows them. *)
Fixpoint readDigits (acc : Z) (l : list ascii) : Z * list ascii :=
  match l with
  | c :: rest =>
      match digitOf c with
      | Some d => readDigits (10 * acc + d) rest
      | None => (acc, l)
      end
  | [] => (acc, [])
  end.

Definition startsWithDigit (l : list ascii) : bool :=
  match l with
  | c :: _ => match digitOf c with Some _ => true | None => false end
  | [] => false
  end.

Definition int4in (s : string) : option Z :=
  let l := skipSpace (list_ascii_of_string s) in
  let '(negative, l) :=
    match l with
    | c :: rest =>
        if (nat_of_ascii c =? 45)%nat then (true, rest)
        else if (nat_of_ascii c =? 43)%nat then (false, rest)
        else (false, l)
    | [] => (false, l)
    end in
  if startsWithDigit l then
    let '(n, rest) := readDigits 0 l in
    let n := if negative then - n else n in
    match skipSpace rest with
    | [] => if (-2147483648 <=? n) && (n <=? 2147483647) then Some n else None
    | _ :: _ => None
    end
  else None.

(** [column = $n]: never true when either side is NULL. *)
Definition sql_eq {A} (eqb : A -> A -> bool) (col param : option A) : bool :=
  match col, param with
  | Some c, Some p => eqb c p
  | _, _ => false
  end.

Inductive Stmt :=
| BEGIN
| COMMIT
| ROLLBACK
| SelectDay (date groupId : Prim)
| DeleteDay (date groupId : Prim)
| InsertLesson (groupId date start_time end_time subject teacher_id room type : Prim)
| SelectWeek (group_id week : Prim)
| DeleteWeek (group_id week : Prim)
| InsertSelectWeek (group_id to_week from_week : Prim)
| SelectTeacher (group_id teacher : Prim)
| UpdateTeacher (new_teacher group_id old_teacher : Prim)
| InsertChange (adminId actionType targetType targetId oldValue newValue : Json).

Record QueryResult := mkResult {
  rows : list LessonRow;
  rowCount : Z
}.

Definition noRows : QueryResult := mkResult [] 0.

(** A row without its generated id: the field values that a client supplies. *)
Definition withoutId (r : LessonRow) : LessonRow :=
  mkLesson 0 (group_id r) (lesson_date r) (day r) (start_time r) (end_time r)
           (subject r) (teacher_id r) (teacher r) (room r) (type_ r) (week r).

Definition setTeacher (name : option string) (r : LessonRow) : LessonRow :=
  mkLesson (id r) (group_id r) (lesson_date r) (day r) (start_time r) (end_time r)
           (subject r) (teacher_id r) name (room r) (type_ r) (week r).

Definition lengthZ {A} (l : list A) : Z := Z.of_nat (List.length l).

(** A parameter as a value of the column it meets. *)
Definition asInt (v : Prim) : option Z :=
  match pgText v with
  | Some s => int4in s
  | None => None
  end.

Section WithBackend.

Context {backend : Backend}.

Definition asDate (v : Prim) : option Z :=
  match pgText v with
  | Some s => date_in s
  | None => None
  end.

Definition asTime (v : Prim) : option Z :=
  match pgText v with
  | Some s => time_in s
  | None => None
  end.

(** [WHERE lesson_date = $1 AND group_id = $2]. *)
Definition onDay (date groupId : Prim) (r : LessonRow) : bool :=
  sql_eq Z.eqb (lesson_date r) (asDate date) && sql_eq Z.eqb (group_id r) (asInt groupId).

End WithBackend.

(** [WHERE group_id = $1 AND week = $2]. *)
Definition inWeek (group wk : Prim) (r : LessonRow) : bool :=
  sql_eq Z.eqb (group_id r) (asInt group) && sql_eq Z.eqb (week r) (asInt wk).

(** [WHERE group_id = $1 AND teacher = $2]. *)
Definition taughtBy (group name : Prim) (r : LessonRow) : bool :=
  sql_eq Z.eqb (group_id r) (asInt group) && sql_eq String.eqb (teacher r) (pgText name).

(** The row that [INSERT ... SELECT] of [copyWeek] derives from a source row. *)
Definition copyOf (group to_week : Prim) (newId : Z) (r : LessonRow) : LessonRow :=
  mkLesson newId (asInt group) None (day r) (start_time r) (end_time r)
           (subject r) None (teacher r) (room r) (type_ r) (asInt to_week).

(** Fresh ids for a batch of inserted rows, taken from the sequence. *)
Fixpoint copyAll (group to_week : Prim) (seq : Z) (src : list LessonRow)
    : list LessonRow :=
  match src with
  | [] => []
  | r :: rest => copyOf group to_week seq r :: copyAll group to_week (seq + 1) rest
  end.

(** The database as the server sees it, and the connection the handler holds. *)
Record World := mkWorld {
  lessons : list LessonRow;            (* committed rows of [lessons] *)
  lessons_seq : Z;                     (* next value of the id sequence *)
  schedule_changes : list ChangeRow;   (* committed audit records *)
  client_tx : option (list LessonRow); (* [lessons] inside the client's open transaction *)
  issued : list Stmt                   (* every statement sent, latest first *)
}.

Inductive Exn :=
| DbError
| TypeError
| Error (msg : string).

Inductive Outcome (A : Type) :=
| Ok (a : A)
| Throw (e : Exn).
Arguments Ok {A} a.
Arguments Throw {A} e.

(** Handlers are computations over the world that may throw. *)
Definition M (A : Type) : Type := World -> Outcome A * World.

Definition ret {A} (a : A) : M A := fun w => (Ok a, w).
Definition throw {A} (e : Exn) : M A := fun w => (Throw e, w).
Definition bind {A B} (m : M A) (k : A -> M B) : M B :=
  fun w => match m w with
           | (Ok a, w') => k a w'
           | (Throw e, w') => (Throw e, w')
           end.
Definition tryCatch {A} (body : M A) (handler : Exn -> M A) : M A :=
  fun w => match body w with
           | (Ok a, w') => (Ok a, w')
           | (Throw e, w') => handler e w'
           end.
(** [try { body } finally { cleanup }]. *)
Definition finally {A} (body : M A) (cleanup : M unit) : M A :=
  fun w => match body w with
           | (r, w') => match cleanup w' with
                        | (Ok _, w'') => (r, w'')
                        | (Throw e, w'') => (Throw e, w'')
                        end
           end.

Declare Scope pg_scope.
Delimit Scope pg_scope with pg.
Notation "x <- m ;; k" := (bind m (fun x => k))
  (at level 61, m at next level, right associativity) : pg_scope.
Notation "m ;; k" := (bind m (fun _ => k))
  (at level 61, right associativity) : pg_scope.

Section WithFaults.

Context {backend : Backend}.

(** Effect of a data statement on a version of table [lessons] and on the id
    sequence. *)
Definition runOnLessons (s : Stmt) (tbl : list LessonRow) (seq : Z)
    : QueryResult * list LessonRow * Z :=
  match s with
  | SelectDay d g =>
      let hit := filter (onDay d g) tbl in
      (mkResult hit (lengthZ hit), tbl, seq)
  | DeleteDay d g =>
      let hit := filter (onDay d g) tbl in
      (mkResult [] (lengthZ hit), filter (fun r => negb (onDay d g r)) tbl, seq)
  | InsertLesson g d st en su ti ro ty =>
      let r := mkLesson seq (asInt g) (asDate d) None (asTime st) (asTime en)
                        (pgText su) (asInt ti) None (pgText ro) (pgText ty) None in
      (mkResult [] 1, tbl ++ [r], seq + 1)
  | SelectWeek g w =>
      let hit := filter (inWeek g w) tbl in
      (mkResult hit (lengthZ hit), tbl, seq)
  | DeleteWeek g w =>
      let hit := filter (inWeek g w) tbl in
      (mkResult [] (lengthZ hit), filter (fun r => negb (inWeek g w r)) tbl, seq)
  | InsertSelectWeek g to from =>
      let src := filter (inWeek g from) tbl in
      (mkResult [] (lengthZ src), tbl ++ copyAll g to seq src, seq + lengthZ src)
  | SelectTeacher g t =>
      let hit := filter (taughtBy g t) tbl in
      (mkResult hit (lengthZ hit), tbl, seq)
  | UpdateTeacher new g old =>
      let hit := filter (taughtBy g old) tbl in
      (mkResult (map (setTeacher (pgText new)) hit) (lengthZ hit),
       map (fun r => if taughtBy g old r then setTeacher (pgText new) r else r) tbl,
       seq)
  | _ => (noRows, tbl, seq)
  end.

(** [faults k] tells whether the [k]-th statement sent to the server (counted
    from 0 over the life of the world) is answered with an error. *)
Variable faults : nat -> bool.

Definition record (s : Stmt) (w : World) : World :=
  mkWorld (lessons w) (lessons_seq w) (schedule_changes w) (client_tx w) (s :: issued w).

(** [pool.connect()]: the pool hands out its client in the state in which its
    last user released it, a transaction left open included.  The model
    starts where a client was obtained: were [connect] itself to fail, the
    handler would throw before its [try] block, with nothing sent. *)
Definition pool_connect : M unit := ret tt.

(** [client.release()]: the client goes back to the pool as it is. *)
Definition client_release : M unit := ret tt.

(** [client.query(s)]: inside a transaction a statement works on the
    transaction's own version of the table; COMMIT publishes it, ROLLBACK
    drops it; BEGIN inside a transaction earns a warning and changes
    nothing.  Outside a transaction each statement commits at once. *)
Definition client_query (s : Stmt) : M QueryResult :=
  fun w =>
    let k := List.length (issued w) in
    let w := record s w in
    if faults k then (Throw DbError, w)
    else match s with
         | BEGIN =>
             let tx := match client_tx w with
                       | Some t => Some t
                       | None => Some (lessons w)
                       end in
             (Ok noRows, mkWorld (lessons w) (lessons_seq w) (schedule_changes w) tx (issued w))
         | COMMIT =>
             let tbl := match client_tx w with
                        | Some t => t
                        | None => lessons w
                        end in
             (Ok noRows, mkWorld tbl (lessons_seq w) (schedule_changes w) None (issued w))
         | ROLLBACK =>
             (Ok noRows, mkWorld (lessons w) (lessons_seq w) (schedule_changes w) None (issued w))
         | InsertChange a b c d e f =>
             (Ok (mkResult [] 1),
              mkWorld (lessons w) (lessons_seq w)
                      (schedule_changes w ++ [mkChange a b c d e f]) (client_tx w) (issued w))
         | _ =>
             match client_tx w with
             | Some t =>
                 let '(res, t', seq') := runOnLessons s t (lessons_seq w) in
                 (Ok res, mkWorld (lessons w) seq' (schedule_changes w) (Some t') (issued w))
             | None =>
                 let '(res, t', seq') := runOnLessons s (lessons w) (lessons_seq w) in
                 (Ok res, mkWorld t' seq' (schedule_changes w) None (issued w))
             end
         end.

(** [pool.query(s)]: one statement on a connection with no transaction open,
    committed at once; it does not see the client's uncommitted rows. *)
Definition pool_query (s : Stmt) : M QueryResult :=
  fun w =>
    let k := List.length (issued w) in
    let w := record s w in
    if faults k then (Throw DbError, w)
    else match s with
         | BEGIN | COMMIT | ROLLBACK => (Ok noRows, w)
         | InsertChange a b c d e f =>
             (Ok (mkResult [] 1),
              mkWorld (lessons w) (lessons_seq w)
                      (schedule_changes w ++ [mkChange a b c d e f]) (client_tx w) (issued w))
         | _ =>
             let '(res, t', seq') := runOnLessons s (lessons w) (lessons_seq w) in
             (Ok res, mkWorld t' seq' (schedule_changes w) (client_tx w) (issued w))
         end.

End WithFaults.

End Pg.

(* ------------------------------------------------------------------ *)
(** ** services/audit.service.js *)

Module Audit.
Import Js Pg.
Local Open Scope pg_scope.

Section WithFaults.

Context {backend : Backend}.
Variable faults : nat -> bool.

(** [logChange(...args)].  The function has one parameter, destructured as
    [{adminId, actionType, targetType, targetId = null, oldValue = null,
    newValue = null}]; binding it to [null] or [undefined] throws before the
    body starts, and further arguments are not read.  The INSERT runs inside
    [try]/[catch], so its failure is swallowed.  The snapshot itself stands
    for its [JSON.stringify] text. *)
Definition logChange (args : list Json) : M unit :=
  match hd (JPrim PUndefined) args with
  | JPrim PUndefined | JPrim PNull => throw TypeError
  | arg =>
      let adminId := getProp arg "adminId" in
      let actionType := getProp arg "actionType" in
      let targetType := getProp arg "targetType" in
      let targetId := withDefault (getProp arg "targetId") (JPrim PNull) in
      let oldValue := withDefault (getProp arg "oldValue") (JPrim PNull) in
      let newValue := withDefault (getProp arg "newValue") (JPrim PNull) in
      tryCatch
        (pool_query faults
           (InsertChange (pgJson adminId) (pgJson actionType) (pgJson targetType)
              (pgJson targetId)
              (if json_truthy oldValue then oldValue else JPrim PNull)
              (if json_truthy newValue then newValue else JPrim PNull)) ;;
         ret tt)
        (fun _ => ret tt)
  end.

End WithFaults.

End Audit.

(* ------------------------------------------------------------------ *)
(** ** HTTP requests and responses *)

Module Http.
Import Js.

(** [req.user], the payload of the verified token. *)
Record User := mkUser {
  user_id : Prim;
  role : Prim
}.

(** [res.status(code).json({ message })]; [res.json] alone answers 200. *)
Record Response := mkResponse {
  status : Z;
  message : string
}.

End Http.

(* ------------------------------------------------------------------ *)
(** ** The schedule-day controller: PUT /api/schedule/day *)

Module ScheduleDay.
Import JsDate Js Pg Audit Http.
Local Open Scope pg_scope.

(** One element of [req.body.lessons]. *)
Inductive LessonEntry :=
| EntryNullish
    (* [null]: destructuring it throws a TypeError *)
| EntryObj (start_time end_time subject teacher_id room type : Prim).
    (* an object with these fields, [PUndefined] for an absent one; an entry
       that is a number, a string or a boolean reads as one with no field *)

Record DayRequest := mkDayRequest {
  user : User;
  date : Prim;
  groupId : Prim;
  lessons : option (list LessonEntry)   (* [None]: not an array *)
}.

Definition json_of_entry (e : LessonEntry) : Json :=
  match e with
  | EntryNullish => JPrim PNull
  | EntryObj st en su ti ro ty =>
      JObj [("start_time", JPrim st); ("end_time", JPrim en); ("subject", JPrim su);
            ("teacher_id", JPrim ti); ("room", JPrim ro); ("type", JPrim ty)]%string
  end.

Definition forbidden : Response :=
  mkResponse 403 "Только администратор может редактировать расписание".
Definition missingFields : Response :=
  mkResponse 400 "date, groupId и lessons обязательны".
Definition pastDate : Response :=
  mkResponse 400 "Нельзя редактировать расписание прошедших дат".
Definition saved : Response :=
  mkResponse 200 "Расписание на день успешно сохранено".
Definition serverError : Response :=
  mkResponse 500 "Ошибка сервера при сохранении расписания".

Section Handler.

Context {backend : Backend}.
Variable tz : Z.
(** [Date.parse] on strings: [None] when the string is not a date. *)
Variable Date_parse : string -> option Z.
Variable faults : nat -> bool.

(** [new Date(v)]: a string is parsed, any other value is converted to a
    number; [undefined] gives an Invalid Date. *)
Definition newDate (v : Prim) : option Z :=
  match v with
  | PStr s => Date_parse s
  | PNum n => Some n
  | PBool b => Some (if b then 1 else 0)
  | PNull => Some 0
  | PUndefined => None
  end.

(** [scheduleDate < today] after [setHours(0, 0, 0, 0)] on both; an Invalid
    Date stays invalid and compares false. *)
Definition isPastDate (now : Z) (date : Prim) : bool :=
  let today := setHours0 tz now in
  match option_map (setHours0 tz) (newDate date) with
  | Some scheduleDate => scheduleDate <? today
  | None => false
  end.

(** The [for (const lesson of lessons)] loop. *)
Fixpoint insertLessons (date groupId : Prim) (ls : list LessonEntry) : M unit :=
  match ls with
  | [] => ret tt
  | EntryNullish :: _ => throw TypeError
  | EntryObj start_time end_time subject teacher_id room type :: rest =>
      if negb (truthy start_time) || negb (truthy end_time) || negb (truthy subject)
         || negb (truthy room) || negb (truthy type)
      then throw (Error "Некорректные данные занятия")
      else
        client_query faults
          (InsertLesson groupId date start_time end_time subject
             (if truthy teacher_id then teacher_id else PNull) room type) ;;
        insertLessons date groupId rest
  end.

(** [updateScheduleByDay(req, res)], with the value of [new Date()] as [now];
    the result is the response written to [res]. *)
Definition updateScheduleByDay (now : Z) (req : DayRequest) : M Response :=
  if negb (Prim_eqb (role (user req)) (PStr "admin")) then ret forbidden
  else
    match lessons req with
    | None => ret missingFields
    | Some ls =>
        if negb (truthy (date req)) || negb (truthy (groupId req)) then ret missingFields
        else if isPastDate now (date req) then ret pastDate
        else
          pool_connect ;;
          finally
            (tryCatch
               (client_query faults BEGIN ;;
                oldLessonsRes <- client_query faults (SelectDay (date req) (groupId req)) ;;
                client_query faults (DeleteDay (date req) (groupId req)) ;;
                insertLessons (date req) (groupId req) ls ;;
                client_query faults COMMIT ;;
                logChange faults
                  [JObj [("adminId", JPrim (user_id (user req)));
                         ("actionType", JPrim (PStr "update_schedule_day"));
                         ("targetType", JPrim (PStr "schedule_day"));
                         ("targetId", JPrim PNull);
                         ("oldValue",
                          JObj [("date", JPrim (date req));
                                ("lessons", JArr (map row_js (rows oldLessonsRes)))]);
                         ("newValue",
                          JObj [("date", JPrim (date req));
                                ("groupId", JPrim (groupId req));
                                ("lessons", JArr (map json_of_entry ls))])]%string] ;;
                ret saved)
               (fun err =>
                  client_query faults ROLLBACK ;;
                  ret serverError))
            client_release
    end.

End Handler.

(** *** Observations used in the statements *)

(** An entry the loop refuses: [null], or a required field that is absent or
    empty.  [teacher_id] is not required. *)
Definition malformed (e : LessonEntry) : bool :=
  match e with
  | EntryNullish => true
  | EntryObj start_time end_time subject teacher_id room type =>
      negb (truthy start_time) || negb (truthy end_time) || negb (truthy subject)
      || negb (truthy room) || negb (truthy type)
  end.

Section Observations.

Context {backend : Backend}.

(** The rows that the loop inserts for a list of entries, the first one with
    id [seq]: every value as the column's type reads it. *)
Fixpoint newRows (date groupId : Prim) (seq : Z) (ls : list LessonEntry)
    : list LessonRow :=
  match ls with
  | [] => []
  | EntryNullish :: _ => []
  | EntryObj start_time end_time subject teacher_id room type :: rest =>
      mkLesson seq (asInt groupId) (asDate date) None (asTime start_time)
               (asTime end_time) (pgText subject)
               (asInt (if truthy teacher_id then teacher_id else PNull)) None
               (pgText room) (pgText type) None
      :: newRows date groupId (seq + 1) rest
  end.

(** The committed lessons of a day and group, the generated id left out. *)
Definition dayLessons (date groupId : Prim) (w : World) : list LessonRow :=
  map withoutId (filter (onDay date groupId) (Pg.lessons w)).

(** The table as the pooled client sees it: the version inside its open
    transaction, or the committed one. *)
Definition visible (w : World) : list LessonRow :=
  match client_tx w with
  | Some t => t
  | None => Pg.lessons w
  end.

End Observations.

(** A [Date.parse] for the date-only form [YYYY-MM-DD], which denotes
    midnight UTC; every other string is not a date. *)
Definition digit (c : ascii) : option Z :=
  let n := nat_of_ascii c in
  if ((48 <=? n) && (n <=? 57))%nat then Some (Z.of_nat n - 48) else None.

Definition isDash (c : ascii) : bool := (nat_of_ascii c =? 45)%nat.

Definition parseIsoDate (s : string) : option Z :=
  match list_ascii_of_string s with
  | [y1; y2; y3; y4; s1; m1; m2; s2; d1; d2] =>
      match digit y1, digit y2, digit y3, digit y4,
            digit m1, digit m2, digit d1, digit d2 with
      | Some a, Some b, Some c, Some d, Some e, Some f, Some g, Some h =>
          let year := 1000 * a + 100 * b + 10 * c + d in
          let month := 10 * e + f in
          let day := 10 * g + h in
          if isDash s1 && isDash s2 && (1 <=? month) && (month <=? 12)
             && (1 <=? day) && (day <=? 31)
          then Some (Date_UTC year (month - 1) day)
          else None
      | _, _, _, _, _, _, _, _ => None
      end
  | _ => None
  end.

End ScheduleDay.

(* ------------------------------------------------------------------ *)
(** ** controllers/admin.controller.js: bulk operations on weekly templates *)

Module Admin.
Import Js Pg Audit Http.
Local Open Scope pg_scope.

Record CopyWeekRequest := mkCopyWeek {
  cw_user : User;
  cw_group_id : Prim;
  from_week : Prim;
  to_week : Prim
}.

Record ClearWeekRequest := mkClearWeek {
  cl_user : User;
  cl_group_id : Prim;
  cl_week : Prim
}.

Record ReplaceTeacherRequest := mkReplaceTeacher {
  rt_user : User;
  rt_group_id : Prim;
  old_teacher : Prim;
  new_teacher : Prim
}.

Definition isUndefined (v : Prim) : bool := Prim_eqb v PUndefined.

Definition dquote : string := String (ascii_of_nat 34) EmptyString.

(** The texts built with template literals. *)
Definition copyDescription (from_week to_week group_id : Prim) : string :=
  ("Скопирована неделя " ++ Prim_toString from_week ++ " → "
   ++ Prim_toString to_week ++ " для группы " ++ Prim_toString group_id)%string.

Definition copyMessage (from_week to_week : Prim) : string :=
  ("Неделя скопирована (week " ++ Prim_toString from_week ++ " → "
   ++ Prim_toString to_week ++ ")")%string.

Definition clearDescription (week group_id : Prim) (rowCount : Z) : string :=
  ("Очищена неделя " ++ Prim_toString week ++ " для группы "
   ++ Prim_toString group_id ++ ". Удалено "
   ++ WeekService.String_of_Z rowCount ++ " занятий")%string.

Definition clearMessage (rowCount : Z) : string :=
  ("Удалено " ++ WeekService.String_of_Z rowCount ++ " занятий")%string.

Definition replaceDescription (old_teacher new_teacher group_id : Prim)
    (rowCount : Z) : string :=
  ("Заменён преподаватель " ++ dquote ++ Prim_toString old_teacher ++ dquote
   ++ " → " ++ dquote ++ Prim_toString new_teacher ++ dquote ++ " в "
   ++ WeekService.String_of_Z rowCount ++ " занятиях группы "
   ++ Prim_toString group_id)%string.

Definition replaceMessage (rowCount : Z) : string :=
  ("Заменено " ++ WeekService.String_of_Z rowCount ++ " занятий")%string.

(** [v.trim()]: a method of strings only. *)
Definition trimOf (v : Prim) : M Prim :=
  match v with
  | PStr s => ret (PStr (trim s))
  | _ => throw TypeError
  end.

Section Handlers.

Context {backend : Backend}.
Variable faults : nat -> bool.

Definition copyWeek (req : CopyWeekRequest) : M Response :=
  let group_id := cw_group_id req in
  let from_week := from_week req in
  let to_week := to_week req in
  if negb (truthy group_id) || isUndefined from_week || isUndefined to_week
  then ret (mkResponse 400 "Укажите group_id, from_week и to_week")
  else
    tryCatch
      (source <- pool_query faults (SelectWeek group_id from_week) ;;
       if lengthZ (rows source) =? 0
       then ret (mkResponse 404 "Нет занятий для копирования")
       else
         pool_query faults (DeleteWeek group_id to_week) ;;
         pool_query faults (InsertSelectWeek group_id to_week from_week) ;;
         logChange faults
           [JPrim (user_id (cw_user req));
            JPrim (PStr "copy_week");
            JPrim (PStr "lessons");
            JPrim PNull;
            JObj [("from_week", JPrim from_week); ("group_id", JPrim group_id)]%string;
            JObj [("to_week", JPrim to_week); ("group_id", JPrim group_id)]%string;
            JPrim (PStr (copyDescription from_week to_week group_id))] ;;
         ret (mkResponse 200 (copyMessage from_week to_week)))
      (fun err => ret (mkResponse 500 "Ошибка сервера")).

Definition clearWeek (req : ClearWeekRequest) : M Response :=
  let group_id := cl_group_id req in
  let week := cl_week req in
  if negb (truthy group_id) || isUndefined week
  then ret (mkResponse 400 "Укажите group_id и week")
  else
    tryCatch
      (deletedLessons <- pool_query faults (SelectWeek group_id week) ;;
       result <- pool_query faults (DeleteWeek group_id week) ;;
       (if 0 <? rowCount result
        then
          logChange faults
            [JPrim (user_id (cl_user req));
             JPrim (PStr "clear_week");
             JPrim (PStr "lessons");
             JPrim PNull;
             JPrim PNull;
             JPrim PNull;
             JPrim (PStr (clearDescription week group_id (rowCount result)))]
        else ret tt) ;;
       ret (mkResponse 200 (clearMessage (rowCount result))))
      (fun err => ret (mkResponse 500 "Ошибка сервера")).

Definition replaceTeacher (req : ReplaceTeacherRequest) : M Response :=
  let group_id := rt_group_id req in
  let old_teacher := old_teacher req in
  let new_teacher := new_teacher req in
  if negb (truthy group_id) || negb (truthy old_teacher) || negb (truthy new_teacher)
  then ret (mkResponse 400 "Укажите group_id, old_teacher и new_teacher")
  else
    tryCatch
      (oldTrim <- trimOf old_teacher ;;
       affectedLessons <- pool_query faults (SelectTeacher group_id oldTrim) ;;
       newTrim <- trimOf new_teacher ;;
       oldTrim' <- trimOf old_teacher ;;
       result <- pool_query faults (UpdateTeacher newTrim group_id oldTrim') ;;
       (if 0 <? rowCount result
        then
          logChange faults
            [JPrim (user_id (rt_user req));
             JPrim (PStr "replace_teacher");
             JPrim (PStr "lessons");
             JPrim PNull;
             JObj [("teacher", JPrim old_teacher)]%string;
             JObj [("teacher", JPrim new_teacher)]%string;
             JPrim (PStr (replaceDescription old_teacher new_teacher group_id
                            (rowCount result)))]
        else ret tt) ;;
       ret (mkResponse 200 (replaceMessage (rowCount result))))
      (fun err => ret (mkResponse 500 "Ошибка сервера")).

End Handlers.

End Admin.

(* ------------------------------------------------------------------ *)
(** ** Sample data for the closed statements *)

Module Samples.
Import JsDate Js Pg Http.

(** A server three hours east of UTC, at noon of 2023-09-01. *)
Definition tzEast3 : Z := 3 * 3600000.
Definition noon_2023_09_01 : Z := Date_UTC 2023 8 1 + 9 * 3600000.

Definition noFaults : nat -> bool := fun _ => false.
Definition failAt (n : nat) : nat -> bool := fun k => Nat.eqb k n.

Definition admin7 : User := mkUser (PNum 7) (PStr "admin").

(** A backend for the closed statements: dates in the form [YYYY-MM-DD], read
    as the number of the day; times of day in the form [HH:MM] or
    [HH:MM:SS], read as seconds; a row rendered with its id, group and
    subject. *)
Definition sampleDate (s : string) : option Z :=
  option_map Day (ScheduleDay.parseIsoDate s).

Definition sampleTime (s : string) : option Z :=
  let two (a b : ascii) : option Z :=
    match digitOf a, digitOf b with
    | Some x, Some y => Some (10 * x + y)
    | _, _ => None
    end in
  let colon (c : ascii) : bool := (nat_of_ascii c =? 58)%nat in
  match list_ascii_of_string s with
  | [h1; h2; c1; m1; m2] =>
      match two h1 h2, two m1 m2 with
      | Some h, Some m =>
          if colon c1 && (h <? 24) && (m <? 60) then Some (3600 * h + 60 * m) else None
      | _, _ => None
      end
  | [h1; h2; c1; m1; m2; c2; s1; s2] =>
      match two h1 h2, two m1 m2, two s1 s2 with
      | Some h, Some m, Some sec =>
          if colon c1 && colon c2 && (h <? 24) && (m <? 60) && (sec <? 60)
          then Some (3600 * h + 60 * m + sec) else None
      | _, _, _ => None
      end
  | _ => None
  end.

Definition sampleRow (r : LessonRow) : Json :=
  let text (o : option string) : Json :=
    match o with Some s => JPrim (PStr s) | None => JPrim PNull end in
  let number (o : option Z) : Json :=
    match o with Some n => JPrim (PNum n) | None => JPrim PNull end in
  JObj [("id", JPrim (PNum (Pg.id r))); ("group_id", number (group_id r));
        ("subject", text (subject r))]%string.

Definition sampleBackend : Backend :=
  {| date_in := sampleDate; time_in := sampleTime; row_js := sampleRow |}.

(** Dated lessons: one of group 1 and one of group 2 on 2099-01-01, from
    08:00 to 09:30. *)
Definition datedLesson (id group : Z) (subject : string) : LessonRow :=
  mkLesson id (Some group) (Some (Day (Date_UTC 2099 0 1))) None
           (Some 28800) (Some 34200)
           (Some subject) None None (Some "101"%string) (Some "lecture"%string) None.

Definition datedWorld : World :=
  mkWorld [datedLesson 1 1 "Algebra"; datedLesson 2 2 "History"] 3 [] None [].

Definition physics : ScheduleDay.LessonEntry :=
  ScheduleDay.EntryObj (PStr "10:00") (PStr "11:30") (PStr "Physics") PUndefined
                       (PStr "202") (PStr "practice").

(** An entry without [room]. *)
Definition noRoom : ScheduleDay.LessonEntry :=
  ScheduleDay.EntryObj (PStr "12:00") (PStr "13:30") (PStr "Chemistry") PUndefined
                       PUndefined (PStr "lecture").

Definition dayRequest (date : string) (ls : list ScheduleDay.LessonEntry)
    : ScheduleDay.DayRequest :=
  ScheduleDay.mkDayRequest admin7 (PStr date) (PNum 1) (Some ls).

(** Weekly templates of group 5: one lesson in week type 1, one in week type 2. *)
Definition template (id wk : Z) (subject teacher : string) : LessonRow :=
  mkLesson id (Some 5) None (Some 0) (Some 28800) (Some 34200)
           (Some subject) None (Some teacher) (Some "101"%string)
           (Some "lecture"%string) (Some wk).

Definition templateWorld : World :=
  mkWorld [template 1 1 "Algebra" "Ivanov"; template 2 2 "History" "Petrov"]
          3 [] None [].

(** White space of JavaScript beyond ASCII, as UTF-8: the no-break space
    U+00A0, the ideographic space U+3000 and the byte order mark U+FEFF. *)
Definition bytes (l : list nat) : string :=
  string_of_list_ascii (map ascii_of_nat l).

Definition nbsp : string := bytes [194; 160]%nat.
Definition ideographicSpace : string := bytes [227; 128; 128]%nat.
Definition byteOrderMark : string := bytes [239; 187; 191]%nat.
Definition tabAndLineFeed : string := bytes [9; 10]%nat.

(** The audit row whose columns are all NULL. *)
Definition blankChange : ChangeRow :=
  mkChange (JPrim PNull) (JPrim PNull) (JPrim PNull) (JPrim PNull)
           (JPrim PNull) (JPrim PNull).

End Samples.

From Stdlib Require Import Sorted.

(* ------------------------------------------------------------------ *)
(** ** The week controller: GET /api/schedule/week *)

Module ScheduleWeek.
Import JsDate.

Section WithTimeZone.

Variable tz : Z.

(** The two dates that [getScheduleByWeek] hands to its query, with the value
    of [new Date()] as [now] and the number that [weekOffset * 7] makes of the
    query parameter as [7 * weekOffset].  [getDay() || 7] counts Sunday as 7. *)
Definition monday (now weekOffset : Z) : Number :=
  let day := if getDay tz now =? 0 then 7 else getDay tz now in
  setDate tz now (getDate tz now - day + 1 + weekOffset * 7).

Definition sunday (now weekOffset : Z) : Number :=
  bindNum (monday now weekOffset) (fun monday =>
    setDate tz monday (getDate tz monday + 6)).

End WithTimeZone.

End ScheduleWeek.

(* ------------------------------------------------------------------ *)
(** ** middleware/role.middleware.js and the routes it guards *)

Module Middleware.
Import Js Pg Http.

(** [adminOnly(req, res, next)]: [user] is [req.user], absent when no earlier
    middleware set it; [next] is the rest of the route. *)
Definition adminOnly (user : option User) (next : M Response) : M Response :=
  match user with
  | None => ret (mkResponse 403 "Доступ запрещён: требуется роль admin")
  | Some u =>
      if negb (Prim_eqb (role u) (PStr "admin"))
      then ret (mkResponse 403 "Доступ запрещён: требуется роль admin")
      else next
  end.

Section Routes.

Context {backend : Backend}.
Variable faults : nat -> bool.

(** routes/admin.routes.js, after [authMiddleware] has set [req.user]:
    [router.post('/lessons/copy-week', authMiddleware, adminOnly, copyWeek)]
    and its two neighbours. *)
Definition copyWeekRoute (req : Admin.CopyWeekRequest) : M Response :=
  adminOnly (Some (Admin.cw_user req)) (Admin.copyWeek faults req).

Definition clearWeekRoute (req : Admin.ClearWeekRequest) : M Response :=
  adminOnly (Some (Admin.cl_user req)) (Admin.clearWeek faults req).

Definition replaceTeacherRoute (req : Admin.ReplaceTeacherRequest) : M Response :=
  adminOnly (Some (Admin.rt_user req)) (Admin.replaceTeacher faults req).

End Routes.

End Middleware.

(* ------------------------------------------------------------------ *)
(** ** Notions used in the further statements *)

Module Notions.
Import JsDate Js Pg.

(** The Thursday of the Monday-to-Sunday week of a day number (day 0,
    1970-01-01, was a Thursday). *)
Definition thursdayOf (day : Z) : Z := day + 3 - (day + 3) mod 7.

(** Day 4, 1970-01-05, was a Monday, and so is every seventh day from it. *)
Definition isMonday (day : Z) : Prop := (day - 4) mod 7 = 0.

(** [year]-[month]-[date], month and date counted from 1, is the civil date
    of the day with number [day]: the date lies in the month, and ECMA-262's
    MakeDay of it is the day. *)
Definition civilDateOf (day year month date : Z) : Prop :=
  1 <= month <= 12 /\ 1 <= date /\
  MakeDay year (month - 1) date = day /\
  day < MakeDay year month 1.

(** The text [YYYY-MM-DD] of a civil date: the year in decimal, month and
    date with two digits each. *)
Definition digitChar (n : Z) : ascii := ascii_of_nat (48 + Z.to_nat n).

Definition twoDigits (n : Z) : string :=
  String (digitChar (n / 10)) (String (digitChar (n mod 10)) EmptyString).

Definition isoText (year month date : Z) : string :=
  (WeekService.String_of_Z year ++ "-" ++ twoDigits month ++ "-" ++ twoDigits date)%string.

(** The ids of a version of table [lessons] are distinct and were all drawn
    from the sequence before it reached [seq]. *)
Definition freshIds (tbl : list LessonRow) (seq : Z) : Prop :=
  NoDup (map Pg.id tbl) /\ forall r, In r tbl -> Pg.id r < seq.

(** The same for the committed table and for the table inside the client's
    transaction, if one is open. *)
Definition wellNumbered (w : World) : Prop :=
  freshIds (Pg.lessons w) (lessons_seq w) /\
  forall t, client_tx w = Some t -> freshIds t (lessons_seq w).

Section GeneratorNotions.

Variable tz : Z.

(** What one turn of the loop does to the list, for a week type. *)
Definition collect (target weekType cur : Z) (dates : list Z) : list Z :=
  if getDay tz cur =? target then
    if Generator.weekTypeMatch weekType (Generator.isEvenWeek tz cur)
    then dates ++ [cur] else dates
  else dates.

(** The relation that the three lists keep: every date collected for "any"
    is collected for exactly one of "even" and "odd", according to the
    parity of its week. *)
Definition split3 (any even odd : list Z) : Prop :=
  (forall d, In d any <-> In d even \/ In d odd) /\
  (forall d, In d even -> Generator.isEvenWeek tz d = true) /\
  (forall d, In d odd -> Generator.isEvenWeek tz d = false).

End GeneratorNotions.

(** A computation keeps a property of the world, however it ends. *)
Definition preserves {A} (P : World -> Prop) (m : M A) : Prop :=
  forall w r w', P w -> m w = (r, w') -> P w'.

End Notions.


(* ------------------------------------------------------------------ *)
(** * Properties *)

(** ** The calendar *)

Import JsDate Notions.


Lemma YearFromDay_spec (d : Z) :
  DayFromYear (YearFromDay d) <= d < DayFromYear (YearFromDay d + 1).
Proof.
  unfold YearFromDay, DayFromYear.
  repeat match goal with
         | |- context [ ?a <=? ?b ] => destruct (Z.leb_spec a b)
         end; zlia.
Qed.

Lemma DayFromYear_mono (y y' : Z) : y <= y' -> DayFromYear y <= DayFromYear y'.
Proof. unfold DayFromYear. intros H. zlia. Qed.

(** [YearFromDay d] is the largest year that starts on or before day [d]. *)
Lemma YearFromDay_largest (d y : Z) : DayFromYear y <= d -> y <= YearFromDay d.
Proof.
  intros H. destruct (Z_le_gt_dec y (YearFromDay d)) as [|Hgt]; [assumption|].
  pose proof (YearFromDay_spec d) as [_ Hlt].
  pose proof (DayFromYear_mono (YearFromDay d + 1) y ltac:(lia)). lia.
Qed.

Lemma DaysInYear_diff (y : Z) : DayFromYear (y + 1) - DayFromYear y = DaysInYear y.
Proof.
  unfold DaysInYear, DayFromYear.
  repeat match goal with
         | |- context [ ?a =? ?b ] => destruct (Z.eqb_spec a b); simpl negb; cbv iota
         end; zlia.
Qed.

Lemma DayWithinYear_bounds (t : Z) :
  0 <= DayWithinYear t < DaysInYear (YearFromTime t).
Proof.
  unfold DayWithinYear, YearFromTime.
  pose proof (YearFromDay_spec (Day t)).
  pose proof (DaysInYear_diff (YearFromDay (Day t))). lia.
Qed.

Lemma monthOfDayWithinYear_range (dwy leap : Z) :
  0 <= monthOfDayWithinYear dwy leap <= 11.
Proof.
  unfold monthOfDayWithinYear.
  repeat match goal with
         | |- context [ ?a <? ?b ] => destruct (Z.ltb_spec a b)
         end; lia.
Qed.

Lemma monthStart_monthOf (dwy leap : Z) :
  0 <= dwy -> 0 <= leap <= 1 ->
  monthStart (monthOfDayWithinYear dwy leap) leap <= dwy.
Proof.
  intros Hd Hl. unfold monthOfDayWithinYear.
  repeat match goal with
         | |- context [ ?a <? ?b ] => destruct (Z.ltb_spec a b)
         end; unfold monthStart; cbn [Z.eqb Pos.eqb]; lia.
Qed.

Lemma InLeapYearOf_range (y : Z) : 0 <= InLeapYearOf y <= 1.
Proof. unfold InLeapYearOf. destruct (_ =? _); lia. Qed.

Lemma MonthFromTime_range (t : Z) : 0 <= MonthFromTime t <= 11.
Proof. apply monthOfDayWithinYear_range. Qed.

Lemma DateFromTime_pos (t : Z) : 1 <= DateFromTime t.
Proof.
  unfold DateFromTime, MonthFromTime.
  pose proof (DayWithinYear_bounds t).
  pose proof (monthStart_monthOf (DayWithinYear t) (InLeapYear t) ltac:(lia)
                (InLeapYearOf_range _)).
  lia.
Qed.

(** Shifting the day of the month moves the day number by the same amount:
    [MakeDay] inverts the decomposition of a time into year, month and date. *)
Lemma MakeDay_shift (t k : Z) :
  MakeDay (YearFromTime t) (MonthFromTime t) (DateFromTime t + k) = Day t + k.
Proof.
  unfold MakeDay.
  pose proof (MonthFromTime_range t) as Hm.
  replace (MonthFromTime t / 12) with 0 by zlia.
  replace (MonthFromTime t mod 12) with (MonthFromTime t) by zlia.
  rewrite Z.add_0_r.
  unfold DateFromTime, DayWithinYear, InLeapYear. lia.
Qed.

Lemma MakeDay_roundtrip (t : Z) :
  MakeDay (YearFromTime t) (MonthFromTime t) (DateFromTime t) = Day t.
Proof.
  pose proof (MakeDay_shift t 0) as H. rewrite !Z.add_0_r in H. exact H.
Qed.

Lemma Day_TimeWithinDay (t : Z) : t = Day t * msPerDay + TimeWithinDay t.
Proof. unfold Day, TimeWithinDay, msPerDay. zlia. Qed.

Lemma Day_add_days (t k : Z) : Day (t + k * msPerDay) = Day t + k.
Proof. unfold Day, msPerDay. zlia. Qed.

Lemma WeekDay_range (t : Z) : 0 <= WeekDay t <= 6.
Proof. unfold WeekDay. zlia. Qed.

(** TimeClip keeps a time value within 8.64e15 ms of the epoch, and only
    such a one. *)
Lemma TimeClip_Num (t : Z) : Z.abs t <= maxTime -> TimeClip t = Num t.
Proof.
  intros H. unfold TimeClip. now destruct (Z.leb_spec (Z.abs t) maxTime); [|lia].
Qed.

Lemma TimeClip_inv (t u : Z) : TimeClip t = Num u -> u = t /\ Z.abs t <= maxTime.
Proof.
  unfold TimeClip. destruct (Z.leb_spec (Z.abs t) maxTime); [|discriminate].
  intros [= <-]. auto.
Qed.

Lemma TimeClip_NaN (t : Z) : maxTime < Z.abs t -> TimeClip t = NaN.
Proof.
  intros H. unfold TimeClip. now destruct (Z.leb_spec (Z.abs t) maxTime); [lia|].
Qed.

(** The month found for a day of the year ends after that day. *)
Lemma monthStart_next (dwy leap : Z) :
  monthOfDayWithinYear dwy leap < 11 ->
  dwy < monthStart (monthOfDayWithinYear dwy leap + 1) leap.
Proof.
  unfold monthOfDayWithinYear.
  repeat match goal with
         | |- context [ ?a <? ?b ] => destruct (Z.ltb_spec a b)
         end;
    match goal with
    | |- context [monthStart (?k + 1) _] =>
        let v := eval vm_compute in (k + 1) in change (k + 1) with v
    end;
    unfold monthStart; cbn [Z.eqb Pos.eqb]; lia.
Qed.

Ltac month_case :=
  match goal with
  | |- context [monthStart (?k + 1) _] =>
      let v := eval vm_compute in (k + 1) in change (k + 1) with v
  end;
  unfold monthStart; cbn [Z.eqb Pos.eqb]; lia.

Lemma monthLength_max (m leap : Z) :
  0 <= m < 11 -> 0 <= leap <= 1 -> monthStart (m + 1) leap - monthStart m leap <= 31.
Proof.
  intros Hm Hl.
  assert (H : m = 0 \/ m = 1 \/ m = 2 \/ m = 3 \/ m = 4 \/ m = 5 \/ m = 6 \/ m = 7
              \/ m = 8 \/ m = 9 \/ m = 10) by lia.
  repeat (destruct H as [-> | H]; [month_case|]).
  subst. month_case.
Qed.

Lemma DateFromTime_max (t : Z) : DateFromTime t <= 31.
Proof.
  unfold DateFromTime, MonthFromTime.
  pose proof (DayWithinYear_bounds t) as Hd.
  pose proof (InLeapYearOf_range (YearFromTime t)) as Hl.
  fold (InLeapYear t) in Hl.
  pose proof (monthOfDayWithinYear_range (DayWithinYear t) (InLeapYear t)) as Hm.
  destruct (Z.eq_dec (monthOfDayWithinYear (DayWithinYear t) (InLeapYear t)) 11) as [E|E].
  - rewrite E. unfold monthStart; cbn [Z.eqb Pos.eqb].
    unfold InLeapYear, InLeapYearOf in *.
    destruct (Z.eqb_spec (DaysInYear (YearFromTime t)) 366) as [E6|E6].
    + lia.
    + assert (DaysInYear (YearFromTime t) = 365).
      { unfold DaysInYear in *.
        repeat match goal with
               | |- context [ ?a =? ?b ] => destruct (a =? b); cbn [negb] in *
               end; congruence. }
      lia.
  - pose proof (monthStart_next (DayWithinYear t) (InLeapYear t) ltac:(lia)).
    pose proof (monthLength_max (monthOfDayWithinYear (DayWithinYear t) (InLeapYear t))
                  (InLeapYear t) ltac:(lia) Hl).
    lia.
Qed.

(** The year, the month counted from 1 and the date that the getters read
    off a time value are the civil date of its day. *)
Lemma civilDateOf_time (t : Z) :
  civilDateOf (Day t) (YearFromTime t) (MonthFromTime t + 1) (DateFromTime t).
Proof.
  pose proof (MonthFromTime_range t) as Hm.
  unfold civilDateOf. split; [lia|]. split; [apply DateFromTime_pos|].
  replace (MonthFromTime t + 1 - 1) with (MonthFromTime t) by lia.
  split; [apply MakeDay_roundtrip|].
  unfold MakeDay.
  destruct (Z.eq_dec (MonthFromTime t) 11) as [E|E].
  - rewrite E. change ((11 + 1) / 12) with 1. change ((11 + 1) mod 12) with 0.
    unfold monthStart; cbn [Z.eqb Pos.eqb].
    pose proof (YearFromDay_spec (Day t)). unfold YearFromTime. lia.
  - replace ((MonthFromTime t + 1) / 12) with 0 by zlia.
    replace ((MonthFromTime t + 1) mod 12) with (MonthFromTime t + 1) by zlia.
    rewrite Z.add_0_r. fold (InLeapYear t).
    pose proof (monthStart_next (DayWithinYear t) (InLeapYear t)) as Hn.
    fold (MonthFromTime t) in Hn. specialize (Hn ltac:(lia)).
    unfold DayWithinYear in Hn. lia.
Qed.

Section LocalFacts.

Variable tz : Z.

(** [d.setDate(d.getDate() + k)] moves [d] by exactly [k] days, or makes it
    invalid. *)
Lemma setDate_getDate_add (d k : Z) :
  setDate tz d (getDate tz d + k) = TimeClip (d + k * msPerDay).
Proof.
  unfold setDate, getDate, UTC, MakeDate.
  rewrite MakeDay_shift. f_equal.
  pose proof (Day_TimeWithinDay (LocalTime tz d)) as H.
  unfold LocalTime in *. lia.
Qed.

Lemma getDay_add_days (d k : Z) :
  getDay tz (d + k * msPerDay) = (getDay tz d + k) mod 7.
Proof.
  unfold getDay, WeekDay, LocalTime.
  replace (d + k * msPerDay + tz) with (d + tz + k * msPerDay) by lia.
  rewrite Day_add_days. zlia.
Qed.

Lemma Day_LocalTime_add_days (d k : Z) :
  Day (LocalTime tz (d + k * msPerDay)) = Day (LocalTime tz d) + k.
Proof.
  unfold LocalTime.
  replace (d + k * msPerDay + tz) with (d + tz + k * msPerDay) by lia.
  apply Day_add_days.
Qed.

Lemma Day_LocalTime_setHours0 (d : Z) :
  Day (LocalTime tz (setHours0 tz d)) = Day (LocalTime tz d).
Proof.
  unfold setHours0, UTC, LocalTime, MakeDate, Day, msPerDay. zlia.
Qed.


End LocalFacts.


(** 2023-09-01 was a Friday, day 19601 of the epoch; 2024 has a leap day. *)
Example calendar_samples :
  Day (Date_UTC 2023 8 1) = 19601 /\
  getDay 0 (Date_UTC 2023 8 1) = 5 /\
  getDate 0 (Date_UTC 2024 1 29) = 29 /\
  getMonth 0 (Date_UTC 2024 1 30) = 2 /\
  getFullYear 0 (Date_UTC 1969 11 31) = 1969 /\
  getDay 0 (-1) = 3.
Proof. vm_compute. repeat split; reflexivity. Qed.


(** ** services/week.service.js *)

Import JsDate Notions WeekService Samples.

Lemma YearFromTime_Day (a b : Z) : Day a = Day b -> YearFromTime a = YearFromTime b.
Proof. unfold YearFromTime. now intros ->. Qed.

Lemma MonthFromTime_Day (a b : Z) : Day a = Day b -> MonthFromTime a = MonthFromTime b.
Proof.
  intros H. unfold MonthFromTime, DayWithinYear, InLeapYear.
  now rewrite H, (YearFromTime_Day a b H).
Qed.

Lemma DateFromTime_Day (a b : Z) : Day a = Day b -> DateFromTime a = DateFromTime b.
Proof.
  intros H. unfold DateFromTime, DayWithinYear, InLeapYear.
  now rewrite H, (YearFromTime_Day a b H), (MonthFromTime_Day a b H).
Qed.

Lemma Day_MakeDate_0 (d : Z) : Day (MakeDate d 0) = d.
Proof. unfold Day, MakeDate, msPerDay. zlia. Qed.

(** A number from 0 to 31 is padded to the two digits of [twoDigits]. *)
Lemma padStart2_twoDigits (n : Z) :
  0 <= n <= 31 -> padStart2 (String_of_Z n) = twoDigits n.
Proof.
  intros H. rewrite <- (Z2Nat.id n) by lia.
  assert (Hk : (Z.to_nat n <= 31)%nat) by lia.
  generalize dependent (Z.to_nat n). clear. intros k Hk.
  do 32 (destruct k as [|k]; [vm_compute; reflexivity|]). lia.
Qed.

(** What [formatLocalDate] prints for a valid date is the text of the civil
    date of its local day. *)
Lemma formatLocalDate_civil (tz t : Z) :
  exists y m d,
    civilDateOf (Day (LocalTime tz t)) y m d /\
    formatLocalDate tz (Num t) = isoText y m d.
Proof.
  exists (getFullYear tz t), (getMonth tz t + 1), (getDate tz t).
  split; [apply civilDateOf_time|].
  unfold formatLocalDate, isoText, getMonth, getDate.
  pose proof (MonthFromTime_range (LocalTime tz t)).
  pose proof (DateFromTime_pos (LocalTime tz t)).
  pose proof (DateFromTime_max (LocalTime tz t)).
  now rewrite !padStart2_twoDigits by lia.
Qed.

(** The text of a civil date never reads [NaN-NaN-NaN]: it starts with a
    digit or a minus sign. *)
Lemma isoText_not_NaN (y m d : Z) : isoText y m d <> "NaN-NaN-NaN"%string.
Proof.
  unfold isoText, String_of_Z, NilZero.string_of_int, NilZero.string_of_uint.
  destruct (Z.to_int y) as [u|u]; destruct u; cbn; discriminate.
Qed.

Section WeekFacts.

Variable tz : Z.

Lemma targetDate_eq (now weekOffset : Z) :
  targetDate tz now weekOffset = TimeClip (now + weekOffset * 7 * msPerDay).
Proof. unfold targetDate. apply setDate_getDate_add. Qed.

Lemma getDay_range (d : Z) : 0 <= getDay tz d <= 6.
Proof. apply WeekDay_range. Qed.

Lemma diffToMonday_range (d : Z) : -6 <= diffToMonday tz d <= 0.
Proof.
  unfold diffToMonday. pose proof (getDay_range d).
  destruct (Z.eqb_spec (getDay tz d) 0); lia.
Qed.

(** A valid week start was reached from a valid shifted date, by whole days. *)
Lemma weekStartDate_Num (now weekOffset ws : Z) :
  weekStartDate tz now weekOffset = Num ws ->
  let target := now + weekOffset * 7 * msPerDay in
  targetDate tz now weekOffset = Num target /\
  ws = target + diffToMonday tz target * msPerDay.
Proof.
  unfold weekStartDate. rewrite targetDate_eq.
  destruct (TimeClip (now + weekOffset * 7 * msPerDay)) as [t|] eqn:Ht;
    [|discriminate].
  apply TimeClip_inv in Ht. destruct Ht as [-> _].
  cbn [bindNum]. rewrite setDate_getDate_add. intros Hws.
  apply TimeClip_inv in Hws. destruct Hws as [-> _]. auto.
Qed.

Lemma weekEndDate_Num (now weekOffset we : Z) :
  weekEndDate tz now weekOffset = Num we ->
  exists ws, weekStartDate tz now weekOffset = Num ws /\ we = ws + 6 * msPerDay.
Proof.
  unfold weekEndDate.
  destruct (weekStartDate tz now weekOffset) as [ws|]; [|discriminate].
  cbn [bindNum]. rewrite setDate_getDate_add. intros Hwe.
  apply TimeClip_inv in Hwe. destruct Hwe as [-> _]. eauto.
Qed.

(** Dates well inside the range of [Date] have a week. *)
Lemma week_in_range (now weekOffset : Z) :
  Z.abs (now + weekOffset * 7 * msPerDay) <= maxTime - 6 * msPerDay ->
  exists ws we,
    weekStartDate tz now weekOffset = Num ws /\
    weekEndDate tz now weekOffset = Num we.
Proof.
  intros H. unfold weekEndDate, weekStartDate. rewrite targetDate_eq.
  set (t := now + weekOffset * 7 * msPerDay) in *.
  pose proof (diffToMonday_range t) as Hd.
  unfold maxTime, msPerDay in *.
  rewrite (TimeClip_Num t) by (unfold maxTime; lia). cbn [bindNum].
  rewrite setDate_getDate_add.
  rewrite TimeClip_Num by (unfold maxTime, msPerDay; lia). cbn [bindNum].
  rewrite setDate_getDate_add.
  rewrite TimeClip_Num by (unfold maxTime, msPerDay; lia). eauto.
Qed.

Lemma weekStartDate_monday (now weekOffset ws : Z) :
  weekStartDate tz now weekOffset = Num ws -> getDay tz ws = 1.
Proof.
  intros H. apply weekStartDate_Num in H. destruct H as [_ ->].
  rewrite getDay_add_days. unfold diffToMonday.
  pose proof (getDay_range (now + weekOffset * 7 * msPerDay)).
  destruct (Z.eqb_spec (getDay tz (now + weekOffset * 7 * msPerDay)) 0) as [->|]; zlia.
Qed.

(** The week start is the Monday of the week that holds the shifted day. *)
Lemma weekStartDate_week (now weekOffset ws : Z) :
  weekStartDate tz now weekOffset = Num ws ->
  let monday := Day (LocalTime tz ws) in
  let day := Day (LocalTime tz now) + 7 * weekOffset in
  monday <= day <= monday + 6.
Proof.
  intros H. cbv zeta. apply weekStartDate_Num in H. destruct H as [_ ->].
  rewrite Day_LocalTime_add_days.
  replace (now + weekOffset * 7 * msPerDay) with (now + (7 * weekOffset) * msPerDay) by lia.
  rewrite Day_LocalTime_add_days.
  pose proof (diffToMonday_range (now + 7 * weekOffset * msPerDay)). lia.
Qed.

Lemma getDay_isMonday (d : Z) : getDay tz d = 1 <-> isMonday (Day (LocalTime tz d)).
Proof. unfold getDay, WeekDay, isMonday. zlia. Qed.

End WeekFacts.

(** C9, as the code has it.  Whenever the week start and the week end that
    [getWeekInfo] computes are valid dates, the week start falls on a Monday
    and the week end on the Sunday six calendar days later, whatever month
    or year they fall in; the two strings returned are the texts
    [YYYY-MM-DD] of the civil dates of those two days. *)
Theorem getWeekInfo_monday_to_sunday (tz now weekOffset ws we : Z) :
  weekStartDate tz now weekOffset = Num ws ->
  weekEndDate tz now weekOffset = Num we ->
  let wi := getWeekInfo tz now weekOffset in
  let monday := Day (LocalTime tz ws) in
  let sunday := Day (LocalTime tz we) in
  getDay tz ws = 1 /\ isMonday monday /\
  getDay tz we = 0 /\ sunday = monday + 6 /\
  (exists y m d, civilDateOf monday y m d /\ weekStart wi = isoText y m d) /\
  (exists y m d, civilDateOf sunday y m d /\ weekEnd wi = isoText y m d).
Proof.
  intros Hws Hwe. cbv zeta.
  pose proof (weekStartDate_monday tz now weekOffset ws Hws) as Hmon.
  destruct (weekEndDate_Num tz now weekOffset we Hwe) as (ws' & Hws' & ->).
  rewrite Hws in Hws'. injection Hws' as <-.
  split; [exact Hmon|]. split; [now apply getDay_isMonday|].
  split; [rewrite getDay_add_days, Hmon; reflexivity|].
  split; [apply Day_LocalTime_add_days|].
  unfold getWeekInfo. cbn [weekStart weekEnd]. rewrite Hws, Hwe.
  split; apply formatLocalDate_civil.
Qed.

(** The week of noon, 2023-09-01, seventeen weeks on: it runs from Monday
    2023-12-25 into the new year. *)
Lemma getWeekInfo_monday_to_sunday_witness :
  let wi := getWeekInfo tzEast3 noon_2023_09_01 17 in
  let ws := noon_2023_09_01 + 115 * msPerDay in
  let we := noon_2023_09_01 + 121 * msPerDay in
  (getDay tzEast3 ws = 1 /\ isMonday (Day (LocalTime tzEast3 ws)) /\
   getDay tzEast3 we = 0 /\
   Day (LocalTime tzEast3 we) = Day (LocalTime tzEast3 ws) + 6 /\
   (exists y m d, civilDateOf (Day (LocalTime tzEast3 ws)) y m d /\
                  weekStart wi = isoText y m d) /\
   (exists y m d, civilDateOf (Day (LocalTime tzEast3 we)) y m d /\
                  weekEnd wi = isoText y m d)) /\
  weekStart wi = "2023-12-25"%string /\ weekEnd wi = "2023-12-31"%string.
Proof.
  cbv zeta. split; [|split; vm_compute; reflexivity].
  apply (getWeekInfo_monday_to_sunday tzEast3 noon_2023_09_01 17);
    vm_compute; reflexivity.
Defined.

(** C9, as the specification words it, fails: a hundred million weeks on the
    shifted date lies outside the range of [Date]; it is an Invalid Date, no
    Monday, and both strings read [NaN-NaN-NaN]. *)
Lemma getWeekInfo_monday_to_sunday_not_for_every_offset :
  let wi := getWeekInfo tzEast3 noon_2023_09_01 100000000 in
  weekStart wi = "NaN-NaN-NaN"%string /\
  weekEnd wi = "NaN-NaN-NaN"%string /\
  ~ (exists ws, weekStartDate tzEast3 noon_2023_09_01 100000000 = Num ws /\
                getDay tzEast3 ws = 1) /\
  ~ (exists y m d, weekStart wi = isoText y m d).
Proof.
  cbv zeta.
  assert (Hs : weekStartDate tzEast3 noon_2023_09_01 100000000 = NaN)
    by (vm_compute; reflexivity).
  assert (Ht : weekStart (getWeekInfo tzEast3 noon_2023_09_01 100000000)
               = "NaN-NaN-NaN"%string) by (vm_compute; reflexivity).
  split; [exact Ht|]. split; [vm_compute; reflexivity|]. split.
  - intros (ws & H & _). rewrite Hs in H. discriminate.
  - intros (y & m & d & H). rewrite Ht in H. symmetry in H.
    now apply isoText_not_NaN in H.
Qed.

(** The week around a turn of the year, and around the leap day of 2024. *)
Example getWeekInfo_new_year :
  let wi := getWeekInfo 0 (Date_UTC 2024 0 3) 0 in
  weekStart wi = "2024-01-01"%string /\ weekEnd wi = "2024-01-07"%string.
Proof. vm_compute. split; reflexivity. Qed.

Example getWeekInfo_last_sunday_of_2023 :
  let wi := getWeekInfo 0 (Date_UTC 2023 11 31) 1 in
  weekStart wi = "2024-01-01"%string /\ weekEnd wi = "2024-01-07"%string /\
  weekStart (getWeekInfo 0 (Date_UTC 2023 11 31) 0) = "2023-12-25"%string.
Proof. vm_compute. repeat split; reflexivity. Qed.

Example getWeekInfo_leap_day :
  let wi := getWeekInfo 0 (Date_UTC 2024 2 1) 0 in
  weekStart wi = "2024-02-26"%string /\ weekEnd wi = "2024-03-03"%string /\
  weekNumber wi = Num 26.
Proof. vm_compute. repeat split; reflexivity. Qed.

(** The range of [Date] ends with Saturday 275760-09-13, 00:00 UTC: seen a
    week before, the next week has a Monday but no Sunday, and the week after
    has neither. *)
Example getWeekInfo_end_of_time :
  let sat := maxTime - 7 * msPerDay in
  weekStart (getWeekInfo 0 sat 0) = "275760-09-01"%string /\
  weekEnd (getWeekInfo 0 sat 0) = "275760-09-07"%string /\
  weekStart (getWeekInfo 0 sat 1) = "275760-09-08"%string /\
  weekEnd (getWeekInfo 0 sat 1) = "NaN-NaN-NaN"%string /\
  weekNumber (getWeekInfo 0 sat 1) = Num 2 /\
  weekStart (getWeekInfo 0 sat 2) = "NaN-NaN-NaN"%string /\
  weekNumber (getWeekInfo 0 sat 2) = NaN /\
  isEven (getWeekInfo 0 sat 2) = false.
Proof. vm_compute. repeat split; reflexivity. Qed.

(** The printed date depends on the local calendar day only. *)
Lemma formatLocalDate_Day (tz tz' a b : Z) :
  Day (LocalTime tz a) = Day (LocalTime tz' b) ->
  formatLocalDate tz (Num a) = formatLocalDate tz' (Num b).
Proof.
  intros H. unfold formatLocalDate, getFullYear, getMonth, getDate.
  now rewrite (YearFromTime_Day _ _ H), (MonthFromTime_Day _ _ H),
    (DateFromTime_Day _ _ H).
Qed.

Lemma formatLocalDate_of_day (tz t n : Z) :
  Day (LocalTime tz t) = n ->
  formatLocalDate tz (Num t) = formatLocalDate 0 (Num (MakeDate n 0)).
Proof.
  intros H. apply formatLocalDate_Day.
  unfold LocalTime at 2. now rewrite Z.add_0_r, Day_MakeDate_0.
Qed.

Section FirstOfSeptember2023.

Variables tz now : Z.
Hypothesis Hzone : Z.abs tz <= msPerDay.
Hypothesis Hyear : getFullYear tz now = 2023.
Hypothesis Hmonth : getMonth tz now = 8.
Hypothesis Hdate : getDate tz now = 1.

Lemma sept1_day : Day (LocalTime tz now) = 19601.
Proof.
  rewrite <- (MakeDay_roundtrip (LocalTime tz now)).
  unfold getFullYear, getMonth, getDate in *.
  now rewrite Hyear, Hmonth, Hdate.
Qed.

Lemma sept1_now : 19600 * msPerDay <= now < 19603 * msPerDay.
Proof.
  pose proof sept1_day as H. unfold Day, LocalTime, msPerDay in *. zlia.
Qed.

Lemma sept1_weekStart : weekStartDate tz now 0 = Num (now - 4 * msPerDay).
Proof.
  pose proof sept1_now as Hn.
  unfold weekStartDate. rewrite targetDate_eq.
  replace (now + 0 * 7 * msPerDay) with now by lia.
  rewrite TimeClip_Num by (unfold maxTime, msPerDay in *; lia). cbn [bindNum].
  rewrite setDate_getDate_add.
  assert (Hd : diffToMonday tz now = -4).
  { unfold diffToMonday, getDay, WeekDay. rewrite sept1_day. reflexivity. }
  rewrite Hd. rewrite TimeClip_Num by (unfold maxTime, msPerDay in *; lia).
  f_equal; lia.
Qed.

Lemma sept1_weekEnd : weekEndDate tz now 0 = Num (now + 2 * msPerDay).
Proof.
  pose proof sept1_now as Hn.
  unfold weekEndDate. rewrite sept1_weekStart. cbn [bindNum].
  rewrite setDate_getDate_add.
  rewrite TimeClip_Num by (unfold maxTime, msPerDay in *; lia). f_equal; lia.
Qed.

Lemma sept1_academicYearStart : academicYearStart tz now = 19601 * msPerDay - tz.
Proof.
  unfold academicYearStart. rewrite Hmonth, Hyear. reflexivity.
Qed.

End FirstOfSeptember2023.

(** C6, on the code.  At any moment of the local day 2023-09-01 (a Friday),
    in a zone within a day of UTC, [getWeekInfo] with offset 0 returns the
    week 2023-08-28 to 2023-09-03; its Monday lies four days before the
    academic year starts, so the week number is [floor(-4 / 7) + 1 = 0], not
    1, and the week counts as even. *)
Theorem getWeekInfo_first_of_september_2023 (tz now : Z) :
  Z.abs tz <= msPerDay ->
  getFullYear tz now = 2023 -> getMonth tz now = 8 -> getDate tz now = 1 ->
  getWeekInfo tz now 0 =
  {| weekNumber := Num 0;
     isEven := true;
     weekType := "чётная";
     weekStart := "2023-08-28";
     weekEnd := "2023-09-03" |}.
Proof.
  intros Hz Hy Hm Hd.
  pose proof (sept1_day tz now Hy Hm Hd) as Hday.
  pose proof (sept1_weekStart tz now Hz Hy Hm Hd) as Hws.
  pose proof (sept1_weekEnd tz now Hz Hy Hm Hd) as Hwe.
  pose proof (sept1_academicYearStart tz now Hy Hm) as Hays.
  assert (Hdiff : (now - 4 * msPerDay - academicYearStart tz now)
                  / (1000 * 60 * 60 * 24) = -4).
  { rewrite Hays. unfold Day, LocalTime, msPerDay in *. zlia. }
  assert (Hs : formatLocalDate tz (Num (now - 4 * msPerDay)) = "2023-08-28"%string).
  { rewrite (formatLocalDate_of_day tz _ 19597); [reflexivity|].
    replace (now - 4 * msPerDay) with (now + (-4) * msPerDay) by lia.
    rewrite Day_LocalTime_add_days, Hday. reflexivity. }
  assert (He : formatLocalDate tz (Num (now + 2 * msPerDay)) = "2023-09-03"%string).
  { rewrite (formatLocalDate_of_day tz _ 19603); [reflexivity|].
    rewrite Day_LocalTime_add_days, Hday. reflexivity. }
  unfold getWeekInfo. rewrite Hws, Hwe. cbn [mapNum]. rewrite Hdiff, Hs, He.
  reflexivity.
Qed.

(** Noon of 2023-09-01 on a server three hours east of UTC. *)
Lemma getWeekInfo_first_of_september_2023_witness :
  getWeekInfo 10800000 1693558800000 0 =
  {| weekNumber := Num 0;
     isEven := true;
     weekType := "чётная";
     weekStart := "2023-08-28";
     weekEnd := "2023-09-03" |}.
Proof.
  apply (getWeekInfo_first_of_september_2023 10800000 1693558800000);
    vm_compute; try reflexivity; discriminate.
Defined.

(** What the specification expects of that day does not hold: the week is
    right, but its number is not 1 and it does not count as odd. *)
Lemma getWeekInfo_first_of_september_2023_not_week_1 :
  let wi := getWeekInfo 10800000 1693558800000 0 in
  ~ (weekStart wi = "2023-08-28"%string /\ weekEnd wi = "2023-09-03"%string /\
     weekNumber wi = Num 1 /\ isEven wi = false).
Proof.
  cbv zeta. intros (_ & _ & Hn & _). vm_compute in Hn. discriminate Hn.
Qed.

(** *** The week and the day it is computed for *)

(** X2.  The week returned is the one that holds the day [weekOffset] weeks
    from today: whenever the week start is a valid date, it is a Monday,
    the day in question is that Monday or one of the six days after it, and
    the string returned is the text of the Monday's civil date. *)
Theorem getWeekInfo_week_holds_the_day (tz now weekOffset ws : Z) :
  weekStartDate tz now weekOffset = Num ws ->
  let monday := Day (LocalTime tz ws) in
  let day := Day (LocalTime tz now) + 7 * weekOffset in
  isMonday monday /\
  monday <= day <= monday + 6 /\
  exists y m d,
    civilDateOf monday y m d /\
    weekStart (getWeekInfo tz now weekOffset) = isoText y m d.
Proof.
  intros Hws. cbv zeta.
  split; [apply getDay_isMonday; eapply weekStartDate_monday; eauto|].
  split; [apply (weekStartDate_week tz now weekOffset ws Hws)|].
  unfold getWeekInfo. cbn [weekStart]. rewrite Hws. apply formatLocalDate_civil.
Qed.

(** Wednesday 2024-01-03, seen from the Friday noon fifteen weeks before. *)
Lemma getWeekInfo_week_holds_the_day_witness :
  let ws := noon_2023_09_01 + 101 * msPerDay in
  let monday := Day (LocalTime tzEast3 ws) in
  let day := Day (LocalTime tzEast3 noon_2023_09_01) + 7 * 15 in
  isMonday monday /\
  monday <= day <= monday + 6 /\
  exists y m d,
    civilDateOf monday y m d /\
    weekStart (getWeekInfo tzEast3 noon_2023_09_01 15) = isoText y m d.
Proof.
  apply (getWeekInfo_week_holds_the_day tzEast3 noon_2023_09_01 15).
  vm_compute. reflexivity.
Defined.

Lemma getDay_shift_weeks (tz now k : Z) :
  getDay tz (now + k * 7 * msPerDay) = getDay tz now.
Proof.
  replace (k * 7 * msPerDay) with ((k * 7) * msPerDay) by lia.
  rewrite getDay_add_days. pose proof (getDay_range tz now). zlia.
Qed.

(** X3.  Whenever the date shifted by [weekOffset] weeks is a valid date, the
    week computed by the week controller is the week of [getWeekInfo]: both
    handlers start the week on the same Monday and end it on the same
    Sunday, or both have no such date. *)
Theorem getScheduleByWeek_agrees_with_getWeekInfo (tz now weekOffset : Z) :
  targetDate tz now weekOffset <> NaN ->
  ScheduleWeek.monday tz now weekOffset = weekStartDate tz now weekOffset /\
  ScheduleWeek.sunday tz now weekOffset = weekEndDate tz now weekOffset.
Proof.
  intros Hvalid.
  assert (H : ScheduleWeek.monday tz now weekOffset = weekStartDate tz now weekOffset).
  { unfold ScheduleWeek.monday, weekStartDate. revert Hvalid.
    rewrite targetDate_eq.
    destruct (TimeClip (now + weekOffset * 7 * msPerDay)) as [t|] eqn:Ht;
      [intros _|intros H; now contradiction H].
    apply TimeClip_inv in Ht. destruct Ht as [-> _]. cbn [bindNum].
    replace (getDate tz now - (if getDay tz now =? 0 then 7 else getDay tz now)
             + 1 + weekOffset * 7)
      with (getDate tz now
            + (weekOffset * 7 + 1 - (if getDay tz now =? 0 then 7 else getDay tz now)))
      by lia.
    rewrite !setDate_getDate_add. unfold diffToMonday.
    rewrite getDay_shift_weeks. f_equal.
    destruct (getDay tz now =? 0); lia. }
  split; [exact H|].
  unfold ScheduleWeek.sunday, weekEndDate. now rewrite H.
Qed.

Lemma getScheduleByWeek_agrees_with_getWeekInfo_witness :
  ScheduleWeek.monday tzEast3 noon_2023_09_01 17
  = weekStartDate tzEast3 noon_2023_09_01 17 /\
  ScheduleWeek.sunday tzEast3 noon_2023_09_01 17
  = weekEndDate tzEast3 noon_2023_09_01 17.
Proof.
  apply (getScheduleByWeek_agrees_with_getWeekInfo tzEast3 noon_2023_09_01 17).
  vm_compute. discriminate.
Defined.

(** Without that condition the two handlers part: on a Sunday, 14282914 weeks
    before the Sunday after the last day of [Date], the week controller
    still finds the Monday, 275760-09-08, which [getWeekInfo] does not. *)
Example getScheduleByWeek_parts_from_getWeekInfo :
  let sunday := noon_2023_09_01 + 2 * msPerDay in
  targetDate tzEast3 sunday 14282914 = NaN /\
  weekStartDate tzEast3 sunday 14282914 = NaN /\
  ScheduleWeek.monday tzEast3 sunday 14282914 = Num (maxTime - 5 * msPerDay + 32400000) /\
  ScheduleWeek.sunday tzEast3 sunday 14282914 = NaN.
Proof. vm_compute. repeat split; reflexivity. Qed.

Lemma InLeapYearOf_DaysInYear (y : Z) : InLeapYearOf y = DaysInYear y - 365.
Proof.
  unfold InLeapYearOf, DaysInYear.
  repeat match goal with
         | |- context [ negb (?a =? ?b) ] => destruct (a =? b); cbn [negb]
         end; reflexivity.
Qed.

Lemma MonthFromTime_ge_8 (t : Z) :
  8 <= MonthFromTime t <-> 243 + InLeapYear t <= DayWithinYear t.
Proof.
  unfold MonthFromTime. pose proof (DayWithinYear_bounds t) as Hb.
  pose proof (InLeapYearOf_range (YearFromTime t)) as Hl. fold (InLeapYear t) in Hl.
  unfold monthOfDayWithinYear.
  repeat match goal with
         | |- context [ ?a <? ?b ] => destruct (Z.ltb_spec a b)
         end; lia.
Qed.

Lemma Day_newDateYMD (tz year month date : Z) :
  Day (LocalTime tz (newDateYMD tz year month date))
  = MakeDay (MakeFullYear year) month date.
Proof.
  unfold newDateYMD, UTC, LocalTime.
  replace (MakeDate (MakeDay (MakeFullYear year) month date) 0 - tz + tz)
    with (MakeDate (MakeDay (MakeFullYear year) month date) 0) by lia.
  apply Day_MakeDate_0.
Qed.

Lemma MakeFullYear_late (year : Z) : 100 <= year -> MakeFullYear year = year.
Proof.
  intros H. unfold MakeFullYear.
  destruct (Z.leb_spec year 99); [lia|]. now rewrite andb_false_r.
Qed.

Lemma MakeDay_sept1 (year : Z) :
  MakeDay year 8 1 = DayFromYear year + 243 + InLeapYearOf year.
Proof.
  unfold MakeDay. change (8 / 12) with 0. change (8 mod 12) with 8.
  rewrite Z.add_0_r. unfold monthStart. cbn [Z.eqb Pos.eqb]. lia.
Qed.

(** The academic year that [getWeekInfo] picks has started, at most 365 days
    ago. *)
Lemma academicYearStart_recent (tz now : Z) :
  101 <= getFullYear tz now ->
  let start := Day (LocalTime tz (academicYearStart tz now)) in
  start <= Day (LocalTime tz now) <= start + 365.
Proof.
  intros Hy. cbv zeta. unfold academicYearStart, getMonth, getFullYear in *.
  set (t := LocalTime tz now) in *.
  pose proof (DayWithinYear_bounds t) as Hb.
  pose proof (MonthFromTime_ge_8 t) as Hm.
  unfold InLeapYear, DayWithinYear in *.
  set (y := YearFromTime t) in *.
  pose proof (DaysInYear_diff (y - 1)) as Hprev.
  replace (y - 1 + 1) with y in Hprev by lia.
  pose proof (InLeapYearOf_DaysInYear y) as Hl.
  pose proof (InLeapYearOf_DaysInYear (y - 1)) as Hl'.
  pose proof (InLeapYearOf_range y). pose proof (InLeapYearOf_range (y - 1)).
  destruct (Z.leb_spec 8 (MonthFromTime t)) as [H8|H8];
    rewrite Day_newDateYMD, MakeFullYear_late, MakeDay_sept1 by lia; lia.
Qed.


Lemma weekNumber_getWeekInfo (tz now k ws : Z) :
  weekStartDate tz now k = Num ws ->
  weekNumber (getWeekInfo tz now k)
  = Num ((ws - academicYearStart tz now) / msPerDay / 7 + 1).
Proof. intros H. unfold getWeekInfo. cbn [weekNumber]. rewrite H. reflexivity. Qed.

Lemma LocalTime_newDateYMD (tz year month date : Z) :
  LocalTime tz (newDateYMD tz year month date)
  = MakeDay (MakeFullYear year) month date * msPerDay.
Proof. unfold newDateYMD, UTC, LocalTime, MakeDate. lia. Qed.

Lemma academicYearStart_midnight (tz now : Z) :
  LocalTime tz (academicYearStart tz now)
  = Day (LocalTime tz (academicYearStart tz now)) * msPerDay.
Proof.
  unfold academicYearStart. now rewrite Day_newDateYMD, LocalTime_newDateYMD.
Qed.

(** Whole days between a date and a local midnight. *)
Lemma days_since_midnight (tz ws ays : Z) :
  LocalTime tz ays = Day (LocalTime tz ays) * msPerDay ->
  (ws - ays) / msPerDay = Day (LocalTime tz ws) - Day (LocalTime tz ays).
Proof.
  unfold LocalTime. generalize (Day (ays + tz)). intros a Ha.
  unfold Day, msPerDay in *. zlia.
Qed.

(** X4.  For the current week of a year from 101 on, when its Monday is a
    valid date, the week number is a number between 0 and 53; it is 0
    exactly when the week's Monday comes before the first of September that
    starts the academic year. *)
Theorem getWeekInfo_weekNumber_range (tz now ws : Z) :
  101 <= getFullYear tz now ->
  weekStartDate tz now 0 = Num ws ->
  exists n,
    weekNumber (getWeekInfo tz now 0) = Num n /\
    0 <= n <= 53 /\
    (n = 0 <->
     Day (LocalTime tz ws) < Day (LocalTime tz (academicYearStart tz now))).
Proof.
  intros Hy Hws.
  pose proof (academicYearStart_recent tz now Hy) as Hrecent.
  pose proof (weekStartDate_week tz now 0 ws Hws) as Hweek.
  rewrite (weekNumber_getWeekInfo tz now 0 ws Hws).
  eexists. split; [reflexivity|].
  rewrite (days_since_midnight tz _ _ (academicYearStart_midnight tz now)).
  revert Hrecent Hweek.
  generalize (Day (LocalTime tz ws)).
  generalize (Day (LocalTime tz (academicYearStart tz now))).
  generalize (Day (LocalTime tz now)).
  intros n a w Hrecent Hweek. cbv zeta in Hrecent, Hweek. zlia.
Qed.

Lemma getWeekInfo_weekNumber_range_witness :
  exists n,
    weekNumber (getWeekInfo tzEast3 noon_2023_09_01 0) = Num n /\
    0 <= n <= 53 /\
    (n = 0 <->
     Day (LocalTime tzEast3 (noon_2023_09_01 - 4 * msPerDay))
     < Day (LocalTime tzEast3 (academicYearStart tzEast3 noon_2023_09_01))).
Proof.
  apply (getWeekInfo_weekNumber_range tzEast3 noon_2023_09_01).
  - vm_compute. discriminate.
  - vm_compute. reflexivity.
Defined.

(** ** services/generator.service.js *)

Import JsDate Notions WeekService Generator Samples.

(** ISO week numbers at the edges of a year, and of the first semester day. *)
Example getWeekNumber_samples :
  getWeekNumber 0 (Date_UTC 2023 0 1) = 52 /\
  getWeekNumber 0 (Date_UTC 2023 8 1) = 35 /\
  getWeekNumber 0 (Date_UTC 2023 8 4) = 36 /\
  getWeekNumber 0 (Date_UTC 2024 11 30) = 1 /\
  getWeekNumber 0 (Date_UTC 2026 11 31) = 53.
Proof. vm_compute. repeat split; reflexivity. Qed.

(** Mondays of even ISO weeks, seen from UTC: the first is 2023-09-04. *)
Example generateDates_even_mondays :
  option_map (map (fun d => formatLocalDate 0 (Num d))) (generateDates 0 0 1)
  = Some ["2023-09-04"; "2023-09-18"; "2023-10-02"; "2023-10-16"; "2023-10-30";
          "2023-11-13"; "2023-11-27"; "2023-12-11"; "2023-12-25"]%string.
Proof. vm_compute. reflexivity. Qed.

Section GeneratorFacts.

Variable tz : Z.

(** The loop leaves through its condition, not through its bound, as soon as
    the bound covers the days that remain in the window. *)
Lemma generateDates_loop_total (fuel : nat) (target weekType : Z) :
  forall (cur : Z) (acc : list Z),
    SEMESTER_END - cur < Z.of_nat fuel * msPerDay ->
    exists res, generateDates_loop tz fuel target weekType cur acc = Some res.
Proof.
  induction fuel as [|fuel IH]; intros cur acc Hfuel.
  - cbn [generateDates_loop].
    destruct (Z.leb_spec cur SEMESTER_END); [lia | eauto].
  - cbn [generateDates_loop].
    destruct (Z.leb_spec cur SEMESTER_END); [| eauto].
    rewrite setDate_getDate_add.
    destruct (TimeClip (cur + 1 * msPerDay)) as [next|] eqn:Hnext; [| eauto].
    apply TimeClip_inv in Hnext. destruct Hnext as [-> _].
    apply IH. unfold msPerDay in *. lia.
Qed.

Lemma collect_split3 (target cur : Z) (any even odd : list Z) :
  split3 tz any even odd ->
  split3 tz (collect tz target 0 cur any) (collect tz target 1 cur even)
         (collect tz target 2 cur odd).
Proof.
  intros (Hu & He & Ho). unfold collect, split3.
  destruct (getDay tz cur =? target); [|auto].
  unfold weekTypeMatch. cbn [Z.eqb Pos.eqb andb].
  destruct (isEvenWeek tz cur) eqn:Hpar; cbn [negb]; repeat split.
  - rewrite !in_app_iff, Hu. tauto.
  - rewrite !in_app_iff, Hu. tauto.
  - intros d. rewrite in_app_iff. cbn [In]. intros [H | [<- | []]]; auto.
  - exact Ho.
  - rewrite !in_app_iff, Hu. tauto.
  - rewrite !in_app_iff, Hu. tauto.
  - exact He.
  - intros d. rewrite in_app_iff. cbn [In]. intros [H | [<- | []]]; auto.
Qed.

(** Run side by side on the same window, the three week types keep the
    relation, and end together. *)
Lemma generateDates_loop_split (fuel : nat) (target : Z) :
  forall (cur : Z) (any even odd : list Z),
    split3 tz any even odd ->
    match generateDates_loop tz fuel target 0 cur any,
          generateDates_loop tz fuel target 1 cur even,
          generateDates_loop tz fuel target 2 cur odd with
    | Some any', Some even', Some odd' => split3 tz any' even' odd'
    | None, None, None => True
    | _, _, _ => False
    end.
Proof.
  induction fuel as [|fuel IH]; intros cur any even odd Hinv;
    cbn [generateDates_loop]; destruct (cur <=? SEMESTER_END); auto.
  pose proof (collect_split3 target cur any even odd Hinv) as Hstep.
  unfold collect in Hstep.
  destruct (setDate tz cur (getDate tz cur + 1)) as [next|]; [apply IH|]; exact Hstep.
Qed.

End GeneratorFacts.

(** C8.  For every weekday (0..5 in particular) the three calls return, and
    the dates returned for week type 0 (any) are exactly those returned for
    week type 1 (even) together with those returned for week type 2 (odd),
    while no date is returned for both 1 and 2. *)
Theorem generateDates_any_is_even_plus_odd (tz dayOfWeek : Z) :
  exists any even odd : list Z,
    generateDates tz dayOfWeek 0 = Some any /\
    generateDates tz dayOfWeek 1 = Some even /\
    generateDates tz dayOfWeek 2 = Some odd /\
    (forall d, In d any <-> In d even \/ In d odd) /\
    (forall d, ~ (In d even /\ In d odd)).
Proof.
  unfold generateDates.
  assert (Hfuel : SEMESTER_END - SEMESTER_START < Z.of_nat semesterDays * msPerDay)
    by (vm_compute; reflexivity).
  destruct (generateDates_loop_total tz semesterDays (dayOfWeek + 1) 0
              SEMESTER_START [] Hfuel) as [any Hany].
  destruct (generateDates_loop_total tz semesterDays (dayOfWeek + 1) 1
              SEMESTER_START [] Hfuel) as [even Heven].
  destruct (generateDates_loop_total tz semesterDays (dayOfWeek + 1) 2
              SEMESTER_START [] Hfuel) as [odd Hodd].
  pose proof (generateDates_loop_split tz semesterDays (dayOfWeek + 1)
                SEMESTER_START [] [] []
                ltac:(unfold split3; cbn [In]; tauto))
    as H.
  rewrite Hany, Heven, Hodd in H. cbv beta iota zeta in H.
  destruct H as (Hu & He & Ho).
  exists any, even, odd.
  split; [exact Hany|]. split; [exact Heven|]. split; [exact Hodd|].
  split; [exact Hu|].
  intros d [H1 H2]. apply He in H1. apply Ho in H2. congruence.
Qed.


(** ** Series dates *)

Section SeriesFacts.

Variable tz : Z.

(** What the loop adds to its list from [cur] on: the days [cur + k] up to
    the end of the semester that fall on the weekday and pass the week-type
    test, in ascending order. *)
Lemma generateDates_loop_exact (target weekType : Z) (fuel : nat) :
  forall (cur : Z) (acc res : list Z),
    SEMESTER_START <= cur ->
    generateDates_loop tz fuel target weekType cur acc = Some res ->
    exists rest,
      res = acc ++ rest /\
      (forall d, In d rest <->
                 (exists k, 0 <= k /\ d = cur + k * msPerDay /\ d <= SEMESTER_END) /\
                 getDay tz d = target /\
                 weekTypeMatch weekType (isEvenWeek tz d) = true) /\
      StronglySorted Z.lt rest.
Proof.
  assert (Hdone : forall cur acc res,
             SEMESTER_END < cur -> Some acc = Some res ->
             exists rest,
               res = acc ++ rest /\
               (forall d, In d rest <->
                  (exists k, 0 <= k /\ d = cur + k * msPerDay /\ d <= SEMESTER_END) /\
                  getDay tz d = target /\
                  weekTypeMatch weekType (isEvenWeek tz d) = true) /\
               StronglySorted Z.lt rest).
  { intros cur acc res Hgt [= <-]. exists []. rewrite app_nil_r.
    split; [reflexivity|]. split; [|constructor].
    intros d. split; [intros []|].
    intros ((k & Hk & -> & Hend) & _). unfold msPerDay in *. lia. }
  induction fuel as [|fuel IH]; intros cur acc res Hfrom; cbn [generateDates_loop];
    destruct (Z.leb_spec cur SEMESTER_END) as [Hle|Hgt]; auto.
  - intros [=].
  - rewrite setDate_getDate_add.
    rewrite TimeClip_Num.
    2:{ assert (0 <= SEMESTER_START) by (vm_compute; discriminate).
        assert (SEMESTER_END + 1 * msPerDay <= maxTime) by (vm_compute; discriminate).
        unfold msPerDay in *. lia. }
    intros Hrun.
    apply IH in Hrun; [|unfold msPerDay; lia].
    destruct Hrun as (rest & -> & Hin & Hsorted).
    assert (Hlater : forall d, In d rest -> cur < d).
    { intros d Hd. apply Hin in Hd. destruct Hd as ((k & Hk & -> & _) & _).
      unfold msPerDay. lia. }
    assert (Hshift : forall d,
               (exists k, 0 <= k /\ d = cur + k * msPerDay /\ d <= SEMESTER_END) <->
               d = cur \/
               (exists k, 0 <= k /\ d = cur + 1 * msPerDay + k * msPerDay
                          /\ d <= SEMESTER_END)).
    { intros d. unfold msPerDay. split.
      - intros (k & Hk & -> & Hend).
        destruct (Z.eq_dec k 0) as [->|]; [left; lia|].
        right. exists (k - 1). repeat split; lia.
      - intros [-> | (k & Hk & -> & Hend)].
        + exists 0. repeat split; lia.
        + exists (k + 1). repeat split; lia. }
    destruct (Z.eqb_spec (getDay tz cur) target) as [Hday|Hday];
      [destruct (weekTypeMatch weekType (isEvenWeek tz cur)) eqn:Hmatch|].
    + exists (cur :: rest). rewrite <- app_assoc. split; [reflexivity|]. split.
      * intros d. cbn [In]. rewrite Hin, Hshift. split.
        -- intros [<- | (Hk & Hd & Hm)]; auto.
        -- intros ([-> | Hk] & Hd & Hm); auto.
      * constructor; auto. apply Forall_forall. exact Hlater.
    + exists rest. split; [reflexivity|]. split; auto.
      intros d. rewrite Hin, Hshift. split.
      * intros (Hk & Hd & Hm). auto.
      * intros ([-> | Hk] & Hd & Hm); auto. congruence.
    + exists rest. split; [reflexivity|]. split; auto.
      intros d. rewrite Hin, Hshift. split.
      * intros (Hk & Hd & Hm). auto.
      * intros ([-> | Hk] & Hd & Hm); auto. contradiction.
Qed.

End SeriesFacts.

(** In a zone that keeps one offset, [generateDates] returns exactly the days
    of the semester window, counted in whole days from its start, that fall
    on the requested weekday and pass the week-type test, each once and in
    ascending order. *)
Lemma generateDates_exact (tz dayOfWeek weekType : Z) :
  exists dates,
    generateDates tz dayOfWeek weekType = Some dates /\
    (forall d, In d dates <->
               (exists k, 0 <= k /\ d = SEMESTER_START + k * msPerDay
                          /\ d <= SEMESTER_END) /\
               getDay tz d = dayOfWeek + 1 /\
               weekTypeMatch weekType (isEvenWeek tz d) = true) /\
    StronglySorted Z.lt dates.
Proof.
  unfold generateDates.
  destruct (generateDates_loop_total tz semesterDays (dayOfWeek + 1) weekType
              SEMESTER_START []) as [dates Hrun]; [vm_compute; reflexivity|].
  exists dates. split; [exact Hrun|].
  apply generateDates_loop_exact in Hrun; [|lia].
  destruct Hrun as (rest & -> & Hin & Hs).
  cbn [app]. auto.
Qed.

(** A whole number of days apart, said with the local fields of the two
    dates: so many calendar days, the same time of day. *)
Lemma days_apart_local (tz a d k : Z) :
  d = a + k * msPerDay <->
  Day (LocalTime tz d) = Day (LocalTime tz a) + k /\
  TimeWithinDay (LocalTime tz d) = TimeWithinDay (LocalTime tz a).
Proof.
  unfold Day, TimeWithinDay, LocalTime, msPerDay. split.
  - intros ->. split.
    + replace (a + k * 86400000 + tz) with (a + tz + k * 86400000) by lia.
      now rewrite Z.div_add by lia.
    + replace (a + k * 86400000 + tz) with (a + tz + k * 86400000) by lia.
      now rewrite Z.mod_add by lia.
  - intros [Hd Hm].
    pose proof (Z.div_mod (d + tz) 86400000 ltac:(lia)).
    pose proof (Z.div_mod (a + tz) 86400000 ltac:(lia)). lia.
Qed.

(** X5.  [generateDates] returns, and its dates are exactly these: the local
    calendar days counted on from the local day of the semester start, at
    the start's local time of day, not after the semester end, that fall on
    the weekday [dayOfWeek + 1] of [getDay] and pass the week-type test
    (0 every week, 1 the even ISO weeks, 2 the odd ones); each comes once, in
    ascending order. *)
Theorem generateDates_days_of_the_window (tz dayOfWeek weekType : Z) :
  exists dates,
    generateDates tz dayOfWeek weekType = Some dates /\
    (forall d, In d dates <->
               (exists k, 0 <= k /\
                          Day (LocalTime tz d) = Day (LocalTime tz SEMESTER_START) + k /\
                          TimeWithinDay (LocalTime tz d)
                          = TimeWithinDay (LocalTime tz SEMESTER_START) /\
                          d <= SEMESTER_END) /\
               getDay tz d = dayOfWeek + 1 /\
               weekTypeMatch weekType (isEvenWeek tz d) = true) /\
    StronglySorted Z.lt dates.
Proof.
  destruct (generateDates_exact tz dayOfWeek weekType) as (dates & Hrun & Hin & Hs).
  exists dates. split; [exact Hrun|]. split; [|exact Hs].
  intros d. rewrite Hin. split.
  - intros ((k & Hk & Hd & Hend) & Hday & Hm). split; [|auto].
    exists k. apply (days_apart_local tz) in Hd. tauto.
  - intros ((k & Hk & Hd & Ht & Hend) & Hday & Hm). split; [|auto].
    exists k. split; [exact Hk|]. split; [|exact Hend].
    apply (days_apart_local tz). auto.
Qed.

(** The test on the week type, case by case: 1 keeps the even weeks, 2 the
    odd ones. *)
Example weekTypeMatch_cases :
  weekTypeMatch 0 true = true /\ weekTypeMatch 0 false = true /\
  weekTypeMatch 1 true = true /\ weekTypeMatch 1 false = false /\
  weekTypeMatch 2 true = false /\ weekTypeMatch 2 false = true /\
  weekTypeMatch 3 true = false /\ weekTypeMatch 3 false = false.
Proof. repeat split. Qed.

(** X6.  A weekday index outside -1..5 (6, Sunday in the caller's numbering,
    included) or a week type other than 0, 1 and 2 yields no date at all. *)
Theorem generateDates_nothing_to_generate (tz dayOfWeek weekType : Z) :
  dayOfWeek < -1 \/ 5 < dayOfWeek \/ (weekType <> 0 /\ weekType <> 1 /\ weekType <> 2) ->
  generateDates tz dayOfWeek weekType = Some [].
Proof.
  intros Hout.
  destruct (generateDates_exact tz dayOfWeek weekType) as (dates & -> & Hin & _).
  destruct dates as [|d rest]; [reflexivity|]. exfalso.
  destruct (proj1 (Hin d) (or_introl eq_refl)) as (_ & Hday & Hmatch).
  pose proof (getDay_range tz d) as Hr.
  destruct Hout as [H | [H | (H0 & H1 & H2)]]; try lia.
  unfold weekTypeMatch in Hmatch.
  destruct (Z.eqb_spec weekType 0); [contradiction|].
  destruct (Z.eqb_spec weekType 1); [contradiction|].
  destruct (Z.eqb_spec weekType 2); [contradiction|].
  discriminate Hmatch.
Qed.

Lemma generateDates_nothing_to_generate_witness :
  generateDates tzEast3 6 0 = Some [].
Proof.
  apply (generateDates_nothing_to_generate tzEast3 6 0). right. left. lia.
Defined.

(** X7.  For each weekday from Monday (0) to Saturday (5), and for -1 which
    the shift by one turns into Sunday, week type 0 yields at least one date,
    and the first one lies within the first seven days of the semester. *)
Theorem generateDates_any_week_is_not_empty (tz dayOfWeek : Z) :
  -1 <= dayOfWeek <= 5 ->
  exists first rest,
    generateDates tz dayOfWeek 0 = Some (first :: rest) /\
    SEMESTER_START <= first < SEMESTER_START + 7 * msPerDay.
Proof.
  intros Hrange.
  destruct (generateDates_exact tz dayOfWeek 0) as (dates & Hrun & Hin & Hsorted).
  set (k := (dayOfWeek + 1 - getDay tz SEMESTER_START) mod 7).
  assert (Hk : 0 <= k < 7) by (apply Z.mod_pos_bound; lia).
  assert (Hd : In (SEMESTER_START + k * msPerDay) dates).
  { apply Hin. repeat split.
    - exists k. repeat split; try lia.
      assert (SEMESTER_START + 6 * msPerDay <= SEMESTER_END) by (vm_compute; discriminate).
      unfold msPerDay in *. lia.
    - rewrite getDay_add_days. pose proof (getDay_range tz SEMESTER_START).
      subst k. zlia. }
  destruct dates as [|first rest]; [destruct Hd|].
  exists first, rest. split; [exact Hrun|].
  assert (Hfirst : In first (first :: rest)) by (left; reflexivity).
  apply Hin in Hfirst. destruct Hfirst as ((j & Hj & -> & _) & _).
  split; [unfold msPerDay; lia|].
  destruct Hd as [Heq | Hlater].
  - rewrite Heq. unfold msPerDay. lia.
  - apply StronglySorted_inv in Hsorted. destruct Hsorted as [_ Hall].
    rewrite Forall_forall in Hall. specialize (Hall _ Hlater).
    unfold msPerDay in *. lia.
Qed.

Lemma generateDates_any_week_is_not_empty_witness :
  exists first rest,
    generateDates tzEast3 0 0 = Some (first :: rest) /\
    SEMESTER_START <= first < SEMESTER_START + 7 * msPerDay.
Proof.
  apply (generateDates_any_week_is_not_empty tzEast3 0). lia.
Defined.


(** ** ISO week numbers *)

Section WeekNumberFacts.

Variable tz : Z.

Lemma Date_UTC_local_day (d : Z) :
  100 <= getFullYear tz d ->
  Date_UTC (getFullYear tz d) (getMonth tz d) (getDate tz d)
  = Day (LocalTime tz d) * msPerDay.
Proof.
  intros Hy. unfold Date_UTC. rewrite MakeFullYear_late by assumption.
  unfold getFullYear, getMonth, getDate. rewrite MakeDay_roundtrip.
  unfold MakeDate. lia.
Qed.

Lemma Day_midnight (n : Z) : Day (n * msPerDay) = n.
Proof. unfold Day, msPerDay. zlia. Qed.

Lemma setUTCDate_add (d k : Z) :
  setUTCDate d (getUTCDate d + k) = d + k * msPerDay.
Proof.
  unfold setUTCDate, getUTCDate, MakeDate. rewrite MakeDay_shift.
  pose proof (Day_TimeWithinDay d). lia.
Qed.

(** [getWeekNumber] through the Thursday of the week: the number of the week
    is one more than the whole weeks between the first of January of the
    Thursday's year and the Thursday. *)
Lemma getWeekNumber_thursday (d : Z) :
  101 <= getFullYear tz d ->
  let thursday := thursdayOf (Day (LocalTime tz d)) in
  getWeekNumber tz d = (thursday - DayFromYear (YearFromDay thursday)) / 7 + 1.
Proof.
  intros Hy. cbv zeta. unfold getWeekNumber.
  rewrite Date_UTC_local_day by lia.
  set (day := Day (LocalTime tz d)).
  assert (Hshift :
    setUTCDate (day * msPerDay)
      (getUTCDate (day * msPerDay) + 4
       - (if getUTCDay (day * msPerDay) =? 0 then 7 else getUTCDay (day * msPerDay)))
    = thursdayOf day * msPerDay).
  { replace (getUTCDate (day * msPerDay) + 4
             - (if getUTCDay (day * msPerDay) =? 0 then 7
                else getUTCDay (day * msPerDay)))
      with (getUTCDate (day * msPerDay)
            + (4 - (if getUTCDay (day * msPerDay) =? 0 then 7
                    else getUTCDay (day * msPerDay)))) by lia.
    rewrite setUTCDate_add. unfold getUTCDay, WeekDay, thursdayOf.
    rewrite Day_midnight.
    destruct (Z.eqb_spec ((day + 4) mod 7) 0); unfold msPerDay; zlia. }
  rewrite Hshift. unfold getUTCFullYear, YearFromTime. rewrite Day_midnight.
  set (th := thursdayOf day).
  assert (Hth : day - 3 <= th <= day + 3) by (subst th; unfold thursdayOf; zlia).
  assert (Hyear : 100 <= YearFromDay th).
  { apply YearFromDay_largest.
    pose proof (YearFromDay_spec day) as [Hlo _].
    unfold getFullYear, YearFromTime in Hy. fold day in Hy.
    pose proof (DayFromYear_mono 101 (YearFromDay day) Hy).
    assert (DayFromYear 100 + 365 <= DayFromYear 101) by (vm_compute; discriminate).
    lia. }
  unfold Date_UTC. rewrite MakeFullYear_late by assumption.
  unfold MakeDay. change (0 / 12) with 0. change (0 mod 12) with 0.
  unfold monthStart. cbn [Z.eqb]. unfold MakeDate, ceil_div.
  rewrite !Z.add_0_r.
  pose proof (YearFromDay_spec th) as Hspec.
  generalize dependent (DayFromYear (YearFromDay th)). intros j Hj.
  unfold msPerDay.
  replace (th * 86400000 - (j + 1 - 1) * 86400000)
    with ((th - j) * 86400000) by lia.
  rewrite Z.div_mul by lia. clear. generalize (th - j). intros x. zlia.
Qed.

End WeekNumberFacts.

(** X8.  For a date of the year 101 or later the week number is between 1
    and 53. *)
Theorem getWeekNumber_range (tz d : Z) :
  101 <= getFullYear tz d ->
  1 <= getWeekNumber tz d <= 53.
Proof.
  intros Hy. rewrite getWeekNumber_thursday by assumption. cbv zeta.
  pose proof (YearFromDay_spec (thursdayOf (Day (LocalTime tz d)))) as Hspec.
  pose proof (DaysInYear_diff (YearFromDay (thursdayOf (Day (LocalTime tz d))))) as Hlen.
  assert (Hmax : forall y, DaysInYear y <= 366).
  { intros y. unfold DaysInYear.
    repeat match goal with
           | |- context [ negb (?a =? ?b) ] => destruct (a =? b); cbn [negb]
           end; lia. }
  specialize (Hmax (YearFromDay (thursdayOf (Day (LocalTime tz d))))).
  zlia.
Qed.

Lemma getWeekNumber_range_witness :
  1 <= getWeekNumber tzEast3 noon_2023_09_01 <= 53.
Proof.
  apply (getWeekNumber_range tzEast3 noon_2023_09_01). vm_compute. discriminate.
Defined.

(** X9.  Two dates of one Monday-to-Sunday week (years 101 and later) have
    the same week number, hence the same parity: across a turn of the year
    too. *)
Theorem getWeekNumber_same_within_a_week (tz d d' : Z) :
  101 <= getFullYear tz d ->
  101 <= getFullYear tz d' ->
  (Day (LocalTime tz d) + 3) / 7 = (Day (LocalTime tz d') + 3) / 7 ->
  getWeekNumber tz d = getWeekNumber tz d' /\
  isEvenWeek tz d = isEvenWeek tz d'.
Proof.
  intros Hy Hy' Hweek.
  assert (H : getWeekNumber tz d = getWeekNumber tz d').
  { rewrite !getWeekNumber_thursday by assumption. cbv zeta.
    assert (Hth : thursdayOf (Day (LocalTime tz d)) = thursdayOf (Day (LocalTime tz d'))).
    { unfold thursdayOf. zlia. }
    now rewrite Hth. }
  split; [exact H|]. unfold isEvenWeek. now rewrite H.
Qed.

(** Wednesday 2025-12-31 and Friday 2026-01-02 are both in week 1. *)
Lemma getWeekNumber_same_within_a_week_witness :
  getWeekNumber 0 (Date_UTC 2025 11 31) = getWeekNumber 0 (Date_UTC 2026 0 2) /\
  isEvenWeek 0 (Date_UTC 2025 11 31) = isEvenWeek 0 (Date_UTC 2026 0 2).
Proof.
  apply (getWeekNumber_same_within_a_week 0 (Date_UTC 2025 11 31) (Date_UTC 2026 0 2));
    vm_compute; try discriminate; reflexivity.
Defined.

(** ** The store *)

Import JsDate Notions WeekService Js Pg Http ScheduleDay.

Lemma Prim_eqb_refl (p : Prim) : Prim_eqb p p = true.
Proof.
  destruct p as [| |b|n|s]; cbn; auto.
  - now destruct b.
  - apply Z.eqb_refl.
  - apply String.eqb_refl.
Qed.

Lemma filter_none {A} (f : A -> bool) (l : list A) :
  filter f (filter (fun x => negb (f x)) l) = [].
Proof.
  induction l as [|x l IH]; cbn; auto.
  destruct (f x) eqn:E; cbn; auto. now rewrite E.
Qed.

Lemma filter_all {A} (f : A -> bool) (l : list A) :
  (forall x, In x l -> f x = true) -> filter f l = l.
Proof.
  induction l as [|x l IH]; cbn; intros H; auto.
  rewrite (H x (or_introl eq_refl)). f_equal. apply IH. auto.
Qed.

(** The text of a decimal integer is read back as that integer, as long as
    it fits 32 bits: a number and the string of its digits denote the same
    INTEGER. *)
Example int4in_samples :
  int4in "1" = Some 1 /\ int4in " 42 " = Some 42 /\ int4in "-7" = Some (-7) /\
  int4in "+5" = Some 5 /\ int4in "007" = Some 7 /\
  int4in "2147483647" = Some 2147483647 /\ int4in "2147483648" = None /\
  int4in "abc" = None /\ int4in "1.5" = None /\ int4in "1 2" = None /\
  int4in "-" = None /\ int4in "true" = None /\
  asInt (PNum 1) = asInt (PStr "1") /\ asInt (PBool true) = None /\
  asInt PNull = None /\ asInt PUndefined = None.
Proof. vm_compute. repeat split; reflexivity. Qed.

(** ** The schedule-day controller *)

Section DayFacts.

Context {backend : Backend}.
Variable tz : Z.
Variable Date_parse : string -> option Z.
Variable faults : nat -> bool.


(** The insert loop inside an open transaction: the committed tables stay as
    they are; a normal end means no entry was malformed and the rows were
    added to the transaction's version of the table. *)
Lemma insertLessons_spec (d g : Prim) (ls : list LessonEntry) :
  forall (w : World) (t : list LessonRow) r w',
    client_tx w = Some t ->
    insertLessons faults d g ls w = (r, w') ->
    Pg.lessons w' = Pg.lessons w /\
    schedule_changes w' = schedule_changes w /\
    (exists more, issued w' = more ++ issued w) /\
    match r with
    | Ok _ =>
        existsb malformed ls = false /\
        client_tx w' = Some (t ++ newRows d g (lessons_seq w) ls) /\
        (forall k, (List.length (issued w) <= k < List.length (issued w'))%nat ->
                   faults k = false)
    | Throw _ => (forall k, faults k = false) -> existsb malformed ls = true
    end.
Proof.
  induction ls as [|e ls IH]; intros w t r w' Htx Hrun.
  - cbn in Hrun. injection Hrun as <- <-.
    repeat split; auto.
    + now exists [].
    + cbn. now rewrite app_nil_r.
    + intros k Hk. lia.
  - destruct e as [|st en su ti ro ty].
    + cbn in Hrun. injection Hrun as <- <-.
      repeat split; auto. now exists [].
    + cbn [insertLessons] in Hrun. cbn [existsb malformed newRows].
      destruct (negb (truthy st) || negb (truthy en) || negb (truthy su)
                || negb (truthy ro) || negb (truthy ty)) eqn:Hbad.
      * injection Hrun as <- <-. repeat split; auto. now exists [].
      * unfold bind at 1 in Hrun. unfold client_query in Hrun.
        destruct (faults (List.length (issued w))) eqn:Hf.
        -- injection Hrun as <- <-. cbn. repeat split; auto.
           ++ now exists [InsertLesson g d st en su (if truthy ti then ti else PNull) ro ty].
           ++ intros Hno. now rewrite Hno in Hf.
        -- cbn [record client_tx lessons_seq Pg.lessons schedule_changes issued] in Hrun.
           rewrite Htx in Hrun. cbn [runOnLessons] in Hrun.
           eapply IH in Hrun; [| reflexivity].
           cbn [client_tx lessons_seq Pg.lessons schedule_changes issued] in Hrun.
           destruct Hrun as (Hl & Hc & (more & Hi) & Hr).
           repeat split; auto.
           ++ exists (more ++ [InsertLesson g d st en su (if truthy ti then ti else PNull) ro ty]).
              rewrite Hi, <- app_assoc. reflexivity.
           ++ destruct r; auto. cbn [orb]. destruct Hr as (Hm & Ht & Hk).
              split; auto. split.
              ** rewrite Ht, <- app_assoc. reflexivity.
              ** intros k Hrange. cbn [List.length] in Hk.
                 destruct (Nat.eq_dec k (List.length (issued w))) as [->|Hne]; auto.
                 apply Hk. lia.
Qed.

(** With an object as its argument [logChange] ends normally; it touches
    neither the lessons nor the client's transaction. *)
Lemma logChange_object (fields : list (string * Json)) (rest : list Json) (w : World) :
  exists w',
    Audit.logChange faults (JObj fields :: rest) w = (Ok tt, w') /\
    Pg.lessons w' = Pg.lessons w /\
    client_tx w' = client_tx w /\
    exists stmt, issued w' = stmt :: issued w.
Proof.
  unfold Audit.logChange. cbn [hd]. unfold tryCatch, bind, pool_query.
  destruct (faults (List.length (issued w)));
    (eexists; split; [reflexivity|]; cbn; repeat split; eauto).
Qed.

Lemma finally_release {A} (m : M A) (w : World) :
  finally m client_release w = m w.
Proof.
  unfold finally, client_release, ret. destruct (m w) as [r w']. reflexivity.
Qed.

(** The handler's reaction to an exception: ROLLBACK, then the 500 reply.
    When ROLLBACK is answered, the transaction is gone from the client. *)
Lemma rollback_spec (w : World) r w' :
  bind (client_query faults ROLLBACK) (fun _ => ret serverError) w = (r, w') ->
  (r = Ok serverError \/ r = Throw DbError) /\
  Pg.lessons w' = Pg.lessons w /\
  schedule_changes w' = schedule_changes w /\
  issued w' = ROLLBACK :: issued w /\
  (faults (List.length (issued w)) = false ->
   r = Ok serverError /\ client_tx w' = None).
Proof.
  unfold bind, client_query, ret.
  destruct (faults (List.length (issued w))) eqn:Hf; cbn; intros [= <- <-]; cbn;
    repeat split; auto; discriminate.
Qed.

(** The body of the [try] block.  The client works on the table as it sees
    it: on a client without a transaction, the committed one. *)
Lemma try_block_spec (req : DayRequest) (ls : list LessonEntry) (w : World) r w' :
  (bind (client_query faults BEGIN) (fun _ =>
   bind (client_query faults (SelectDay (date req) (groupId req))) (fun oldLessonsRes =>
   bind (client_query faults (DeleteDay (date req) (groupId req))) (fun _ =>
   bind (insertLessons faults (date req) (groupId req) ls) (fun _ =>
   bind (client_query faults COMMIT) (fun _ =>
   bind (Audit.logChange faults
     [JObj [("adminId", JPrim (user_id (user req)));
            ("actionType", JPrim (PStr "update_schedule_day"));
            ("targetType", JPrim (PStr "schedule_day"));
            ("targetId", JPrim PNull);
            ("oldValue",
             JObj [("date", JPrim (date req));
                   ("lessons", JArr (map row_js (rows oldLessonsRes)))]);
            ("newValue",
             JObj [("date", JPrim (date req));
                   ("groupId", JPrim (groupId req));
                   ("lessons", JArr (map json_of_entry ls))])]%string])
        (fun _ => ret saved))))))) w = (r, w') ->
  (exists more, issued w' = more ++ BEGIN :: issued w) /\
  ((forall k, faults k = false) ->
   exists more,
     issued w' = more ++ DeleteDay (date req) (groupId req)
                 :: SelectDay (date req) (groupId req) :: BEGIN :: issued w) /\
  match r with
  | Ok resp =>
      resp = saved /\
      existsb malformed ls = false /\
      client_tx w' = None /\
      Pg.lessons w' =
        filter (fun x => negb (onDay (date req) (groupId req) x)) (visible w)
        ++ newRows (date req) (groupId req) (lessons_seq w) ls /\
      (forall k, (List.length (issued w) <= k < List.length (issued w') - 1)%nat ->
                 faults k = false)
  | Throw _ =>
      Pg.lessons w' = Pg.lessons w /\
      schedule_changes w' = schedule_changes w /\
      ((forall k, faults k = false) -> existsb malformed ls = true)
  end.
Proof.
  (* BEGIN *)
  unfold bind at 1. unfold client_query at 1.
  destruct (faults (List.length (issued w))) eqn:F1.
  { intros [= <- <-]. cbn. split; [now exists []|].
    split; [intros Hno; now rewrite Hno in F1|]. repeat split; auto.
    intros Hno. now rewrite Hno in F1. }
  cbn [record client_tx lessons_seq Pg.lessons schedule_changes issued].
  fold (visible w).
  assert (Hvis : match client_tx w with
                 | Some t => Some t
                 | None => Some (Pg.lessons w)
                 end = Some (visible w))
    by (unfold visible; destruct (client_tx w); reflexivity).
  rewrite Hvis. clear Hvis.
  set (w1 := mkWorld (Pg.lessons w) (lessons_seq w) (schedule_changes w)
                     (Some (visible w)) (BEGIN :: issued w)).
  (* SELECT *)
  unfold bind at 1. unfold client_query at 1.
  destruct (faults (List.length (issued w1))) eqn:F2.
  { intros [= <- <-]. cbn. split; [now exists [SelectDay (date req) (groupId req)]|].
    split; [intros Hno; now rewrite Hno in F2|].
    repeat split; auto. intros Hno. now rewrite Hno in F2. }
  cbn [w1 record client_tx lessons_seq Pg.lessons schedule_changes issued runOnLessons].
  set (w2 := mkWorld (Pg.lessons w) (lessons_seq w) (schedule_changes w)
                     (Some (visible w))
                     (SelectDay (date req) (groupId req) :: BEGIN :: issued w)).
  set (old := mkResult _ _).
  (* DELETE *)
  unfold bind at 1. unfold client_query at 1.
  destruct (faults (List.length (issued w2))) eqn:F3.
  { intros [= <- <-]. cbn. split.
    - now exists [DeleteDay (date req) (groupId req); SelectDay (date req) (groupId req)].
    - split; [intros Hno; now rewrite Hno in F3|].
      repeat split; auto. intros Hno. now rewrite Hno in F3. }
  cbn [w2 record client_tx lessons_seq Pg.lessons schedule_changes issued runOnLessons].
  set (kept := filter (fun x => negb (onDay (date req) (groupId req) x)) (visible w)).
  set (w3 := mkWorld (Pg.lessons w) (lessons_seq w) (schedule_changes w) (Some kept)
                     (DeleteDay (date req) (groupId req)
                      :: SelectDay (date req) (groupId req) :: BEGIN :: issued w)).
  (* the loop *)
  unfold bind at 1.
  destruct (insertLessons faults (date req) (groupId req) ls w3) as [r4 w4] eqn:Hins.
  pose proof (insertLessons_spec (date req) (groupId req) ls w3 kept r4 w4
                eq_refl Hins) as (Hl4 & Hc4 & (more4 & Hi4) & Hr4).
  cbn [w3 Pg.lessons schedule_changes issued lessons_seq] in Hl4, Hc4, Hi4, Hr4.
  assert (Hi4' : exists more, issued w4 = more ++ BEGIN :: issued w).
  { exists (more4 ++ [DeleteDay (date req) (groupId req);
                      SelectDay (date req) (groupId req)]).
    rewrite Hi4, <- app_assoc. reflexivity. }
  destruct r4 as [[]|e4].
  2:{ intros [= <- <-]. split; auto. split; auto. intros _. eauto. }
  destruct Hr4 as (Hmal & Htx4 & Hk4).
  (* COMMIT *)
  unfold bind at 1. unfold client_query at 1.
  destruct (faults (List.length (issued w4))) eqn:F5.
  { intros [= <- <-]. cbn. split.
    - destruct Hi4' as [more ->]. now exists (COMMIT :: more).
    - split; [intros Hno; now rewrite Hno in F5|].
      repeat split; auto. intros Hno. now rewrite Hno in F5. }
  cbn [record client_tx lessons_seq Pg.lessons schedule_changes issued]. rewrite Htx4.
  set (w5 := mkWorld _ _ _ None _).
  (* logChange *)
  unfold bind at 1.
  match goal with
  | |- context [Audit.logChange faults (JObj ?f :: ?rest) w5] =>
      destruct (logChange_object f rest w5) as (w6 & -> & Hl6 & Ht6 & stmt & Hi6)
  end.
  unfold ret. intros [= <- <-].
  cbn [w5 Pg.lessons client_tx issued] in Hl6, Ht6, Hi6.
  split; [| split].
  - destruct Hi4' as [more Hm]. exists (stmt :: COMMIT :: more).
    rewrite Hi6, Hm. reflexivity.
  - intros _. exists (stmt :: COMMIT :: more4). rewrite Hi6, Hi4. reflexivity.
  - repeat split; auto.
    intros k Hk. rewrite Hi6 in Hk. cbn [w1 w2 List.length issued] in *.
    assert (Hlen4 : (3 + List.length (issued w) <= List.length (issued w4))%nat).
    { rewrite Hi4, length_app. cbn [List.length]. lia. }
    destruct (Nat.eq_dec k (List.length (issued w))) as [->|]; auto.
    destruct (Nat.eq_dec k (S (List.length (issued w)))) as [->|]; auto.
    destruct (Nat.eq_dec k (S (S (List.length (issued w))))) as [->|]; auto.
    destruct (Nat.eq_dec k (List.length (issued w4))) as [->|]; auto.
    apply Hk4. lia.
Qed.

(** What a request that passes the three guards leads to: the transaction is
    entered, and either everything succeeds and the day is replaced, or the
    [try] block throws, ROLLBACK is sent and nothing committed changes. *)
Lemma updateScheduleByDay_cases (now : Z) (req : DayRequest) (ls : list LessonEntry)
    (w : World) r w' :
  role (user req) = PStr "admin" ->
  ScheduleDay.lessons req = Some ls ->
  truthy (date req) = true ->
  truthy (groupId req) = true ->
  isPastDate tz Date_parse now (date req) = false ->
  updateScheduleByDay tz Date_parse faults now req w = (r, w') ->
  (exists more, issued w' = more ++ BEGIN :: issued w) /\
  ((forall k, faults k = false) ->
   exists more,
     issued w' = more ++ DeleteDay (date req) (groupId req)
                 :: SelectDay (date req) (groupId req) :: BEGIN :: issued w) /\
  ((r = Ok saved /\ existsb malformed ls = false /\
    Pg.lessons w' =
      filter (fun x => negb (onDay (date req) (groupId req) x)) (visible w)
      ++ newRows (date req) (groupId req) (lessons_seq w) ls /\
    (forall k, (List.length (issued w) <= k < List.length (issued w') - 1)%nat ->
               faults k = false) /\
    client_tx w' = None)
   \/
   ((r = Ok serverError \/ r = Throw DbError) /\
    Pg.lessons w' = Pg.lessons w /\
    schedule_changes w' = schedule_changes w /\
    ((forall k, faults k = false) ->
     r = Ok serverError /\ existsb malformed ls = true) /\
    exists sent,
      issued w' = ROLLBACK :: sent ++ BEGIN :: issued w /\
      (faults (List.length (sent ++ BEGIN :: issued w)) = false ->
       r = Ok serverError /\ client_tx w' = None))).
Proof.
  intros Hrole Hls Hd Hg Hpast.
  unfold updateScheduleByDay. rewrite Hrole, Hls, Hd, Hg, Hpast, Prim_eqb_refl.
  cbn [negb orb].
  unfold bind at 1. unfold pool_connect at 1. unfold ret at 1.
  rewrite finally_release.
  unfold tryCatch.
  match goal with
  | |- context [match ?body w with _ => _ end] =>
      destruct (body w) as [rb wb] eqn:Hbody
  end.
  apply try_block_spec in Hbody.
  destruct Hbody as ((more & Hi) & Hsent & Hb).
  destruct rb as [resp|e].
  - intros [= <- <-]. destruct Hb as (-> & Hmal & Htx & Hl & Hk).
    split; [eauto|]. split; [exact Hsent|]. left. auto.
  - match goal with
    | |- context [bind ?m ?k wb] => destruct (bind m k wb) as [rr wr] eqn:Hrb
    end.
    apply rollback_spec in Hrb. destruct Hrb as (Hr & Hl & Hc & Hir & Hno).
    destruct Hb as (Hlb & Hcb & Hmal).
    intros [= <- <-]. split; [| split].
    + exists (ROLLBACK :: more). rewrite Hir, Hi. reflexivity.
    + intros Hall. destruct (Hsent Hall) as [more' Hi']. exists (ROLLBACK :: more').
      rewrite Hir, Hi'. reflexivity.
    + right. split; [exact Hr|]. split; [congruence|]. split; [congruence|].
      split.
      * intros Hall. split; [apply Hno, Hall | apply Hmal; exact Hall].
      * exists more. split; [rewrite Hir, Hi; reflexivity|].
        rewrite <- Hi. exact Hno.
Qed.

(** The three guards in front of the transaction: a request passes all of
    them, or it is answered at once and the world is left as it was. *)
Lemma updateScheduleByDay_guards (now : Z) (req : DayRequest) (w : World) :
  (role (user req) = PStr "admin" /\
   truthy (date req) = true /\
   truthy (groupId req) = true /\
   isPastDate tz Date_parse now (date req) = false /\
   exists ls, ScheduleDay.lessons req = Some ls)
  \/
  (exists resp,
     updateScheduleByDay tz Date_parse faults now req w = (Ok resp, w) /\
     (resp = forbidden \/ resp = missingFields \/ resp = pastDate)).
Proof.
  unfold updateScheduleByDay.
  destruct (Prim_eqb (role (user req)) (PStr "admin")) eqn:Hrole; cbn [negb].
  2:{ right. exists forbidden. auto. }
  destruct (ScheduleDay.lessons req) as [ls|].
  2:{ right. exists missingFields. auto. }
  destruct (truthy (date req)); cbn [negb orb].
  2:{ right. exists missingFields. auto. }
  destruct (truthy (groupId req)); cbn [negb orb].
  2:{ right. exists missingFields. auto. }
  destruct (isPastDate tz Date_parse now (date req)).
  { right. exists pastDate. auto. }
  left. repeat split; eauto.
  destruct (role (user req)) as [| |b|n|s]; cbn in Hrole; try discriminate.
  apply String.eqb_eq in Hrole. now subst.
Qed.

(** The field values of the inserted rows do not depend on the ids drawn. *)
Lemma newRows_withoutId (d g : Prim) (ls : list LessonEntry) :
  forall seq seq',
    map withoutId (newRows d g seq ls) = map withoutId (newRows d g seq' ls).
Proof.
  induction ls as [|e ls IH]; intros seq seq'; cbn [newRows map]; auto.
  destruct e as [|st en su ti ro ty]; cbn [map]; auto.
  f_equal. apply IH.
Qed.

(** When the date is a date and the group an integer for PostgreSQL, the
    inserted rows are rows of that day and group. *)
Lemma newRows_onDay (d g : Prim) (ls : list LessonEntry) :
  asDate d <> None -> asInt g <> None ->
  forall seq x, In x (newRows d g seq ls) -> onDay d g x = true.
Proof.
  intros Hd Hg. induction ls as [|e ls IH]; intros seq x; cbn [newRows In].
  - intros [].
  - destruct e as [|st en su ti ro ty]; cbn [In]; [intros []|].
    intros [<- | Hin]; [| eapply IH; eauto].
    unfold onDay. cbn [lesson_date group_id].
    destruct (asDate d) as [dv|]; [|contradiction].
    destruct (asInt g) as [gv|]; [|contradiction].
    cbn [sql_eq]. now rewrite !Z.eqb_refl.
Qed.

(** After a successful call the day holds the new entries and nothing else. *)
Lemma dayLessons_replaced (d g : Prim) (ls : list LessonEntry)
    (before : list LessonRow) (seq : Z) (w' : World) :
  asDate d <> None -> asInt g <> None ->
  Pg.lessons w' = filter (fun x => negb (onDay d g x)) before ++ newRows d g seq ls ->
  dayLessons d g w' = map withoutId (newRows d g 0 ls).
Proof.
  intros Hd Hg Hl. unfold dayLessons.
  rewrite Hl, filter_app, filter_none, app_nil_l.
  rewrite filter_all by (apply newRows_onDay; assumption).
  apply newRows_withoutId.
Qed.

(** A call that ends with the success reply had no malformed entry, and
    every statement it sent before the audit INSERT was answered. *)
Lemma updateScheduleByDay_saved_inv (now : Z) (req : DayRequest) (w w' : World) :
  updateScheduleByDay tz Date_parse faults now req w = (Ok saved, w') ->
  (forall ls, ScheduleDay.lessons req = Some ls -> existsb malformed ls = false) /\
  (forall k, (List.length (issued w) <= k < List.length (issued w') - 1)%nat ->
             faults k = false).
Proof.
  intros Hrun.
  destruct (updateScheduleByDay_guards now req w)
    as [(Hrole & Hd & Hg & Hpast & ls & Hls) | (resp & Hresp & Hwhich)].
  2:{ rewrite Hresp in Hrun. injection Hrun as -> _.
      destruct Hwhich as [H | [H | H]]; discriminate H. }
  destruct (updateScheduleByDay_cases now req ls w _ w' Hrole Hls Hd Hg Hpast Hrun)
    as (_ & _ & [(_ & Hmal & _ & Hk & _) | ([H | H] & _)]); try discriminate H.
  split; auto. intros ls' Hls'. congruence.
Qed.

(** C1.  When a step of the call fails after BEGIN (a malformed entry in the
    list, or a statement of the transaction answered with an error), and more
    generally whenever the call does not end with the success reply, the
    committed tables are what they were before the call: none of the new rows
    persists and the rows of the day are untouched.  Either nothing was sent
    at all, or the last statement sent is ROLLBACK; once the server has
    answered it the reply is the 500 and the client goes back to the pool
    with no transaction open, so that nothing of the attempt is left to be
    committed later. *)
Theorem updateScheduleByDay_failure_rolls_back
    (now : Z) (req : DayRequest) (w : World) (r : Outcome Response) (w' : World) :
  updateScheduleByDay tz Date_parse faults now req w = (r, w') ->
  (exists ls, ScheduleDay.lessons req = Some ls /\ existsb malformed ls = true)
  \/ (exists k, (List.length (issued w) <= k < List.length (issued w') - 1)%nat /\
                faults k = true)
  \/ r <> Ok saved ->
  r <> Ok saved /\
  Pg.lessons w' = Pg.lessons w /\
  schedule_changes w' = schedule_changes w /\
  dayLessons (date req) (groupId req) w' = dayLessons (date req) (groupId req) w /\
  (w' = w \/
   exists sent,
     issued w' = ROLLBACK :: sent ++ BEGIN :: issued w /\
     (faults (List.length (sent ++ BEGIN :: issued w)) = false ->
      r = Ok serverError /\ client_tx w' = None)).
Proof.
  intros Hrun Hcause.
  assert (Hfail : r <> Ok saved).
  { intros ->. destruct (updateScheduleByDay_saved_inv now req w w' Hrun) as [Hm Hk].
    destruct Hcause as [(ls & Hls & Hbad) | [(k & Hrange & Hf) | Hne]].
    - rewrite (Hm ls Hls) in Hbad. discriminate.
    - rewrite (Hk k Hrange) in Hf. discriminate.
    - now apply Hne. }
  assert (H : Pg.lessons w' = Pg.lessons w /\ schedule_changes w' = schedule_changes w /\
              (w' = w \/
               exists sent,
                 issued w' = ROLLBACK :: sent ++ BEGIN :: issued w /\
                 (faults (List.length (sent ++ BEGIN :: issued w)) = false ->
                  r = Ok serverError /\ client_tx w' = None))).
  { destruct (updateScheduleByDay_guards now req w)
      as [(Hrole & Hd & Hg & Hpast & ls & Hls) | (resp & Hresp & _)].
    - destruct (updateScheduleByDay_cases now req ls w r w' Hrole Hls Hd Hg Hpast Hrun)
        as (_ & _ & [(Hok & _) | (_ & Hl & Hc & _ & Hrb)]); [contradiction | auto].
    - rewrite Hresp in Hrun. injection Hrun as <- <-. auto. }
  destruct H as (Hl & Hc & Hrb). repeat split; auto.
  unfold dayLessons. now rewrite Hl.
Qed.

(** C3.  A successful call leaves as the lessons of the day exactly the
    entries of its list, whatever the day held before: the rows of the day
    are deleted and the list is inserted.  A second call with the same
    request, right after it, leaves the lessons of the day as the first call
    left them (ids apart), whether it succeeds, fails or is turned away; when
    it succeeds it has again deleted the rows of the day and inserted the
    list.  The date and the group are ones PostgreSQL can read. *)
Theorem updateScheduleByDay_idempotent
    (now1 now2 : Z) (req : DayRequest) (ls : list LessonEntry) (w w1 w2 : World)
    (r2 : Outcome Response) :
  ScheduleDay.lessons req = Some ls ->
  asDate (date req) <> None ->
  asInt (groupId req) <> None ->
  updateScheduleByDay tz Date_parse faults now1 req w = (Ok saved, w1) ->
  updateScheduleByDay tz Date_parse faults now2 req w1 = (r2, w2) ->
  Pg.lessons w1 =
    filter (fun x => negb (onDay (date req) (groupId req) x)) (visible w)
    ++ newRows (date req) (groupId req) (lessons_seq w) ls /\
  dayLessons (date req) (groupId req) w1
  = map withoutId (newRows (date req) (groupId req) 0 ls) /\
  dayLessons (date req) (groupId req) w2 = dayLessons (date req) (groupId req) w1 /\
  (r2 = Ok saved ->
   Pg.lessons w2 =
     filter (fun x => negb (onDay (date req) (groupId req) x)) (Pg.lessons w1)
     ++ newRows (date req) (groupId req) (lessons_seq w1) ls).
Proof.
  intros Hls Hdate Hgroup Hrun1 Hrun2.
  destruct (updateScheduleByDay_guards now1 req w)
    as [(Hrole & Hd & Hg & Hpast & ls' & Hls') | (resp & Hresp & Hwhich)].
  2:{ rewrite Hresp in Hrun1. injection Hrun1 as -> _.
      destruct Hwhich as [H | [H | H]]; discriminate H. }
  destruct (updateScheduleByDay_cases now1 req ls w _ w1 Hrole Hls Hd Hg Hpast Hrun1)
    as (_ & _ & [(_ & _ & Hl1 & _ & Htx1) | ([H | H] & _)]); try discriminate H.
  assert (Hday1 : dayLessons (date req) (groupId req) w1
                  = map withoutId (newRows (date req) (groupId req) 0 ls))
    by (eapply dayLessons_replaced; eauto).
  assert (Hvis1 : visible w1 = Pg.lessons w1) by (unfold visible; now rewrite Htx1).
  split; [exact Hl1|]. split; [exact Hday1|].
  destruct (updateScheduleByDay_guards now2 req w1)
    as [(_ & _ & _ & Hpast2 & _) | (resp & Hresp & Hwhich)].
  2:{ rewrite Hresp in Hrun2. injection Hrun2 as <- <-. split; [reflexivity|].
      intros [= ->]. destruct Hwhich as [H | [H | H]]; discriminate H. }
  destruct (updateScheduleByDay_cases now2 req ls w1 r2 w2 Hrole Hls Hd Hg Hpast2 Hrun2)
    as (_ & _ & [(_ & _ & Hl2 & _) | ([-> | ->] & Hl2 & _)]).
  - rewrite Hvis1 in Hl2. split; [|intros _; exact Hl2].
    rewrite Hday1. eapply dayLessons_replaced; eauto.
  - split; [unfold dayLessons; now rewrite Hl2 | discriminate].
  - split; [unfold dayLessons; now rewrite Hl2 | discriminate].
Qed.

(** A server that answers every statement, a request that passes the guards
    and a list without malformed entries: the call succeeds. *)
Lemma updateScheduleByDay_succeeds
    (now : Z) (req : DayRequest) (ls : list LessonEntry) (w : World) r w' :
  (forall k, faults k = false) ->
  role (user req) = PStr "admin" ->
  ScheduleDay.lessons req = Some ls ->
  truthy (date req) = true ->
  truthy (groupId req) = true ->
  isPastDate tz Date_parse now (date req) = false ->
  existsb malformed ls = false ->
  updateScheduleByDay tz Date_parse faults now req w = (r, w') ->
  r = Ok saved.
Proof.
  intros Hno Hrole Hls Hd Hg Hpast Hmal Hrun.
  destruct (updateScheduleByDay_cases now req ls w r w' Hrole Hls Hd Hg Hpast Hrun)
    as (_ & _ & [(Hok & _) | (_ & _ & _ & Hbad & _)]); auto.
  destruct (Hbad Hno) as [_ Hm]. congruence.
Qed.


(** C5, as the code has it.  When a request that passes the guards carries a
    malformed entry, nothing of it is written: the committed tables are
    unchanged.  The reply is not a validation error but the generic 500
    reply (or no reply at all, when ROLLBACK itself is answered with an
    error). *)
Theorem updateScheduleByDay_malformed_entry
    (now : Z) (req : DayRequest) (ls : list LessonEntry) (w : World)
    (r : Outcome Response) (w' : World) :
  role (user req) = PStr "admin" ->
  ScheduleDay.lessons req = Some ls ->
  truthy (date req) = true ->
  truthy (groupId req) = true ->
  isPastDate tz Date_parse now (date req) = false ->
  existsb malformed ls = true ->
  updateScheduleByDay tz Date_parse faults now req w = (r, w') ->
  Pg.lessons w' = Pg.lessons w /\
  schedule_changes w' = schedule_changes w /\
  (r = Ok serverError \/ r = Throw DbError) /\
  ((forall k, faults k = false) -> r = Ok serverError) /\
  (forall resp, r = Ok resp -> status resp = 500).
Proof.
  intros Hrole Hls Hd Hg Hpast Hmal Hrun.
  destruct (updateScheduleByDay_cases now req ls w r w' Hrole Hls Hd Hg Hpast Hrun)
    as (_ & _ & [(_ & Hm & _) | (Hr & Hl & Hc & Hno & _)]); [congruence|].
  repeat split; auto.
  - intros Hall. now destruct (Hno Hall).
  - intros resp ->. destruct Hr as [[= ->] | [=]]. reflexivity.
Qed.


End DayFacts.

(** *** Closed instances *)

Import JsDate Notions WeekService Js Pg Http ScheduleDay Samples.

Section DayInstances.

#[local] Existing Instance sampleBackend.

(** The first INSERT is answered with an error (statement 3, after BEGIN,
    SELECT and DELETE): both lessons of 2099-01-01 are still there, ROLLBACK
    was sent and answered, and no transaction is left open. *)
Lemma updateScheduleByDay_failure_rolls_back_witness :
  let req := dayRequest "2099-01-01" [physics] in
  let run := updateScheduleByDay tzEast3 parseIsoDate (failAt 3) noon_2023_09_01
               req datedWorld in
  (fst run <> Ok saved /\
   Pg.lessons (snd run) = Pg.lessons datedWorld /\
   schedule_changes (snd run) = schedule_changes datedWorld /\
   dayLessons (PStr "2099-01-01") (PNum 1) (snd run)
   = dayLessons (PStr "2099-01-01") (PNum 1) datedWorld /\
   (snd run = datedWorld \/
    exists sent,
      issued (snd run) = ROLLBACK :: sent ++ BEGIN :: issued datedWorld /\
      (failAt 3 (List.length (sent ++ BEGIN :: issued datedWorld)) = false ->
       fst run = Ok serverError /\ client_tx (snd run) = None))) /\
  fst run = Ok serverError /\
  client_tx (snd run) = None /\
  issued (snd run) =
    [ROLLBACK;
     InsertLesson (PNum 1) (PStr "2099-01-01") (PStr "10:00") (PStr "11:30")
                  (PStr "Physics") PNull (PStr "202") (PStr "practice");
     DeleteDay (PStr "2099-01-01") (PNum 1);
     SelectDay (PStr "2099-01-01") (PNum 1);
     BEGIN].
Proof.
  cbv zeta. split; [|vm_compute; repeat split; reflexivity].
  apply (updateScheduleByDay_failure_rolls_back tzEast3 parseIsoDate (failAt 3)
           noon_2023_09_01 (dayRequest "2099-01-01" [physics]) datedWorld
           (fst (updateScheduleByDay tzEast3 parseIsoDate (failAt 3) noon_2023_09_01
                   (dayRequest "2099-01-01" [physics]) datedWorld))
           (snd (updateScheduleByDay tzEast3 parseIsoDate (failAt 3) noon_2023_09_01
                   (dayRequest "2099-01-01" [physics]) datedWorld))).
  - vm_compute. reflexivity.
  - right. left. exists 3%nat. vm_compute. repeat split; auto.
Defined.

(** Two calls in a row on a server that answers every statement: the day of
    group 1, which held Algebra, holds Physics after the first call and after
    the second. *)
Lemma updateScheduleByDay_idempotent_witness :
  let req := dayRequest "2099-01-01" [physics] in
  let first := updateScheduleByDay tzEast3 parseIsoDate noFaults noon_2023_09_01
                 req datedWorld in
  let second := updateScheduleByDay tzEast3 parseIsoDate noFaults noon_2023_09_01
                  req (snd first) in
  (Pg.lessons (snd first) =
     filter (fun x => negb (onDay (date req) (groupId req) x)) (visible datedWorld)
     ++ newRows (date req) (groupId req) (lessons_seq datedWorld) [physics] /\
   dayLessons (date req) (groupId req) (snd first)
   = map withoutId (newRows (date req) (groupId req) 0 [physics]) /\
   dayLessons (date req) (groupId req) (snd second)
   = dayLessons (date req) (groupId req) (snd first) /\
   (fst second = Ok saved ->
    Pg.lessons (snd second) =
      filter (fun x => negb (onDay (date req) (groupId req) x)) (Pg.lessons (snd first))
      ++ newRows (date req) (groupId req) (lessons_seq (snd first)) [physics])) /\
  fst first = Ok saved /\
  fst second = Ok saved /\
  map subject (Pg.lessons datedWorld) = [Some "Algebra"; Some "History"]%string /\
  map subject (Pg.lessons (snd first)) = [Some "History"; Some "Physics"]%string /\
  map subject (Pg.lessons (snd second)) = [Some "History"; Some "Physics"]%string.
Proof.
  cbv zeta. split; [|vm_compute; repeat split; reflexivity].
  apply (updateScheduleByDay_idempotent tzEast3 parseIsoDate noFaults
           noon_2023_09_01 noon_2023_09_01 (dayRequest "2099-01-01" [physics])
           [physics] datedWorld _ _
           (fst (updateScheduleByDay tzEast3 parseIsoDate noFaults noon_2023_09_01
                   (dayRequest "2099-01-01" [physics])
                   (snd (updateScheduleByDay tzEast3 parseIsoDate noFaults
                           noon_2023_09_01 (dayRequest "2099-01-01" [physics])
                           datedWorld))))).
  - reflexivity.
  - vm_compute. discriminate.
  - vm_compute. discriminate.
  - vm_compute. reflexivity.
  - vm_compute. reflexivity.
Defined.

(** The group sent as the string ["1"] is the group whose id is the number
    1: the call replaces the same day. *)
Example updateScheduleByDay_group_as_text :
  let req := mkDayRequest admin7 (PStr "2099-01-01") (PStr "1") (Some [physics]) in
  let run := updateScheduleByDay tzEast3 parseIsoDate noFaults noon_2023_09_01
               req datedWorld in
  fst run = Ok saved /\
  map subject (Pg.lessons (snd run)) = [Some "History"; Some "Physics"]%string /\
  map group_id (Pg.lessons (snd run)) = [Some 2; Some 1].
Proof. vm_compute. repeat split; reflexivity. Qed.


(** A list whose second entry has no room. *)
Lemma updateScheduleByDay_malformed_entry_witness :
  let run := updateScheduleByDay tzEast3 parseIsoDate noFaults noon_2023_09_01
               (dayRequest "2099-01-01" [physics; noRoom]) datedWorld in
  Pg.lessons (snd run) = Pg.lessons datedWorld /\
  schedule_changes (snd run) = schedule_changes datedWorld /\
  (fst run = Ok serverError \/ fst run = Throw DbError) /\
  ((forall k, noFaults k = false) -> fst run = Ok serverError) /\
  (forall resp, fst run = Ok resp -> status resp = 500).
Proof.
  cbv zeta.
  apply (updateScheduleByDay_malformed_entry tzEast3 parseIsoDate noFaults
           noon_2023_09_01 (dayRequest "2099-01-01" [physics; noRoom])
           [physics; noRoom] datedWorld).
  - reflexivity.
  - reflexivity.
  - reflexivity.
  - reflexivity.
  - vm_compute. reflexivity.
  - vm_compute. reflexivity.
  - vm_compute. reflexivity.
Defined.

(** C5, as the specification words it, fails: the reply to a list with a
    malformed entry is not a 400. *)
Lemma updateScheduleByDay_malformed_entry_is_not_400 :
  ~ (exists resp,
       fst (updateScheduleByDay tzEast3 parseIsoDate noFaults noon_2023_09_01
              (dayRequest "2099-01-01" [physics; noRoom]) datedWorld) = Ok resp /\
       status resp = 400).
Proof.
  intros (resp & Hr & Hs). vm_compute in Hr. injection Hr as <-. discriminate Hs.
Qed.


End DayInstances.

(** ** services/audit.service.js and the bulk operations *)

Import JsDate Notions WeekService Js Pg Http ScheduleDay Samples Admin.

Lemma truthy_defined (p : Prim) : truthy p = true -> p <> PUndefined /\ p <> PNull.
Proof. destruct p; cbn; try discriminate; split; discriminate. Qed.

Lemma isUndefined_false (p : Prim) : p <> PUndefined -> isUndefined p = false.
Proof. unfold isUndefined. destruct p; auto. contradiction. Qed.

(** Two parameters that PostgreSQL reads as the same integer select the same
    rows. *)
Lemma inWeek_asInt (g a b : Prim) :
  asInt a = asInt b -> forall r, inWeek g a r = inWeek g b r.
Proof. intros H r. unfold inWeek. now rewrite H. Qed.

Section AdminFacts.

Context {backend : Backend}.
Variable faults : nat -> bool.

(** [logChange] never touches the lessons. *)
Lemma logChange_lessons (args : list Json) (w : World) r w' :
  Audit.logChange faults args w = (r, w') -> Pg.lessons w' = Pg.lessons w.
Proof.
  unfold Audit.logChange, tryCatch, bind, pool_query, throw, ret.
  destruct (hd (JPrim PUndefined) args) as [[| |b|n|s]|items|fields];
    try (intros [= <- <-]; reflexivity);
    destruct (faults (List.length (issued w))); intros [= <- <-]; reflexivity.
Qed.

(** Called with positional arguments whose first one is a number, a string
    or a boolean, [logChange] reads no field off it: the INSERT it sends
    carries NULL in every column, the administrator's id and the action type
    included, and that is the row stored when the INSERT goes through. *)
Lemma logChange_positional (p : Prim) (rest : list Json) (w : World) r w' :
  p <> PUndefined -> p <> PNull ->
  Audit.logChange faults (JPrim p :: rest) w = (r, w') ->
  r = Ok tt /\
  issued w' = InsertChange (JPrim PNull) (JPrim PNull) (JPrim PNull) (JPrim PNull)
                           (JPrim PNull) (JPrim PNull) :: issued w /\
  (schedule_changes w' = schedule_changes w \/
   schedule_changes w' = schedule_changes w ++ [blankChange]).
Proof.
  intros Hu Hn. unfold Audit.logChange. cbn [hd].
  destruct p as [| |b|n|s]; try contradiction;
    unfold tryCatch, bind, pool_query, ret; cbn;
    destruct (faults (List.length (issued w))); intros [= <- <-]; cbn; auto.
Qed.

(** With one week type as source and target (the same value, or two values
    that PostgreSQL reads as the same integer), and the first three
    statements answered, [copyWeek] leaves the group without any template of
    that week type: the INSERT ... SELECT reads the table after the DELETE. *)
Lemma copyWeek_same_week (req : CopyWeekRequest) (w : World) r w' :
  truthy (cw_group_id req) = true ->
  from_week req <> PUndefined ->
  to_week req <> PUndefined ->
  asInt (to_week req) = asInt (from_week req) ->
  filter (inWeek (cw_group_id req) (from_week req)) (Pg.lessons w) <> [] ->
  faults (List.length (issued w)) = false ->
  faults (S (List.length (issued w))) = false ->
  faults (S (S (List.length (issued w)))) = false ->
  copyWeek faults req w = (r, w') ->
  filter (inWeek (cw_group_id req) (from_week req)) (Pg.lessons w') = [].
Proof.
  intros Hg Hfrom Hto Hsame Hsrc F1 F2 F3.
  assert (Hneg : forall x,
             negb (inWeek (cw_group_id req) (to_week req) x)
             = negb (inWeek (cw_group_id req) (from_week req) x))
    by (intros x; f_equal; now apply inWeek_asInt).
  unfold copyWeek. rewrite Hg, !isUndefined_false by assumption.
  cbn [negb orb].
  unfold tryCatch. unfold bind at 1. unfold pool_query at 1.
  rewrite F1. cbn [record issued Pg.lessons lessons_seq schedule_changes client_tx
                   runOnLessons rows].
  set (src := filter (inWeek (cw_group_id req) (from_week req)) (Pg.lessons w)) in *.
  assert (Hlen : (lengthZ src =? 0) = false).
  { apply Z.eqb_neq. unfold lengthZ. destruct src; [contradiction | cbn; lia]. }
  rewrite Hlen.
  unfold bind at 1. unfold pool_query at 1.
  cbn [record issued Pg.lessons lessons_seq schedule_changes client_tx List.length].
  rewrite F2. cbn [runOnLessons].
  unfold bind at 1. unfold pool_query at 1.
  cbn [record issued Pg.lessons lessons_seq schedule_changes client_tx List.length].
  rewrite F3. cbn [runOnLessons].
  rewrite (filter_ext _ _ Hneg (Pg.lessons w)).
  rewrite filter_none. cbn [copyAll lengthZ List.length].
  rewrite app_nil_r.
  unfold bind at 1.
  match goal with
  | |- context [Audit.logChange faults ?args ?w1] =>
      destruct (Audit.logChange faults args w1) as [rl wl] eqn:Hlog
  end.
  apply logChange_lessons in Hlog. cbn [Pg.lessons] in Hlog.
  destruct rl; unfold ret; intros [= <- <-]; rewrite Hlog; apply filter_none.
Qed.

End AdminFacts.

Section AdminInstances.

#[local] Existing Instance sampleBackend.

(** C2, on the code.  Group 5 has one template of week type 1; after
    [copyWeek] from week type 1 to week type 1, answered 200, it has none. *)
Theorem copyWeek_same_week_loses_the_templates :
  let req := mkCopyWeek admin7 (PNum 5) (PNum 1) (PNum 1) in
  let run := copyWeek noFaults req templateWorld in
  filter (inWeek (PNum 5) (PNum 1)) (Pg.lessons templateWorld)
  = [template 1 1 "Algebra" "Ivanov"] /\
  fst run = Ok (mkResponse 200 (copyMessage (PNum 1) (PNum 1))) /\
  filter (inWeek (PNum 5) (PNum 1)) (Pg.lessons (snd run)) = [].
Proof.
  cbv zeta. split; [reflexivity|]. split; [reflexivity|].
  apply (copyWeek_same_week noFaults (mkCopyWeek admin7 (PNum 5) (PNum 1) (PNum 1))
           templateWorld
           (fst (copyWeek noFaults (mkCopyWeek admin7 (PNum 5) (PNum 1) (PNum 1))
                   templateWorld))); try reflexivity; discriminate.
Qed.

(** The same with the target sent as the string ["1"]: for PostgreSQL it is
    the source's week type, and the templates are lost all the same. *)
Example copyWeek_same_week_as_text :
  let req := mkCopyWeek admin7 (PNum 5) (PNum 1) (PStr "1") in
  let run := copyWeek noFaults req templateWorld in
  fst run = Ok (mkResponse 200 (copyMessage (PNum 1) (PStr "1"))) /\
  filter (inWeek (PNum 5) (PNum 1)) (Pg.lessons (snd run)) = [].
Proof.
  cbv zeta. split; [reflexivity|].
  apply (copyWeek_same_week noFaults (mkCopyWeek admin7 (PNum 5) (PNum 1) (PStr "1"))
           templateWorld
           (fst (copyWeek noFaults (mkCopyWeek admin7 (PNum 5) (PNum 1) (PStr "1"))
                   templateWorld))); try reflexivity; discriminate.
Qed.

(** C7, on the code.  Administrator 7 copies a week, clears a week and
    replaces a teacher; each call is answered 200 and each stores one audit
    row, whose administrator id and action type are NULL. *)
Theorem bulk_operations_store_a_blank_audit_row :
  let copied := copyWeek noFaults (mkCopyWeek admin7 (PNum 5) (PNum 1) (PNum 2))
                  templateWorld in
  let cleared := clearWeek noFaults (mkClearWeek admin7 (PNum 5) (PNum 1))
                   templateWorld in
  let replaced := replaceTeacher noFaults
                    (mkReplaceTeacher admin7 (PNum 5) (PStr "Ivanov") (PStr "Sidorov"))
                    templateWorld in
  (fst copied = Ok (mkResponse 200 (copyMessage (PNum 1) (PNum 2))) /\
   schedule_changes (snd copied) = [blankChange]) /\
  (fst cleared = Ok (mkResponse 200 (clearMessage 1)) /\
   schedule_changes (snd cleared) = [blankChange]) /\
  (fst replaced = Ok (mkResponse 200 (replaceMessage 1)) /\
   schedule_changes (snd replaced) = [blankChange]) /\
  admin_id blankChange <> JPrim (user_id admin7) /\
  action_type blankChange <> JPrim (PStr "copy_week") /\
  action_type blankChange <> JPrim (PStr "clear_week") /\
  action_type blankChange <> JPrim (PStr "replace_teacher").
Proof.
  cbv zeta. repeat split; try reflexivity; discriminate.
Qed.

End AdminInstances.

(** ** What the handlers keep *)

Import JsDate Notions WeekService Js Pg Http ScheduleDay Samples Admin Middleware.

Section Preservation.

Context {backend : Backend}.
Variable faults : nat -> bool.

Lemma preserves_ret {A} (P : World -> Prop) (a : A) : preserves P (ret a).
Proof. intros w r w' HP [= <- <-]. exact HP. Qed.

Lemma preserves_throw {A} (P : World -> Prop) (e : Exn) : preserves P (@throw A e).
Proof. intros w r w' HP [= <- <-]. exact HP. Qed.

Lemma preserves_bind {A B} (P : World -> Prop) (m : M A) (k : A -> M B) :
  preserves P m -> (forall a, preserves P (k a)) -> preserves P (bind m k).
Proof.
  intros Hm Hk w r w' HP. unfold bind.
  destruct (m w) as [[a|e] w1] eqn:Hrun.
  - apply (Hk a). eapply Hm; eauto.
  - intros [= <- <-]. eapply Hm; eauto.
Qed.

Lemma preserves_tryCatch {A} (P : World -> Prop) (m : M A) (h : Exn -> M A) :
  preserves P m -> (forall e, preserves P (h e)) -> preserves P (tryCatch m h).
Proof.
  intros Hm Hh w r w' HP. unfold tryCatch.
  destruct (m w) as [[a|e] w1] eqn:Hrun.
  - intros [= <- <-]. eapply Hm; eauto.
  - apply (Hh e). eapply Hm; eauto.
Qed.

Lemma preserves_finally {A} (P : World -> Prop) (m : M A) (c : M unit) :
  preserves P m -> preserves P c -> preserves P (finally m c).
Proof.
  intros Hm Hc w r w' HP. unfold finally.
  destruct (m w) as [r1 w1] eqn:Hrun.
  destruct (c w1) as [[u|e] w2] eqn:Hclean; intros [= <- <-];
    apply (Hc w1 _ w2 (Hm w r1 w1 HP Hrun) Hclean).
Qed.

(** *** Ids stay distinct and below the sequence *)

Lemma freshIds_mono (tbl : list LessonRow) (seq seq' : Z) :
  seq <= seq' -> freshIds tbl seq -> freshIds tbl seq'.
Proof.
  intros Hle [Hnd Hlt]. split; auto. intros r Hr. specialize (Hlt r Hr). lia.
Qed.

Lemma filter_keeps_ids_distinct (keep : LessonRow -> bool) (tbl : list LessonRow) :
  NoDup (map Pg.id tbl) -> NoDup (map Pg.id (filter keep tbl)).
Proof.
  intros Hnd. induction tbl as [|row tbl IH]; [constructor|].
  cbn in Hnd. apply NoDup_cons_iff in Hnd. destruct Hnd as [Hnew Hnd].
  cbn. destruct (keep row); [|now apply IH].
  cbn. apply NoDup_cons; [|now apply IH].
  rewrite in_map_iff. intros (other & Hid & Hin).
  apply filter_In in Hin. apply Hnew. rewrite <- Hid. now apply in_map.
Qed.

Lemma freshIds_filter (p : LessonRow -> bool) (tbl : list LessonRow) (seq : Z) :
  freshIds tbl seq -> freshIds (filter p tbl) seq.
Proof.
  intros [Hnd Hlt]. split; [now apply filter_keeps_ids_distinct|].
  intros r Hr. apply filter_In in Hr. apply Hlt. tauto.
Qed.

Lemma copyAll_ids (g to : Prim) (src : list LessonRow) :
  forall seq r, In r (copyAll g to seq src) -> seq <= Pg.id r < seq + lengthZ src.
Proof.
  unfold lengthZ. induction src as [|x src IH]; intros seq r; cbn [copyAll In].
  - intros [].
  - intros [<- | Hin]; cbn [Pg.id copyOf List.length]; [lia|].
    apply IH in Hin. lia.
Qed.

Lemma copyAll_NoDup (g to : Prim) (src : list LessonRow) :
  forall seq, NoDup (map Pg.id (copyAll g to seq src)).
Proof.
  induction src as [|x src IH]; intros seq; cbn [copyAll map]; constructor; auto.
  cbn [copyOf Pg.id]. intros Hin. apply in_map_iff in Hin.
  destruct Hin as (r & Hid & Hr). apply copyAll_ids in Hr. lia.
Qed.

Lemma freshIds_app (tbl new : list LessonRow) (seq seq' : Z) :
  freshIds tbl seq ->
  seq <= seq' ->
  NoDup (map Pg.id new) ->
  (forall r, In r new -> seq <= Pg.id r < seq') ->
  freshIds (tbl ++ new) seq'.
Proof.
  intros [Hnd Hlt] Hle Hnew Hrange. split.
  - rewrite map_app. apply NoDup_app; auto.
    intros i Hi Hi'. apply in_map_iff in Hi. apply in_map_iff in Hi'.
    destruct Hi as (r & <- & Hr). destruct Hi' as (r' & Heq & Hr').
    specialize (Hlt r Hr). specialize (Hrange r' Hr'). lia.
  - intros r Hr. apply in_app_iff in Hr. destruct Hr as [Hr | Hr].
    + specialize (Hlt r Hr). lia.
    + specialize (Hrange r Hr). lia.
Qed.

Lemma setTeacher_ids (name : option string) (p : LessonRow -> bool)
    (tbl : list LessonRow) :
  map Pg.id (map (fun r => if p r then setTeacher name r else r) tbl) = map Pg.id tbl.
Proof.
  rewrite map_map. apply map_ext. intros r. now destruct (p r).
Qed.

(** A data statement keeps the ids of the table distinct and below the
    sequence, which it never lowers. *)
Lemma runOnLessons_fresh (s : Stmt) (tbl : list LessonRow) (seq : Z) res tbl' seq' :
  freshIds tbl seq ->
  runOnLessons s tbl seq = (res, tbl', seq') ->
  freshIds tbl' seq' /\ seq <= seq'.
Proof.
  intros Hf.
  destruct s as [ | | | d g | d g | g d st en su ti ro ty | g wk | g wk
                | g to from | g t | new g old | a b c d e f ];
    cbn [runOnLessons]; intros [= <- <- <-];
    try (split; [assumption | lia]);
    try (split; [now apply freshIds_filter | lia]).
  - split; [|lia]. apply (freshIds_app tbl _ seq (seq + 1) Hf); try lia.
    + cbn. constructor; [intros [] | constructor].
    + cbn [In Pg.id]. intros r [<- | []]. cbn [Pg.id]. lia.
  - unfold lengthZ. split; [|lia].
    apply (freshIds_app tbl _ seq _ Hf); try lia.
    + apply copyAll_NoDup.
    + apply copyAll_ids.
  - split; [|lia]. destruct Hf as [Hnd Hlt]. split.
    + now rewrite setTeacher_ids.
    + intros r Hr. apply in_map_iff in Hr. destruct Hr as (r0 & <- & Hr0).
      specialize (Hlt r0 Hr0). now destruct (taughtBy g old r0).
Qed.

Lemma wellNumbered_pool_connect : preserves wellNumbered pool_connect.
Proof. apply preserves_ret. Qed.

Lemma wellNumbered_client_query (s : Stmt) :
  preserves wellNumbered (client_query faults s).
Proof.
  intros w r w' [Hc Htx]. unfold client_query.
  destruct (faults (List.length (issued w))).
  { intros [= <- <-]. split; auto. }
  cbn [record Pg.lessons lessons_seq schedule_changes client_tx issued].
  destruct s;
    try (destruct (client_tx w) as [t|] eqn:Ht;
         [ destruct (runOnLessons _ t (lessons_seq w)) as [[res t'] seq'] eqn:Hrun;
           intros [= <- <-];
           destruct (runOnLessons_fresh _ _ _ _ _ _ (Htx t eq_refl) Hrun) as [Hf Hle];
           split; cbn; [now apply (freshIds_mono _ (lessons_seq w)) |];
           intros t0 [= <-]; exact Hf
         | destruct (runOnLessons _ (Pg.lessons w) (lessons_seq w))
             as [[res t'] seq'] eqn:Hrun;
           intros [= <- <-];
           destruct (runOnLessons_fresh _ _ _ _ _ _ Hc Hrun) as [Hf Hle];
           split; cbn; [exact Hf | discriminate] ]).
  - (* BEGIN *)
    intros [= <- <-]. split; cbn; auto.
    destruct (client_tx w) as [t|] eqn:Ht; intros t0 [= <-]; auto.
  - (* COMMIT *)
    intros [= <- <-]. split; cbn; [|discriminate].
    destruct (client_tx w) as [t|] eqn:Ht; auto.
  - (* ROLLBACK *)
    intros [= <- <-]. split; cbn; [exact Hc | discriminate].
  - (* INSERT INTO schedule_changes *)
    intros [= <- <-]. split; cbn; auto.
Qed.

Lemma wellNumbered_pool_query (s : Stmt) :
  preserves wellNumbered (pool_query faults s).
Proof.
  intros w r w' [Hc Htx]. unfold pool_query.
  destruct (faults (List.length (issued w))).
  { intros [= <- <-]. split; auto. }
  cbn [record Pg.lessons lessons_seq schedule_changes client_tx issued].
  destruct s;
    try (intros [= <- <-]; split; cbn; auto; fail);
    destruct (runOnLessons _ (Pg.lessons w) (lessons_seq w))
      as [[res t'] seq'] eqn:Hrun;
    intros [= <- <-];
    destruct (runOnLessons_fresh _ _ _ _ _ _ Hc Hrun) as [Hf Hle];
    (split; cbn; [exact Hf |]);
    intros t Ht; apply (freshIds_mono _ (lessons_seq w)); auto.
Qed.

Lemma wellNumbered_logChange (args : list Json) :
  preserves wellNumbered (Audit.logChange faults args).
Proof.
  unfold Audit.logChange.
  destruct (hd (JPrim PUndefined) args) as [[| |b|n|s]|items|fields];
    try apply preserves_throw;
    (apply preserves_tryCatch; [| intros e; apply preserves_ret]);
    (apply preserves_bind; [apply wellNumbered_pool_query
                           | intros a; apply preserves_ret]).
Qed.

Lemma wellNumbered_insertLessons (d g : Prim) (ls : list LessonEntry) :
  preserves wellNumbered (insertLessons faults d g ls).
Proof.
  induction ls as [|e ls IH]; cbn [insertLessons].
  - apply preserves_ret.
  - destruct e as [|st en su ti ro ty]; [apply preserves_throw|].
    destruct (negb (truthy st) || negb (truthy en) || negb (truthy su)
              || negb (truthy ro) || negb (truthy ty)).
    + apply preserves_throw.
    + apply preserves_bind; [apply wellNumbered_client_query | intros _; exact IH].
Qed.

End Preservation.

Section Ids.

Context {backend : Backend}.

Lemma wellNumbered_updateScheduleByDay
    (tz : Z) (Date_parse : string -> option Z) (faults : nat -> bool)
    (now : Z) (req : DayRequest) :
  preserves wellNumbered (updateScheduleByDay tz Date_parse faults now req).
Proof.
  unfold updateScheduleByDay.
  destruct (negb (Prim_eqb (role (user req)) (PStr "admin")));
    [apply preserves_ret|].
  destruct (ScheduleDay.lessons req) as [ls|]; [|apply preserves_ret].
  destruct (negb (truthy (date req)) || negb (truthy (groupId req)));
    [apply preserves_ret|].
  destruct (isPastDate tz Date_parse now (date req)); [apply preserves_ret|].
  apply preserves_bind; [apply wellNumbered_pool_connect | intros _].
  apply preserves_finally; [|apply preserves_ret].
  apply preserves_tryCatch.
  - repeat (apply preserves_bind;
            [first [ apply wellNumbered_client_query
                   | apply wellNumbered_insertLessons
                   | apply wellNumbered_logChange ]
            | intros ? ]).
    apply preserves_ret.
  - intros e. apply preserves_bind; [apply wellNumbered_client_query | intros _].
    apply preserves_ret.
Qed.

(** X10.  [updateScheduleByDay] keeps the lesson ids distinct and below the
    id sequence, whatever the request, the server's answers and the outcome:
    a row it inserts never takes the id of a row that exists. *)
Theorem updateScheduleByDay_keeps_ids_distinct
    (tz : Z) (Date_parse : string -> option Z) (faults : nat -> bool)
    (now : Z) (req : DayRequest) (w : World) (r : Outcome Response) (w' : World) :
  wellNumbered w ->
  updateScheduleByDay tz Date_parse faults now req w = (r, w') ->
  wellNumbered w' /\ NoDup (map Pg.id (Pg.lessons w')).
Proof.
  intros Hw Hrun.
  pose proof (wellNumbered_updateScheduleByDay tz Date_parse faults now req
                w r w' Hw Hrun) as Hw'.
  split; [exact Hw'|]. exact (proj1 (proj1 Hw')).
Qed.


Lemma wellNumbered_bulk_operations (faults : nat -> bool) :
  (forall req, preserves wellNumbered (copyWeek faults req)) /\
  (forall req, preserves wellNumbered (clearWeek faults req)) /\
  (forall req, preserves wellNumbered (replaceTeacher faults req)).
Proof.
  assert (Htrim : forall v, preserves wellNumbered (trimOf v)).
  { intros v. destruct v; try apply preserves_throw. apply preserves_ret. }
  split; [|split]; intros req.
  - unfold copyWeek.
    destruct (negb (truthy (cw_group_id req)) || isUndefined (from_week req)
              || isUndefined (to_week req)); [apply preserves_ret|].
    apply preserves_tryCatch; [| intros e; apply preserves_ret].
    apply preserves_bind; [apply wellNumbered_pool_query | intros source].
    destruct (lengthZ (rows source) =? 0); [apply preserves_ret|].
    repeat (apply preserves_bind;
            [first [ apply wellNumbered_pool_query | apply wellNumbered_logChange ]
            | intros ? ]).
    apply preserves_ret.
  - unfold clearWeek.
    destruct (negb (truthy (cl_group_id req)) || isUndefined (cl_week req));
      [apply preserves_ret|].
    apply preserves_tryCatch; [| intros e; apply preserves_ret].
    apply preserves_bind; [apply wellNumbered_pool_query | intros deleted].
    apply preserves_bind; [apply wellNumbered_pool_query | intros result].
    apply preserves_bind; [| intros _; apply preserves_ret].
    destruct (0 <? rowCount result);
      [apply wellNumbered_logChange | apply preserves_ret].
  - unfold replaceTeacher.
    destruct (negb (truthy (rt_group_id req)) || negb (truthy (old_teacher req))
              || negb (truthy (new_teacher req))); [apply preserves_ret|].
    apply preserves_tryCatch; [| intros e; apply preserves_ret].
    apply preserves_bind; [apply Htrim | intros oldTrim].
    apply preserves_bind; [apply wellNumbered_pool_query | intros affected].
    apply preserves_bind; [apply Htrim | intros newTrim].
    apply preserves_bind; [apply Htrim | intros oldTrim'].
    apply preserves_bind; [apply wellNumbered_pool_query | intros result].
    apply preserves_bind; [| intros _; apply preserves_ret].
    destruct (0 <? rowCount result);
      [apply wellNumbered_logChange | apply preserves_ret].
Qed.

(** X11.  The three bulk operations keep the lesson ids distinct and below
    the id sequence: the copies that [copyWeek] inserts get ids of their own,
    [clearWeek] and [replaceTeacher] give no row a new id. *)
Theorem bulk_operations_keep_ids_distinct
    (faults : nat -> bool) (copy : CopyWeekRequest) (clear : ClearWeekRequest)
    (replace : ReplaceTeacherRequest) (w : World) (r : Outcome Response) (w' : World) :
  wellNumbered w ->
  copyWeek faults copy w = (r, w') \/
  clearWeek faults clear w = (r, w') \/
  replaceTeacher faults replace w = (r, w') ->
  wellNumbered w' /\ NoDup (map Pg.id (Pg.lessons w')).
Proof.
  intros Hw Hrun.
  destruct (wellNumbered_bulk_operations faults) as (Hcopy & Hclear & Hreplace).
  assert (Hw' : wellNumbered w').
  { destruct Hrun as [Hrun | [Hrun | Hrun]].
    - exact (Hcopy copy w r w' Hw Hrun).
    - exact (Hclear clear w r w' Hw Hrun).
    - exact (Hreplace replace w r w' Hw Hrun). }
  split; [exact Hw'|]. exact (proj1 (proj1 Hw')).
Qed.

End Ids.

Section IdsInstances.

#[local] Existing Instance sampleBackend.

Lemma wellNumbered_datedWorld : wellNumbered datedWorld.
Proof.
  split; [|discriminate]. split.
  - cbn. repeat constructor; cbn; intuition discriminate.
  - intros r [<- | [<- | []]]; cbn; lia.
Qed.

Lemma updateScheduleByDay_keeps_ids_distinct_witness :
  let run := updateScheduleByDay tzEast3 parseIsoDate noFaults noon_2023_09_01
               (dayRequest "2099-01-01" [physics]) datedWorld in
  wellNumbered (snd run) /\ NoDup (map Pg.id (Pg.lessons (snd run))).
Proof.
  cbv zeta.
  apply (updateScheduleByDay_keeps_ids_distinct tzEast3 parseIsoDate noFaults
           noon_2023_09_01 (dayRequest "2099-01-01" [physics]) datedWorld
           (fst (updateScheduleByDay tzEast3 parseIsoDate noFaults noon_2023_09_01
                   (dayRequest "2099-01-01" [physics]) datedWorld))).
  - exact wellNumbered_datedWorld.
  - vm_compute. reflexivity.
Defined.

Lemma wellNumbered_templateWorld : wellNumbered templateWorld.
Proof.
  split; [|discriminate]. split.
  - cbn. repeat constructor; cbn; intuition discriminate.
  - intros r [<- | [<- | []]]; cbn; lia.
Qed.

(** Copying week type 1 of group 5 onto week type 2. *)
Lemma bulk_operations_keep_ids_distinct_witness :
  let run := copyWeek noFaults (mkCopyWeek admin7 (PNum 5) (PNum 1) (PNum 2))
               templateWorld in
  wellNumbered (snd run) /\ NoDup (map Pg.id (Pg.lessons (snd run))).
Proof.
  cbv zeta.
  apply (bulk_operations_keep_ids_distinct noFaults
           (mkCopyWeek admin7 (PNum 5) (PNum 1) (PNum 2))
           (mkClearWeek admin7 (PNum 5) (PNum 1))
           (mkReplaceTeacher admin7 (PNum 5) (PStr "Ivanov") (PStr "Sidorov"))
           templateWorld
           (fst (copyWeek noFaults (mkCopyWeek admin7 (PNum 5) (PNum 1) (PNum 2))
                   templateWorld))).
  - exact wellNumbered_templateWorld.
  - left. vm_compute. reflexivity.
Defined.

End IdsInstances.

(** ** More on the schedule-day controller *)

Import JsDate Notions WeekService Js Pg Http ScheduleDay Samples Admin Middleware.

Lemma filter_idem {A} (p : A -> bool) (l : list A) :
  filter p (filter p l) = filter p l.
Proof.
  induction l as [|x l IH]; cbn; auto.
  destruct (p x) eqn:E; cbn; rewrite ?E, IH; reflexivity.
Qed.

Lemma filter_nothing {A} (p : A -> bool) (l : list A) :
  (forall x, In x l -> p x = false) -> filter p l = [].
Proof.
  induction l as [|x l IH]; cbn; intros H; auto.
  rewrite (H x (or_introl eq_refl)). apply IH. auto.
Qed.

Section OtherDays.

Context {backend : Backend}.

(** X12.  When the pooled client has no transaction open and the date and
    the group are ones PostgreSQL can read, the call leaves every lesson of
    another day or another group exactly as it was, in place and order,
    whatever the rest of the request, the server's answers and the
    outcome. *)
Theorem updateScheduleByDay_other_days_untouched
    (tz : Z) (Date_parse : string -> option Z) (faults : nat -> bool)
    (now : Z) (req : DayRequest) (w : World) (r : Outcome Response) (w' : World) :
  client_tx w = None ->
  asDate (date req) <> None ->
  asInt (groupId req) <> None ->
  updateScheduleByDay tz Date_parse faults now req w = (r, w') ->
  filter (fun x => negb (onDay (date req) (groupId req) x)) (Pg.lessons w')
  = filter (fun x => negb (onDay (date req) (groupId req) x)) (Pg.lessons w).
Proof.
  intros Htx Hdate Hgroup Hrun.
  destruct (updateScheduleByDay_guards tz Date_parse faults now req w)
    as [(Hrole & Hd & Hg & Hpast & ls & Hls) | (resp & Hresp & _)].
  2:{ rewrite Hresp in Hrun. now injection Hrun as _ <-. }
  destruct (updateScheduleByDay_cases tz Date_parse faults now req ls w r w'
              Hrole Hls Hd Hg Hpast Hrun)
    as (_ & _ & [(_ & _ & Hl & _) | (_ & Hl & _)]); rewrite Hl; [|reflexivity].
  unfold visible. rewrite Htx.
  rewrite filter_app, filter_idem.
  rewrite (filter_nothing _ (newRows _ _ _ _)); [apply app_nil_r|].
  intros x Hx. now rewrite (newRows_onDay _ _ ls Hdate Hgroup _ x Hx).
Qed.

End OtherDays.

Section DayAudit.

Context {backend : Backend}.
Variable tz : Z.
Variable Date_parse : string -> option Z.
Variable faults : nat -> bool.

(** The loop on a list without malformed entries, every INSERT answered. *)
Lemma insertLessons_answered (d g : Prim) (ls : list LessonEntry) :
  forall (w : World) (t : list LessonRow),
    client_tx w = Some t ->
    existsb malformed ls = false ->
    (forall k, (List.length (issued w) <= k < List.length (issued w) + List.length ls)%nat ->
               faults k = false) ->
    exists w',
      insertLessons faults d g ls w = (Ok tt, w') /\
      Pg.lessons w' = Pg.lessons w /\
      schedule_changes w' = schedule_changes w /\
      client_tx w' = Some (t ++ newRows d g (lessons_seq w) ls) /\
      List.length (issued w') = (List.length (issued w) + List.length ls)%nat.
Proof.
  induction ls as [|e ls IH]; intros w t Htx Hgood Hans.
  - exists w. cbn. rewrite app_nil_r. repeat split; auto.
  - destruct e as [|st en su ti ro ty]; [discriminate Hgood|].
    cbn [existsb malformed] in Hgood. apply orb_false_elim in Hgood.
    destruct Hgood as [Hthis Hrest].
    cbn [insertLessons newRows]. rewrite Hthis.
    unfold bind at 1. unfold client_query at 1.
    rewrite (Hans (List.length (issued w))) by (cbn [List.length]; lia).
    cbn [record client_tx lessons_seq Pg.lessons schedule_changes issued].
    rewrite Htx. cbn [runOnLessons].
    match goal with
    | |- context [insertLessons faults d g ls ?w1] =>
        destruct (IH w1 _ eq_refl Hrest) as (w' & Hrun & Hl & Hc & Ht & Hi)
    end.
    { cbn [issued List.length]. intros k Hk. apply Hans. cbn [List.length]. lia. }
    exists w'. rewrite Hrun.
    cbn [Pg.lessons schedule_changes lessons_seq issued List.length] in *.
    repeat split; auto.
    + rewrite Ht, <- app_assoc. reflexivity.
    + lia.
Qed.

(** X13.  When the request passes the guards, no entry is malformed and the
    server answers BEGIN, SELECT, DELETE, each INSERT and COMMIT, the call
    succeeds whether or not the audit INSERT that follows is answered: the
    day is replaced and committed, no transaction stays open, and the audit
    table gains one row exactly when that INSERT went through.  The row
    names the administrator, the action, the rows of the day that the SELECT
    returned, as the driver rendered them, and the list as sent. *)
Theorem updateScheduleByDay_audit_is_best_effort
    (now : Z) (req : DayRequest) (ls : list LessonEntry) (w : World)
    (r : Outcome Response) (w' : World) :
  role (user req) = PStr "admin" ->
  ScheduleDay.lessons req = Some ls ->
  truthy (date req) = true ->
  truthy (groupId req) = true ->
  isPastDate tz Date_parse now (date req) = false ->
  existsb malformed ls = false ->
  (forall k, (List.length (issued w) <= k < List.length (issued w) + 4 + List.length ls)%nat ->
             faults k = false) ->
  updateScheduleByDay tz Date_parse faults now req w = (r, w') ->
  r = Ok saved /\
  Pg.lessons w' =
    filter (fun x => negb (onDay (date req) (groupId req) x)) (visible w)
    ++ newRows (date req) (groupId req) (lessons_seq w) ls /\
  client_tx w' = None /\
  schedule_changes w' =
    (if faults (List.length (issued w) + 4 + List.length ls)%nat
     then schedule_changes w
     else schedule_changes w ++
          [mkChange (JPrim (pgParam (user_id (user req))))
                    (JPrim (PStr "update_schedule_day"))
                    (JPrim (PStr "schedule_day"))
                    (JPrim PNull)
                    (JObj [("date", JPrim (date req));
                           ("lessons",
                            JArr (map row_js
                                    (filter (onDay (date req) (groupId req))
                                            (visible w))))]%string)
                    (JObj [("date", JPrim (date req));
                           ("groupId", JPrim (groupId req));
                           ("lessons", JArr (map json_of_entry ls))]%string)]).
Proof.
  intros Hrole Hls Hd Hg Hpast Hgood Hans.
  unfold updateScheduleByDay. rewrite Hrole, Hls, Hd, Hg, Hpast, Prim_eqb_refl.
  cbn [negb orb].
  unfold bind at 1. unfold pool_connect at 1. unfold ret at 1.
  rewrite finally_release.
  unfold tryCatch.
  (* BEGIN, SELECT, DELETE *)
  unfold bind at 1. unfold client_query at 1.
  cbn [issued]. rewrite (Hans (List.length (issued w))) by lia.
  cbn [record client_tx lessons_seq Pg.lessons schedule_changes issued].
  assert (Hvis : match client_tx w with
                 | Some t => Some t
                 | None => Some (Pg.lessons w)
                 end = Some (visible w))
    by (unfold visible; destruct (client_tx w); reflexivity).
  rewrite Hvis. clear Hvis.
  unfold bind at 1. unfold client_query at 1.
  cbn [issued List.length]. rewrite (Hans (S (List.length (issued w)))) by lia.
  cbn [record client_tx lessons_seq Pg.lessons schedule_changes issued runOnLessons rows].
  unfold bind at 1. unfold client_query at 1.
  cbn [issued List.length]. rewrite (Hans (S (S (List.length (issued w))))) by lia.
  cbn [record client_tx lessons_seq Pg.lessons schedule_changes issued runOnLessons].
  (* the loop *)
  unfold bind at 1.
  match goal with
  | |- context [insertLessons faults (date req) (groupId req) ls ?w3] =>
      destruct (insertLessons_answered (date req) (groupId req) ls w3 _ eq_refl Hgood)
        as (w4 & -> & Hl4 & Hc4 & Ht4 & Hi4)
  end.
  { cbn [issued List.length]. intros k Hk. apply Hans. lia. }
  cbn [Pg.lessons schedule_changes lessons_seq issued List.length] in Hl4, Hc4, Ht4, Hi4.
  (* COMMIT *)
  unfold bind at 1. unfold client_query at 1.
  rewrite Hi4. rewrite (Hans (S (S (S (List.length (issued w)))) + List.length ls)%nat) by lia.
  cbn [record client_tx lessons_seq Pg.lessons schedule_changes issued].
  rewrite Ht4.
  (* logChange *)
  unfold bind at 1. unfold Audit.logChange. cbn [hd].
  unfold tryCatch, bind, pool_query.
  cbn [record issued List.length getProp lookup String.eqb Ascii.eqb Bool.eqb
       withDefault pgJson json_truthy].
  rewrite Hi4.
  replace (S (S (S (S (List.length (issued w)))) + List.length ls))%nat
    with (List.length (issued w) + 4 + List.length ls)%nat by lia.
  destruct (faults (List.length (issued w) + 4 + List.length ls)%nat);
    unfold ret; intros [= <- <-];
    cbn [Pg.lessons client_tx schedule_changes]; rewrite ?Hc4; auto.
Qed.

End DayAudit.


(** ** More on the audit service *)

Section AuditFacts.

Context {backend : Backend}.

(** X14.  Given anything but [null] or [undefined] as its first argument,
    [logChange] ends normally whatever the server answers: it sends one
    INSERT into [schedule_changes] and nothing else, leaves the lessons, the
    id sequence and the client's transaction alone, and the audit table
    keeps its rows and gains at most one. *)
Theorem logChange_swallows_a_failed_insert
    (faults : nat -> bool) (arg : Json) (rest : list Json) (w : World)
    (r : Outcome unit) (w' : World) :
  arg <> JPrim PUndefined ->
  arg <> JPrim PNull ->
  Audit.logChange faults (arg :: rest) w = (r, w') ->
  r = Ok tt /\
  (exists a b c d e f, issued w' = InsertChange a b c d e f :: issued w) /\
  Pg.lessons w' = Pg.lessons w /\
  lessons_seq w' = lessons_seq w /\
  client_tx w' = client_tx w /\
  (if faults (List.length (issued w))
   then schedule_changes w' = schedule_changes w
   else exists row, schedule_changes w' = schedule_changes w ++ [row]).
Proof.
  intros Hu Hn. unfold Audit.logChange. cbn [hd].
  destruct arg as [[| |b|n|s]|items|fields]; try contradiction;
    unfold tryCatch, bind, pool_query, ret;
    cbn [record issued Pg.lessons lessons_seq schedule_changes client_tx];
    destruct (faults (List.length (issued w))); intros [= <- <-];
    cbn [issued Pg.lessons lessons_seq schedule_changes client_tx];
    (split; [reflexivity|]); (split; [do 6 eexists; reflexivity|]);
    repeat split; eexists; reflexivity.
Qed.

End AuditFacts.

Section DayExtraInstances.

#[local] Existing Instance sampleBackend.

(** The lesson of group 2 in [datedWorld] survives the rewrite of the day of
    group 1, sent as the string ["1"]. *)
Lemma updateScheduleByDay_other_days_untouched_witness :
  let req := mkDayRequest admin7 (PStr "2099-01-01") (PStr "1") (Some [physics]) in
  let run := updateScheduleByDay tzEast3 parseIsoDate noFaults noon_2023_09_01
               req datedWorld in
  filter (fun x => negb (onDay (date req) (groupId req) x)) (Pg.lessons (snd run))
  = filter (fun x => negb (onDay (date req) (groupId req) x)) (Pg.lessons datedWorld) /\
  filter (fun x => negb (onDay (date req) (groupId req) x)) (Pg.lessons datedWorld)
  = [datedLesson 2 2 "History"].
Proof.
  cbv zeta. split; [|vm_compute; reflexivity].
  apply (updateScheduleByDay_other_days_untouched tzEast3 parseIsoDate noFaults
           noon_2023_09_01
           (mkDayRequest admin7 (PStr "2099-01-01") (PStr "1") (Some [physics]))
           datedWorld
           (fst (updateScheduleByDay tzEast3 parseIsoDate noFaults noon_2023_09_01
                   (mkDayRequest admin7 (PStr "2099-01-01") (PStr "1") (Some [physics]))
                   datedWorld))).
  - reflexivity.
  - vm_compute. discriminate.
  - vm_compute. discriminate.
  - vm_compute. reflexivity.
Defined.

(** The audit INSERT (statement 5 of the call) is answered with an error. *)
Lemma updateScheduleByDay_audit_is_best_effort_witness :
  let run := updateScheduleByDay tzEast3 parseIsoDate (failAt 5) noon_2023_09_01
               (dayRequest "2099-01-01" [physics]) datedWorld in
  fst run = Ok saved /\
  dayLessons (PStr "2099-01-01") (PNum 1) (snd run)
  = map withoutId (newRows (PStr "2099-01-01") (PNum 1) 0 [physics]) /\
  schedule_changes (snd run) = [].
Proof.
  cbv zeta.
  destruct (updateScheduleByDay_audit_is_best_effort tzEast3 parseIsoDate (failAt 5)
              noon_2023_09_01 (dayRequest "2099-01-01" [physics]) [physics] datedWorld
              (fst (updateScheduleByDay tzEast3 parseIsoDate (failAt 5) noon_2023_09_01
                      (dayRequest "2099-01-01" [physics]) datedWorld))
              (snd (updateScheduleByDay tzEast3 parseIsoDate (failAt 5) noon_2023_09_01
                      (dayRequest "2099-01-01" [physics]) datedWorld)))
    as (Hr & Hl & _ & Hc).
  - reflexivity.
  - reflexivity.
  - reflexivity.
  - reflexivity.
  - vm_compute. reflexivity.
  - reflexivity.
  - intros k Hk. cbn in Hk.
    destruct k as [|[|[|[|[|k]]]]]; try reflexivity; lia.
  - vm_compute. reflexivity.
  - split; [exact Hr|]. split; [|exact Hc].
    unfold dayLessons. rewrite Hl. vm_compute. reflexivity.
Defined.

Lemma logChange_swallows_a_failed_insert_witness :
  let run := Audit.logChange (failAt 0)
               [JObj [("adminId", JPrim (PNum 7));
                      ("actionType", JPrim (PStr "create_group"))]%string]
               datedWorld in
  fst run = Ok tt /\
  (exists a b c d e f,
     issued (snd run) = InsertChange a b c d e f :: issued datedWorld) /\
  Pg.lessons (snd run) = Pg.lessons datedWorld /\
  lessons_seq (snd run) = lessons_seq datedWorld /\
  client_tx (snd run) = client_tx datedWorld /\
  schedule_changes (snd run) = schedule_changes datedWorld.
Proof.
  cbv zeta.
  apply (logChange_swallows_a_failed_insert (failAt 0)
           (JObj [("adminId", JPrim (PNum 7));
                  ("actionType", JPrim (PStr "create_group"))]%string)
           [] datedWorld).
  - discriminate.
  - discriminate.
  - vm_compute. reflexivity.
Defined.

End DayExtraInstances.

(** ** More on the bulk operations *)

Import JsDate Notions WeekService Js Pg Http ScheduleDay Samples Admin Middleware.

Lemma Prim_eqb_eq (a b : Prim) : Prim_eqb a b = true -> a = b.
Proof.
  destruct a as [| |x|x|x], b as [| |y|y|y]; cbn; try discriminate; auto.
  - intros H. apply Bool.eqb_prop in H. now subst.
  - intros H. apply Z.eqb_eq in H. now subst.
  - intros H. apply String.eqb_eq in H. now subst.
Qed.

Lemma sql_eq_Z (col param : option Z) :
  sql_eq Z.eqb col param = true -> col = param /\ param <> None.
Proof.
  destruct col as [c|], param as [p|]; cbn; try discriminate.
  intros H. apply Z.eqb_eq in H. subst. split; [reflexivity | discriminate].
Qed.

Lemma sql_eq_Z_self (v : option Z) : v <> None -> sql_eq Z.eqb v v = true.
Proof. destruct v; [intros _; apply Z.eqb_refl | contradiction]. Qed.

(** Two week types that PostgreSQL reads as different integers select
    disjoint sets of rows. *)
Lemma inWeek_disjoint (g a b : Prim) (r : LessonRow) :
  asInt a <> asInt b ->
  inWeek g a r = true -> inWeek g b r = false.
Proof.
  intros Hab. unfold inWeek. intros H.
  apply andb_prop in H. destruct H as [_ Hwa].
  destruct (sql_eq Z.eqb (week r) (asInt b)) eqn:Hwb; [|apply andb_false_r].
  apply sql_eq_Z in Hwa. apply sql_eq_Z in Hwb.
  exfalso. apply Hab. destruct Hwa, Hwb. congruence.
Qed.

(** A group with a row of its own is one PostgreSQL could read. *)
Lemma inWeek_group (g a : Prim) (r : LessonRow) :
  inWeek g a r = true -> asInt g <> None.
Proof.
  unfold inWeek. intros H. apply andb_prop in H. destruct H as [H _].
  now apply sql_eq_Z in H.
Qed.

Lemma copyAll_inWeek (g to : Prim) (src : list LessonRow) :
  asInt g <> None -> asInt to <> None ->
  forall seq r, In r (copyAll g to seq src) -> inWeek g to r = true.
Proof.
  intros Hg Hto.
  induction src as [|x src IH]; intros seq r; cbn [copyAll In]; [intros []|].
  intros [<- | Hin]; [|eapply IH; eauto].
  unfold inWeek. cbn [copyOf group_id week].
  now rewrite !sql_eq_Z_self.
Qed.

Lemma filter_ext_in_bool {A} (p q : A -> bool) (l : list A) :
  (forall x, In x l -> p x = q x) -> filter p l = filter q l.
Proof.
  induction l as [|x l IH]; cbn; intros H; auto.
  rewrite (H x (or_introl eq_refl)), IH; auto.
Qed.

Lemma filter_filter_disjoint {A} (p q : A -> bool) (l : list A) :
  (forall x, p x = true -> q x = false) ->
  filter p (filter (fun x => negb (q x)) l) = filter p l.
Proof.
  intros H. induction l as [|x l IH]; cbn; auto.
  destruct (q x) eqn:Hq; cbn.
  - destruct (p x) eqn:Hp; [rewrite (H x Hp) in Hq; discriminate | exact IH].
  - destruct (p x); rewrite IH; reflexivity.
Qed.

Section BulkFacts.

Context {backend : Backend}.
Variable faults : nat -> bool.

(** X15.  With source and target week types that PostgreSQL reads as two
    different integers, a non-empty source and the three statements
    answered, [copyWeek] leaves as the target's templates exactly the copies
    of the source's templates (same day, times, subject, teacher, room and
    type, ids of their own); the source and every other row stay as they
    were.  The reply is 200 when the token carries an id.  Rows are selected
    as PostgreSQL does it, the parameter read as an integer: a week sent as
    the string ["2"] selects the rows of week 2. *)
Theorem copyWeek_replaces_target_by_source
    (req : CopyWeekRequest) (w : World) (r : Outcome Response) (w' : World) :
  let g := cw_group_id req in
  let source := filter (inWeek g (from_week req)) (Pg.lessons w) in
  truthy g = true ->
  from_week req <> PUndefined ->
  to_week req <> PUndefined ->
  asInt (to_week req) <> None ->
  asInt (from_week req) <> asInt (to_week req) ->
  source <> [] ->
  faults (List.length (issued w)) = false ->
  faults (S (List.length (issued w))) = false ->
  faults (S (S (List.length (issued w)))) = false ->
  copyWeek faults req w = (r, w') ->
  filter (inWeek g (to_week req)) (Pg.lessons w')
  = copyAll g (to_week req) (lessons_seq w) source /\
  filter (inWeek g (from_week req)) (Pg.lessons w') = source /\
  filter (fun x => negb (inWeek g (to_week req) x)) (Pg.lessons w')
  = filter (fun x => negb (inWeek g (to_week req) x)) (Pg.lessons w) /\
  (user_id (cw_user req) <> PUndefined -> user_id (cw_user req) <> PNull ->
   r = Ok (mkResponse 200 (copyMessage (from_week req) (to_week req)))).
Proof.
  cbv zeta. intros Hg Hfrom Hto Htn Hne Hsrc F1 F2 F3.
  assert (Hgi : asInt (cw_group_id req) <> None).
  { destruct (filter (inWeek (cw_group_id req) (from_week req)) (Pg.lessons w))
      as [|x rest] eqn:E; [contradiction|].
    assert (Hx : In x (filter (inWeek (cw_group_id req) (from_week req)) (Pg.lessons w)))
      by (rewrite E; left; reflexivity).
    apply filter_In in Hx. destruct Hx as [_ Hx]. eapply inWeek_group; eauto. }
  assert (Hne' : asInt (to_week req) <> asInt (from_week req)) by congruence.
  unfold copyWeek. rewrite Hg, !isUndefined_false by assumption.
  cbn [negb orb].
  unfold tryCatch. unfold bind at 1. unfold pool_query at 1.
  rewrite F1. cbn [record issued Pg.lessons lessons_seq schedule_changes client_tx
                   runOnLessons rows].
  set (src := filter (inWeek (cw_group_id req) (from_week req)) (Pg.lessons w)) in *.
  assert (Hlen : (lengthZ src =? 0) = false).
  { apply Z.eqb_neq. unfold lengthZ. destruct src; [contradiction | cbn; lia]. }
  rewrite Hlen.
  unfold bind at 1. unfold pool_query at 1.
  cbn [record issued Pg.lessons lessons_seq schedule_changes client_tx List.length].
  rewrite F2. cbn [runOnLessons].
  unfold bind at 1. unfold pool_query at 1.
  cbn [record issued Pg.lessons lessons_seq schedule_changes client_tx List.length].
  rewrite F3. cbn [runOnLessons].
  rewrite (filter_filter_disjoint (inWeek (cw_group_id req) (from_week req))
             (inWeek (cw_group_id req) (to_week req)))
    by (intros x; apply inWeek_disjoint; assumption).
  fold src.
  unfold bind at 1.
  match goal with
  | |- context [Audit.logChange faults ?args ?w1] =>
      destruct (Audit.logChange faults args w1) as [rl wl] eqn:Hlog
  end.
  pose proof (logChange_lessons faults _ _ _ _ Hlog) as Hl.
  cbn [Pg.lessons] in Hl.
  assert (Hafter :
    filter (inWeek (cw_group_id req) (to_week req)) (Pg.lessons wl)
    = copyAll (cw_group_id req) (to_week req) (lessons_seq w) src /\
    filter (inWeek (cw_group_id req) (from_week req)) (Pg.lessons wl) = src /\
    filter (fun x => negb (inWeek (cw_group_id req) (to_week req) x)) (Pg.lessons wl)
    = filter (fun x => negb (inWeek (cw_group_id req) (to_week req) x)) (Pg.lessons w)).
  { rewrite Hl, !filter_app, filter_none, filter_idem. cbn [app].
    rewrite (filter_all _ (copyAll _ _ _ _))
      by (apply copyAll_inWeek; assumption).
    rewrite (filter_filter_disjoint (inWeek (cw_group_id req) (from_week req))
               (inWeek (cw_group_id req) (to_week req)))
      by (intros x; apply inWeek_disjoint; assumption).
    fold src.
    rewrite (filter_nothing (inWeek (cw_group_id req) (from_week req))
               (copyAll _ _ _ _)).
    2:{ intros x Hx. apply (inWeek_disjoint _ (to_week req)); auto.
        eapply copyAll_inWeek; eauto. }
    rewrite (filter_nothing (fun x => negb (inWeek (cw_group_id req) (to_week req) x))
               (copyAll _ _ _ _)).
    2:{ intros x Hx. now rewrite (copyAll_inWeek _ _ src Hgi Htn _ x Hx). }
    rewrite !app_nil_r. auto. }
  destruct Hafter as (H1 & H2 & H3).
  destruct rl as [[]|e]; unfold ret; intros [= <- <-]; repeat split; auto.
  intros Hu Hn. exfalso.
  destruct (logChange_positional faults _ _ _ _ _ Hu Hn Hlog) as [Hbad _].
  discriminate Hbad.
Qed.

(** X16.  When the group has no template of the source week type (none whose
    week is the integer PostgreSQL reads the parameter as) and the SELECT is
    answered, [copyWeek] replies 404 after that one statement and changes
    nothing: the target week is not cleared. *)
Theorem copyWeek_nothing_to_copy
    (req : CopyWeekRequest) (w : World) (r : Outcome Response) (w' : World) :
  truthy (cw_group_id req) = true ->
  from_week req <> PUndefined ->
  to_week req <> PUndefined ->
  filter (inWeek (cw_group_id req) (from_week req)) (Pg.lessons w) = [] ->
  faults (List.length (issued w)) = false ->
  copyWeek faults req w = (r, w') ->
  r = Ok (mkResponse 404 "Нет занятий для копирования") /\
  Pg.lessons w' = Pg.lessons w /\
  schedule_changes w' = schedule_changes w /\
  issued w' = SelectWeek (cw_group_id req) (from_week req) :: issued w.
Proof.
  intros Hg Hfrom Hto Hsrc F1.
  unfold copyWeek. rewrite Hg, !isUndefined_false by assumption.
  cbn [negb orb].
  unfold tryCatch. unfold bind at 1. unfold pool_query at 1.
  rewrite F1. cbn [record issued Pg.lessons lessons_seq schedule_changes client_tx
                   runOnLessons rows].
  rewrite Hsrc. cbn [lengthZ List.length Z.of_nat Z.eqb].
  unfold ret. intros [= <- <-]. cbn. auto.
Qed.

(** The effect of [clearWeek] when its two statements are answered. *)
Lemma clearWeek_answered
    (req : ClearWeekRequest) (w : World) (r : Outcome Response) (w' : World) :
  truthy (cl_group_id req) = true ->
  cl_week req <> PUndefined ->
  faults (List.length (issued w)) = false ->
  faults (S (List.length (issued w))) = false ->
  clearWeek faults req w = (r, w') ->
  let removed := filter (inWeek (cl_group_id req) (cl_week req)) (Pg.lessons w) in
  Pg.lessons w'
  = filter (fun x => negb (inWeek (cl_group_id req) (cl_week req) x)) (Pg.lessons w) /\
  (removed = [] ->
   r = Ok (mkResponse 200 (clearMessage 0)) /\
   schedule_changes w' = schedule_changes w /\
   List.length (issued w') = S (S (List.length (issued w)))) /\
  (user_id (cl_user req) <> PUndefined -> user_id (cl_user req) <> PNull ->
   r = Ok (mkResponse 200 (clearMessage (lengthZ removed)))).
Proof.
  intros Hg Hwk F1 F2. cbv zeta.
  unfold clearWeek. rewrite Hg, isUndefined_false by assumption.
  cbn [negb orb].
  unfold tryCatch. unfold bind at 1. unfold pool_query at 1.
  rewrite F1. cbn [record issued Pg.lessons lessons_seq schedule_changes client_tx
                   runOnLessons rows].
  unfold bind at 1. unfold pool_query at 1.
  cbn [record issued Pg.lessons lessons_seq schedule_changes client_tx List.length].
  rewrite F2. cbn [runOnLessons rowCount].
  set (removed := filter (inWeek (cl_group_id req) (cl_week req)) (Pg.lessons w)).
  unfold bind at 1.
  destruct (Z.ltb_spec 0 (lengthZ removed)) as [Hpos|Hzero].
  - match goal with
    | |- context [Audit.logChange faults ?args ?w1] =>
        destruct (Audit.logChange faults args w1) as [rl wl] eqn:Hlog
    end.
    pose proof (logChange_lessons faults _ _ _ _ Hlog) as Hl.
    cbn [Pg.lessons] in Hl.
    destruct rl as [[]|e]; unfold ret; intros [= <- <-];
      (split; [exact Hl|]); (split; [intros Hnil; rewrite Hnil in Hpos; cbn in Hpos; lia|]);
      intros Hu Hn; auto.
    exfalso. destruct (logChange_positional faults _ _ _ _ _ Hu Hn Hlog) as [Hbad _].
    discriminate Hbad.
  - unfold ret. intros [= <- <-].
    assert (Hn0 : lengthZ removed = 0) by (unfold lengthZ in *; lia).
    cbn [Pg.lessons schedule_changes issued List.length].
    rewrite Hn0. auto.
Qed.

(** X17.  With its two statements answered, [clearWeek] deletes the templates
    of the group and week type (the rows whose group and week are the
    integers PostgreSQL reads the two parameters as) and no other row, and
    reports how many there were (when the token carries an id). *)
Theorem clearWeek_removes_the_week
    (req : ClearWeekRequest) (w : World) (r : Outcome Response) (w' : World) :
  truthy (cl_group_id req) = true ->
  cl_week req <> PUndefined ->
  faults (List.length (issued w)) = false ->
  faults (S (List.length (issued w))) = false ->
  clearWeek faults req w = (r, w') ->
  filter (inWeek (cl_group_id req) (cl_week req)) (Pg.lessons w') = [] /\
  filter (fun x => negb (inWeek (cl_group_id req) (cl_week req) x)) (Pg.lessons w')
  = filter (fun x => negb (inWeek (cl_group_id req) (cl_week req) x)) (Pg.lessons w) /\
  (user_id (cl_user req) <> PUndefined -> user_id (cl_user req) <> PNull ->
   r = Ok (mkResponse 200
             (clearMessage
                (lengthZ (filter (inWeek (cl_group_id req) (cl_week req))
                                 (Pg.lessons w)))))).
Proof.
  intros Hg Hwk F1 F2 Hrun.
  destruct (clearWeek_answered req w r w' Hg Hwk F1 F2 Hrun) as (Hl & _ & Hr).
  rewrite Hl, filter_none, filter_idem. auto.
Qed.

(** X18.  A second [clearWeek] for the same group and week type, right after
    an answered first one, finds nothing: it replies that 0 lessons were
    deleted, changes no row and writes no audit record. *)
Theorem clearWeek_twice
    (req : ClearWeekRequest) (w w1 w2 : World) (r1 r2 : Outcome Response) :
  truthy (cl_group_id req) = true ->
  cl_week req <> PUndefined ->
  faults (List.length (issued w)) = false ->
  faults (S (List.length (issued w))) = false ->
  faults (List.length (issued w1)) = false ->
  faults (S (List.length (issued w1))) = false ->
  clearWeek faults req w = (r1, w1) ->
  clearWeek faults req w1 = (r2, w2) ->
  r2 = Ok (mkResponse 200 (clearMessage 0)) /\
  Pg.lessons w2 = Pg.lessons w1 /\
  schedule_changes w2 = schedule_changes w1.
Proof.
  intros Hg Hwk F1 F2 F1' F2' Hrun1 Hrun2.
  destruct (clearWeek_answered req w r1 w1 Hg Hwk F1 F2 Hrun1) as (Hl1 & _).
  destruct (clearWeek_answered req w1 r2 w2 Hg Hwk F1' F2' Hrun2) as (Hl2 & Hnone & _).
  assert (Hgone : filter (inWeek (cl_group_id req) (cl_week req)) (Pg.lessons w1) = []).
  { rewrite Hl1. apply filter_none. }
  destruct (Hnone Hgone) as (Hr & Hc & _).
  split; [exact Hr|]. split; [|exact Hc].
  rewrite Hl2, Hl1. apply filter_idem.
Qed.

(** The effect of [replaceTeacher] on two names, its two statements answered. *)
Lemma replaceTeacher_answered
    (req : ReplaceTeacherRequest) (old new : string) (w : World)
    (r : Outcome Response) (w' : World) :
  truthy (rt_group_id req) = true ->
  old_teacher req = PStr old -> old <> EmptyString ->
  new_teacher req = PStr new -> new <> EmptyString ->
  faults (List.length (issued w)) = false ->
  faults (S (List.length (issued w))) = false ->
  replaceTeacher faults req w = (r, w') ->
  let hit := taughtBy (rt_group_id req) (PStr (trim old)) in
  Pg.lessons w'
  = map (fun x => if hit x then setTeacher (Some (trim new)) x else x) (Pg.lessons w) /\
  (user_id (rt_user req) <> PUndefined -> user_id (rt_user req) <> PNull ->
   r = Ok (mkResponse 200 (replaceMessage (lengthZ (filter hit (Pg.lessons w)))))).
Proof.
  intros Hg Hold Ho Hnew Hn F1 F2. cbv zeta.
  unfold replaceTeacher. rewrite Hg, Hold, Hnew.
  assert (Hto : truthy (PStr old) = true).
  { cbn. destruct (String.eqb_spec old EmptyString); [contradiction | reflexivity]. }
  assert (Htn : truthy (PStr new) = true).
  { cbn. destruct (String.eqb_spec new EmptyString); [contradiction | reflexivity]. }
  rewrite Hto, Htn. cbn [negb orb].
  unfold tryCatch. unfold bind at 1. cbn [trimOf]. unfold ret at 1.
  unfold bind at 1. unfold pool_query at 1.
  rewrite F1. cbn [record issued Pg.lessons lessons_seq schedule_changes client_tx
                   runOnLessons].
  unfold bind at 1. unfold ret at 1. unfold bind at 1. unfold ret at 1.
  unfold bind at 1. unfold pool_query at 1.
  cbn [record issued Pg.lessons lessons_seq schedule_changes client_tx List.length].
  rewrite F2. cbn [runOnLessons rowCount pgText Prim_toString].
  set (hit := taughtBy (rt_group_id req) (PStr (trim old))).
  unfold bind at 1.
  destruct (0 <? lengthZ (filter hit (Pg.lessons w))).
  - match goal with
    | |- context [Audit.logChange faults ?args ?w1] =>
        destruct (Audit.logChange faults args w1) as [rl wl] eqn:Hlog
    end.
    pose proof (logChange_lessons faults _ _ _ _ Hlog) as Hl.
    cbn [Pg.lessons] in Hl.
    destruct rl as [[]|e]; unfold ret; intros [= <- <-];
      (split; [exact Hl|]); intros Hu Hnn; auto.
    exfalso. destruct (logChange_positional faults _ _ _ _ _ Hu Hnn Hlog) as [Hbad _].
    discriminate Hbad.
  - unfold ret. intros [= <- <-]. cbn [Pg.lessons]. auto.
Qed.

(** X19.  With its two statements answered, [replaceTeacher] puts the new
    name, trimmed as JavaScript trims (white space and line terminators of
    Unicode, the no-break space among them), on every lesson of the group
    whose teacher is the old name, trimmed, and changes nothing else: no row
    appears or disappears, rows that did not match are untouched, and when
    the two trimmed names differ no lesson of the group keeps the old one.
    The group is matched as PostgreSQL does it, read as an integer. *)
Theorem replaceTeacher_renames
    (req : ReplaceTeacherRequest) (old new : string) (w : World)
    (r : Outcome Response) (w' : World) :
  truthy (rt_group_id req) = true ->
  old_teacher req = PStr old -> old <> EmptyString ->
  new_teacher req = PStr new -> new <> EmptyString ->
  faults (List.length (issued w)) = false ->
  faults (S (List.length (issued w))) = false ->
  replaceTeacher faults req w = (r, w') ->
  let hit := taughtBy (rt_group_id req) (PStr (trim old)) in
  map Pg.id (Pg.lessons w') = map Pg.id (Pg.lessons w) /\
  (user_id (rt_user req) <> PUndefined -> user_id (rt_user req) <> PNull ->
   r = Ok (mkResponse 200 (replaceMessage (lengthZ (filter hit (Pg.lessons w)))))) /\
  (forall x, In x (Pg.lessons w) -> hit x = false -> In x (Pg.lessons w')) /\
  (forall x, In x (Pg.lessons w) -> hit x = true ->
             In (setTeacher (Some (trim new)) x) (Pg.lessons w')) /\
  (trim new <> trim old -> filter hit (Pg.lessons w') = []).
Proof.
  intros Hg Hold Ho Hnew Hn F1 F2 Hrun. cbv zeta.
  destruct (replaceTeacher_answered req old new w r w' Hg Hold Ho Hnew Hn F1 F2 Hrun)
    as (Hl & Hr).
  rewrite Hl. split; [apply setTeacher_ids|]. split; [exact Hr|].
  split; [|split].
  - intros x Hx Hhit. apply in_map_iff. exists x. now rewrite Hhit.
  - intros x Hx Hhit. apply in_map_iff. exists x. now rewrite Hhit.
  - intros Hdiff. apply filter_nothing. intros y Hy.
    apply in_map_iff in Hy. destruct Hy as (x & <- & Hx).
    destruct (taughtBy (rt_group_id req) (PStr (trim old)) x) eqn:Hhit; auto.
    unfold taughtBy. cbn [setTeacher group_id teacher pgText Prim_toString sql_eq].
    replace (String.eqb (trim new) (trim old)) with false; [apply andb_false_r|].
    symmetry. now apply String.eqb_neq.
Qed.

(** X20.  A teacher name that is not a string (a number, [true]) has no
    [trim]: the call is answered 500 and neither lessons nor audit records
    change. *)
Theorem replaceTeacher_rejects_a_name_that_is_no_string
    (req : ReplaceTeacherRequest) (w : World) (r : Outcome Response) (w' : World) :
  truthy (rt_group_id req) = true ->
  truthy (old_teacher req) = true ->
  truthy (new_teacher req) = true ->
  (forall s, old_teacher req <> PStr s) \/ (forall s, new_teacher req <> PStr s) ->
  replaceTeacher faults req w = (r, w') ->
  r = Ok (mkResponse 500 "Ошибка сервера") /\
  Pg.lessons w' = Pg.lessons w /\
  schedule_changes w' = schedule_changes w.
Proof.
  intros Hg Ho Hn Hbad.
  unfold replaceTeacher. rewrite Hg, Ho, Hn. cbn [negb orb].
  unfold tryCatch. unfold bind at 1.
  destruct (old_teacher req) as [| |b|n|o] eqn:Hold;
    try (cbn [trimOf]; unfold throw, ret; intros [= <- <-]; auto; fail).
  cbn [trimOf]. unfold ret at 1.
  unfold bind at 1. unfold pool_query at 1.
  destruct (faults (List.length (issued w))).
  { unfold ret. intros [= <- <-]. auto. }
  cbn [record issued Pg.lessons lessons_seq schedule_changes client_tx runOnLessons].
  unfold bind at 1.
  destruct Hbad as [Hbad | Hbad]; [exfalso; apply (Hbad o); reflexivity|].
  destruct (new_teacher req) as [| |b|n|s] eqn:Hnew;
    try (cbn [trimOf]; unfold throw, ret; intros [= <- <-]; auto; fail).
  exfalso. apply (Hbad s). reflexivity.
Qed.

End BulkFacts.

Section BulkInstances.

#[local] Existing Instance sampleBackend.

(** Week type 1 of group 5 copied onto week type 2, which held one lesson;
    the target arrives as the string ["2"]. *)
Lemma copyWeek_replaces_target_by_source_witness :
  let req := mkCopyWeek admin7 (PNum 5) (PNum 1) (PStr "2") in
  let run := copyWeek noFaults req templateWorld in
  filter (inWeek (PNum 5) (PStr "2")) (Pg.lessons (snd run))
  = copyAll (PNum 5) (PStr "2") 3 [template 1 1 "Algebra" "Ivanov"] /\
  filter (inWeek (PNum 5) (PNum 1)) (Pg.lessons (snd run))
  = [template 1 1 "Algebra" "Ivanov"] /\
  filter (fun x => negb (inWeek (PNum 5) (PStr "2") x)) (Pg.lessons (snd run))
  = filter (fun x => negb (inWeek (PNum 5) (PStr "2") x)) (Pg.lessons templateWorld) /\
  (user_id admin7 <> PUndefined -> user_id admin7 <> PNull ->
   fst run = Ok (mkResponse 200 (copyMessage (PNum 1) (PStr "2")))).
Proof.
  cbv zeta.
  apply (copyWeek_replaces_target_by_source noFaults
           (mkCopyWeek admin7 (PNum 5) (PNum 1) (PStr "2")) templateWorld
           (fst (copyWeek noFaults (mkCopyWeek admin7 (PNum 5) (PNum 1) (PStr "2"))
                   templateWorld)));
    try reflexivity; try discriminate; vm_compute; discriminate.
Defined.

(** The copy of the witness above, row by row: the week of the copies is the
    integer 2, and the lesson that week 2 held before is gone. *)
Example copyWeek_with_the_week_as_text :
  Pg.lessons (snd (copyWeek noFaults (mkCopyWeek admin7 (PNum 5) (PNum 1) (PStr "2"))
                     templateWorld))
  = [template 1 1 "Algebra" "Ivanov";
     mkLesson 3 (Some 5) None (Some 0) (Some 28800) (Some 34200) (Some "Algebra"%string)
              None (Some "Ivanov"%string) (Some "101"%string) (Some "lecture"%string)
              (Some 2)].
Proof. vm_compute. reflexivity. Qed.

(** Group 5 has no template of week type 0. *)
Lemma copyWeek_nothing_to_copy_witness :
  let req := mkCopyWeek admin7 (PNum 5) (PNum 0) (PNum 2) in
  let run := copyWeek noFaults req templateWorld in
  fst run = Ok (mkResponse 404 "Нет занятий для копирования") /\
  Pg.lessons (snd run) = Pg.lessons templateWorld /\
  schedule_changes (snd run) = schedule_changes templateWorld /\
  issued (snd run) = SelectWeek (PNum 5) (PNum 0) :: issued templateWorld.
Proof.
  cbv zeta.
  apply (copyWeek_nothing_to_copy noFaults
           (mkCopyWeek admin7 (PNum 5) (PNum 0) (PNum 2)) templateWorld);
    try reflexivity; discriminate.
Defined.

(** The group arrives as the string ["5"], the week as ["1"]. *)
Lemma clearWeek_removes_the_week_witness :
  let req := mkClearWeek admin7 (PStr "5") (PStr "1") in
  let run := clearWeek noFaults req templateWorld in
  filter (inWeek (PStr "5") (PStr "1")) (Pg.lessons (snd run)) = [] /\
  filter (fun x => negb (inWeek (PStr "5") (PStr "1") x)) (Pg.lessons (snd run))
  = filter (fun x => negb (inWeek (PStr "5") (PStr "1") x)) (Pg.lessons templateWorld) /\
  (user_id admin7 <> PUndefined -> user_id admin7 <> PNull ->
   fst run = Ok (mkResponse 200 (clearMessage 1))).
Proof.
  cbv zeta.
  apply (clearWeek_removes_the_week noFaults (mkClearWeek admin7 (PStr "5") (PStr "1"))
           templateWorld
           (fst (clearWeek noFaults (mkClearWeek admin7 (PStr "5") (PStr "1"))
                   templateWorld)));
    try reflexivity; discriminate.
Defined.

(** What is left after the witness above: the one template of week 2. *)
Example clearWeek_with_parameters_as_text :
  Pg.lessons (snd (clearWeek noFaults (mkClearWeek admin7 (PStr "5") (PStr "1"))
                     templateWorld))
  = [template 2 2 "History" "Petrov"].
Proof. vm_compute. reflexivity. Qed.

Lemma clearWeek_twice_witness :
  let req := mkClearWeek admin7 (PNum 5) (PNum 1) in
  let first := clearWeek noFaults req templateWorld in
  let second := clearWeek noFaults req (snd first) in
  fst second = Ok (mkResponse 200 (clearMessage 0)) /\
  Pg.lessons (snd second) = Pg.lessons (snd first) /\
  schedule_changes (snd second) = schedule_changes (snd first).
Proof.
  cbv zeta.
  apply (clearWeek_twice noFaults (mkClearWeek admin7 (PNum 5) (PNum 1))
           templateWorld
           (snd (clearWeek noFaults (mkClearWeek admin7 (PNum 5) (PNum 1))
                   templateWorld))
           (snd (clearWeek noFaults (mkClearWeek admin7 (PNum 5) (PNum 1))
                   (snd (clearWeek noFaults (mkClearWeek admin7 (PNum 5) (PNum 1))
                           templateWorld))))
           (fst (clearWeek noFaults (mkClearWeek admin7 (PNum 5) (PNum 1))
                   templateWorld)));
    try reflexivity; discriminate.
Defined.

(** [trim] on the white space of JavaScript: blanks, a tab and a line feed, the
    no-break space U+00A0, the ideographic space U+3000 and the byte order
    mark U+FEFF go; what is inside the name stays. *)
Example trim_samples :
  trim " Ivanov " = "Ivanov"%string /\
  trim (nbsp ++ "Ivanov" ++ nbsp) = "Ivanov"%string /\
  trim (ideographicSpace ++ byteOrderMark ++ "Ivanov I. I." ++ tabAndLineFeed)
  = "Ivanov I. I."%string /\
  trim ("Ivanov" ++ nbsp ++ "I.") = ("Ivanov" ++ nbsp ++ "I.")%string /\
  trim (nbsp ++ " ") = EmptyString.
Proof. vm_compute. repeat split. Qed.

(** The old name arrives with a no-break space before it and a blank after
    it, the new one with blanks, the group as the string ["5"]. *)
Lemma replaceTeacher_renames_witness :
  let req := mkReplaceTeacher admin7 (PStr "5") (PStr (nbsp ++ "Ivanov "))
                              (PStr "Sidorov  ") in
  let run := replaceTeacher noFaults req templateWorld in
  let hit := taughtBy (PStr "5") (PStr "Ivanov") in
  map Pg.id (Pg.lessons (snd run)) = map Pg.id (Pg.lessons templateWorld) /\
  (user_id admin7 <> PUndefined -> user_id admin7 <> PNull ->
   fst run = Ok (mkResponse 200 (replaceMessage 1))) /\
  (forall x, In x (Pg.lessons templateWorld) -> hit x = false ->
             In x (Pg.lessons (snd run))) /\
  (forall x, In x (Pg.lessons templateWorld) -> hit x = true ->
             In (setTeacher (Some "Sidorov"%string) x) (Pg.lessons (snd run))) /\
  ("Sidorov"%string <> "Ivanov"%string -> filter hit (Pg.lessons (snd run)) = []).
Proof.
  cbv zeta.
  apply (replaceTeacher_renames noFaults
           (mkReplaceTeacher admin7 (PStr "5") (PStr (nbsp ++ "Ivanov "))
                             (PStr "Sidorov  "))
           (nbsp ++ "Ivanov ") "Sidorov  " templateWorld
           (fst (replaceTeacher noFaults
                   (mkReplaceTeacher admin7 (PStr "5") (PStr (nbsp ++ "Ivanov "))
                                     (PStr "Sidorov  "))
                   templateWorld)));
    try reflexivity; vm_compute; discriminate.
Defined.

(** The table after the witness above. *)
Example replaceTeacher_with_a_no_break_space :
  Pg.lessons (snd (replaceTeacher noFaults
                     (mkReplaceTeacher admin7 (PStr "5") (PStr (nbsp ++ "Ivanov "))
                                       (PStr "Sidorov  "))
                     templateWorld))
  = [template 1 1 "Algebra" "Sidorov"; template 2 2 "History" "Petrov"].
Proof. vm_compute. reflexivity. Qed.

Lemma replaceTeacher_rejects_a_name_that_is_no_string_witness :
  let req := mkReplaceTeacher admin7 (PNum 5) (PStr "Ivanov") (PNum 42) in
  let run := replaceTeacher noFaults req templateWorld in
  fst run = Ok (mkResponse 500 "Ошибка сервера") /\
  Pg.lessons (snd run) = Pg.lessons templateWorld /\
  schedule_changes (snd run) = schedule_changes templateWorld.
Proof.
  cbv zeta.
  apply (replaceTeacher_rejects_a_name_that_is_no_string noFaults
           (mkReplaceTeacher admin7 (PNum 5) (PStr "Ivanov") (PNum 42)) templateWorld);
    try reflexivity.
  right. intros s. discriminate.
Defined.

End BulkInstances.

(** ** Who may change the schedule *)

Section Access.

Context {backend : Backend}.

(** X21.  A user whose role is not [admin] changes nothing: the three bulk
    routes stop at [adminOnly] and the schedule-day handler at its own role
    check; each answers 403 and sends no statement. *)
Theorem non_admin_requests_are_refused
    (tz : Z) (Date_parse : string -> option Z) (faults : nat -> bool) (now : Z)
    (copy : CopyWeekRequest) (clear : ClearWeekRequest)
    (replace : ReplaceTeacherRequest) (day : DayRequest) (w : World) :
  role (cw_user copy) <> PStr "admin" ->
  role (cl_user clear) <> PStr "admin" ->
  role (rt_user replace) <> PStr "admin" ->
  role (user day) <> PStr "admin" ->
  exists denied,
    status denied = 403 /\
    copyWeekRoute faults copy w = (Ok denied, w) /\
    clearWeekRoute faults clear w = (Ok denied, w) /\
    replaceTeacherRoute faults replace w = (Ok denied, w) /\
    updateScheduleByDay tz Date_parse faults now day w = (Ok forbidden, w) /\
    status forbidden = 403.
Proof.
  assert (Hne : forall p, p <> PStr "admin" -> Prim_eqb p (PStr "admin") = false).
  { intros p Hp. destruct (Prim_eqb p (PStr "admin")) eqn:E; auto.
    apply Prim_eqb_eq in E. contradiction. }
  intros H1 H2 H3 H4. eexists. split; [|split; [|split; [|split; [|split]]]].
  2:{ unfold copyWeekRoute, adminOnly. rewrite (Hne _ H1). reflexivity. }
  - reflexivity.
  - unfold clearWeekRoute, adminOnly. rewrite (Hne _ H2). reflexivity.
  - unfold replaceTeacherRoute, adminOnly. rewrite (Hne _ H3). reflexivity.
  - unfold updateScheduleByDay. rewrite (Hne _ H4). reflexivity.
  - reflexivity.
Qed.

End Access.

Section AccessInstances.

#[local] Existing Instance sampleBackend.

Lemma non_admin_requests_are_refused_witness :
  let student := mkUser (PNum 9) (PStr "student") in
  exists denied,
    status denied = 403 /\
    copyWeekRoute noFaults (mkCopyWeek student (PNum 5) (PNum 1) (PNum 2)) templateWorld
    = (Ok denied, templateWorld) /\
    clearWeekRoute noFaults (mkClearWeek student (PNum 5) (PNum 1)) templateWorld
    = (Ok denied, templateWorld) /\
    replaceTeacherRoute noFaults
      (mkReplaceTeacher student (PNum 5) (PStr "Ivanov") (PStr "Sidorov")) templateWorld
    = (Ok denied, templateWorld) /\
    updateScheduleByDay tzEast3 parseIsoDate noFaults noon_2023_09_01
      (mkDayRequest student (PStr "2099-01-01") (PNum 1) (Some [physics])) templateWorld
    = (Ok forbidden, templateWorld) /\
    status forbidden = 403.
Proof.
  cbv zeta.
  apply (non_admin_requests_are_refused tzEast3 parseIsoDate noFaults noon_2023_09_01);
    discriminate.
Defined.

End AccessInstances.
